(** * matterircd: the IRC-side registry and the Slack event translator

    A shallow embedding of [mm-go-irckit/server.go] (module [Irckit]) and of
    the Slack bridge (module [SlackBridge]), with the properties of the
    registry, the handshake and the event translation proved over it.

    Conventions.
    - A Go [string] is a [string] (a sequence of bytes); [len] is
      [String.length], [s[:n]] is [slice_to], [<] on strings is the bytewise
      lexicographic order [String.ltb].
    - A Go [int] is a [Z].
    - A [*User] is an address ([loc]); the mutable [User] object a method
      works on is passed next to its address and handed back updated. A
      [Channel] value is a record that carries the address of its instance.
    - A [map] is a [gmap]; a missing key reads as [None].
    - What a function does besides changing the state (locking, replies sent
      with [Encode], goroutines started, bridge calls) is returned as a list
      of [effect]s in program order.
    - A run-time panic (slice bounds, nil dereference) is the result [None]
      of an [option]. *)

From Stdlib Require Import ZArith Lia String Ascii.
From stdpp Require Import gmap strings list fin_maps.

Local Open Scope Z_scope.

(** ** Strings *)

Module GoString.

(** [len(s)] *)
Definition len (s : string) : Z := Z.of_nat (String.length s).

(** [s[:n]]: panics unless [0 <= n <= len(s)]. *)
Definition slice_to (s : string) (n : Z) : option string :=
  if (n <? 0) || (len s <? n) then None
  else Some (substring 0 (Z.to_nat n) s).

(** [strings.HasPrefix(s, p)] *)
Definition HasPrefix (s p : string) : bool := String.prefix p s.

Definition newline : ascii := ascii_of_nat 10.

(** [strings.Split(s, "\n")]: the pieces between newlines; never empty. *)
Fixpoint split_lines (s : string) : list string :=
  match s with
  | EmptyString => [EmptyString]
  | String c r =>
      if Ascii.eqb c newline then EmptyString :: split_lines r
      else match split_lines r with
           | h :: t => String c h :: t
           | [] => [String c EmptyString]
           end
  end.

(** ASCII case folding, used to instantiate [strings.ToLower] and
    [strings.ToUpper] on concrete inputs. *)
Definition lower_ascii (c : ascii) : ascii :=
  let n := nat_of_ascii c in
  if (65 <=? n)%nat && (n <=? 90)%nat then ascii_of_nat (n + 32) else c.

Definition upper_ascii (c : ascii) : ascii :=
  let n := nat_of_ascii c in
  if (97 <=? n)%nat && (n <=? 122)%nat then ascii_of_nat (n - 32) else c.

Fixpoint map_string (f : ascii -> ascii) (s : string) : string :=
  match s with
  | EmptyString => EmptyString
  | String c r => String (f c) (map_string f r)
  end.

Definition ascii_ToLower : string -> string := map_string lower_ascii.
Definition ascii_ToUpper : string -> string := map_string upper_ascii.

End GoString.

Import GoString.

(** ** The IRC wire messages (package [irc]) *)

Module Irc.

Record Prefix := mkPrefix {
  PName : string;
  PUser : string;
  PHost : string }.

Record Message := mkMessage {
  MPrefix : option Prefix;
  Command : string;
  Params : list string;
  Trailing : string }.

Definition NICK : string := "NICK".
Definition USER : string := "USER".
Definition PASS : string := "PASS".
Definition JOIN : string := "JOIN".
Definition ERR_NICKNAMEINUSE : string := "433".
Definition ERR_NOTREGISTERED : string := "451".

End Irc.

(** ** The bridge's data (package [bridge]) *)

Module Bridge.

Record ChannelInfo := mkChannelInfo {
  CName : string;
  CID : string;
  CTeamID : string;
  CDM : bool;
  CPrivate : bool }.

(** [&bridge.ChannelInfo{}] *)
Definition emptyChannelInfo : ChannelInfo := mkChannelInfo "" "" "" false false.

Record UserInfo := mkUserInfo {
  UNick : string;
  UUser : string;
  UReal : string;
  UHost : string;
  URoles : string;
  UDisplayName : string;
  UGhost : bool;
  UMe : bool;
  UUsername : string;
  UFirstName : string;
  ULastName : string;
  UTeamID : string }.

(** [&bridge.UserInfo{}] *)
Definition emptyUserInfo : UserInfo :=
  mkUserInfo "" "" "" "" "" "" false false "" "" "" "".

Definition set_UNick (g : UserInfo) (n : string) : UserInfo :=
  mkUserInfo n (UUser g) (UReal g) (UHost g) (URoles g) (UDisplayName g)
    (UGhost g) (UMe g) (UUsername g) (UFirstName g) (ULastName g) (UTeamID g).

(** The [Data] of a [bridge.Event]. *)
Inductive EventData :=
| ChannelMessageEvent (text channelID : string) (sender : UserInfo)
| DirectMessageEvent (text channelID : string) (sender receiver : UserInfo)
| ChannelAddEvent (added : list UserInfo) (adder : option UserInfo)
    (channelID : string)
| ChannelRemoveEvent (removed : list UserInfo) (channelID : string)
| LogoutEvent.

Record Event := mkEvent {
  EType : string;
  EData : EventData }.

(** A message event, its channel and its sender. *)
Definition is_message (e : Event) : Prop :=
  match EData e with
  | ChannelMessageEvent _ _ _ => EType e = "channel_message"
  | DirectMessageEvent _ _ _ _ => EType e = "direct_message"
  | _ => False
  end.

Definition message_channel (e : Event) : option string :=
  match EData e with
  | ChannelMessageEvent _ c _ | DirectMessageEvent _ c _ _ => Some c
  | _ => None
  end.

Definition message_text (e : Event) : option string :=
  match EData e with
  | ChannelMessageEvent t _ _ | DirectMessageEvent t _ _ _ => Some t
  | _ => None
  end.

Definition message_sender (e : Event) : option UserInfo :=
  match EData e with
  | ChannelMessageEvent _ _ g | DirectMessageEvent _ _ g _ => Some g
  | _ => None
  end.

End Bridge.

(** ** The server registry ([mm-go-irckit/server.go]) *)

Module Irckit.

Import Irc Bridge.

(** Addresses of [User] and of channel objects. *)
Abbreviation loc := positive.

Definition handshakeMsgTolerance : Z := 20.

Inductive error :=
| ErrHandshakeFailed
| ErrOther (what : string).

(** The fields of [ServerConfig] that are data. *)
Record ServerConfig := mkConfig {
  Name : string;
  Version : string;
  Motd : list string;
  InviteOnly : bool;
  MaxNickLen : Z;
  DiscardEmpty : bool }.

(** A [User] object. [Pass] is a slice: [None] is [nil]. [uchannels] is the
    field [channels], the set of channels the user belongs to. *)
Record User := mkUser {
  Nick : string;
  Username : string;
  Real : string;
  Host : string;
  Pass : option (list string);
  uchannels : gset loc }.

(** Modelled from the spec: the [Channel] implementation (channel.go) is
    not part of the sources; a channel is [{id, displayName, ...}], created
    by [NewChannel(server, channelId, name, service, modes)], and it is
    dual-keyed by backend id and by display name: [ch.ID()] is [ch_id] and
    [ch.String()] is [ch_name]. [ch_ptr] is the address of the instance. *)
Record Channel := mkChannel {
  ch_ptr : loc;
  ch_id : string;
  ch_name : string;
  ch_service : string;
  ch_private : bool }.

#[global] Instance Channel_eq_dec : EqDecision Channel.
Proof. solve_decision. Defined.

(** [chStored == ch] on interface values holding pointers: same address. *)
Definition same_instance (stored : option Channel) (ch : Channel) : bool :=
  match stored with
  | Some c => bool_decide (ch_ptr c = ch_ptr ch)
  | None => false
  end.

(** The [server] struct: [config], [u], [users], [channels]. The last two
    fields are not fields of the struct: [members] is the member set kept
    by each channel object (Modelled from the spec: [members: set<User>]),
    [next_chan] the next unused channel address. *)
Record server := mkServer {
  config : ServerConfig;
  su : option loc;
  users : gmap string loc;
  channels : gmap string Channel;
  members : gmap loc (gset loc);
  next_chan : loc }.

Definition set_users (s : server) (m : gmap string loc) : server :=
  mkServer (config s) (su s) m (channels s) (members s) (next_chan s).

Definition set_channels (s : server) (m : gmap string Channel) (n : loc) : server :=
  mkServer (config s) (su s) (users s) m (members s) n.

Definition set_su (s : server) (u : loc) : server :=
  mkServer (config s) (Some u) (users s) (channels s) (members s) (next_chan s).

Definition set_Nick (usr : User) (n : string) : User :=
  mkUser n (Username usr) (Real usr) (Host usr) (Pass usr) (uchannels usr).

(** What the code does besides updating the registry, in program order. *)
Inductive effect :=
| Lock
| Unlock
| DelUser (key : string)
| PutUser (key : string) (u : loc)
| SetNick (u : loc) (nick : string)
| Encode (u : loc) (m : Message)
| CloseConn (u : loc)
| GoClose (u : loc)
| GoDecode (u : loc)
| GoHandle (u : loc)
| BridgeLogout (u : loc)
| Welcome (u : loc)
| LoginCall (u : loc) (service : string) (pass : list string)
| LogError (channelID : string).

Section Registry.

(** [strings.ToLower] *)
Variable ToLower : string -> string.

(** [u.Prefix()], from user.go. *)
Variable UserPrefix : User -> Prefix.

(** [ID] normalizes a name to be used as a unique identifier. *)
Definition ID (s : string) : string := ToLower s.

(** Modelled from the spec: [u.ID()] (user.go) is the key of [users],
    the normalized nick. *)
Definition uID (usr : User) : string := ID (Nick usr).

(** [s.Prefix()] *)
Definition ServerPrefix (s : server) : Prefix :=
  mkPrefix (Name (config s)) "" "".

(** [s.EncodeMessage(u, cmd, params, trailing)] *)
Definition EncodeMessage (s : server) (u : loc)
    (cmd : string) (params : list string) (trailing : string) : effect :=
  Encode u (mkMessage (Some (ServerPrefix s)) cmd params trailing).

(** Modelled from the spec: [ch.Users()] (channel.go), the members of a
    channel. *)
Definition chan_users (s : server) (c : loc) : gset loc :=
  default ∅ (members s !! c).

(** Modelled from the spec: [u.VisibleTo()] (user.go), every other user
    who shares at least one channel with [u]. *)
Definition VisibleTo (s : server) (u : loc) (usr : User) : list loc :=
  elements (⋃ (chan_users s <$> elements (uchannels usr)) ∖ {[u]}).

(** [HasUserID] *)
Definition HasUserID (s : server) (userID : string) : option loc :=
  users s !! ToLower userID.

(** The nick [RenameUser] works with: [newNick], or its first [max]
    bytes when it is longer. *)
Definition truncateNick (max : Z) (newNick : string) : string :=
  if max <? len newNick then substring 0 (Z.to_nat max) newNick else newNick.

(** [RenameUser]: the new nick is cut to [MaxNickLen] bytes; a taken key
    is reported to [u]; otherwise [u] is re-keyed under the lock and the
    change is sent to [u] and to [u.VisibleTo()]. *)
Definition RenameUser (s : server) (u : loc) (usr : User) (newNick : string)
  : option (bool * server * User * list effect) :=
  newNick ← (if MaxNickLen (config s) <? len newNick
             then slice_to newNick (MaxNickLen (config s))
             else Some newNick);
  match users s !! ID newNick with
  | Some _ =>
      Some (false, s, usr,
            [Lock; Unlock;
             EncodeMessage s u ERR_NICKNAMEINUSE [newNick]
               "Nickname is already in use"])
  | None =>
      let oldPrefix := UserPrefix usr in
      let usr' := set_Nick usr newNick in
      let s' := set_users s (<[uID usr' := u]> (delete (uID usr) (users s))) in
      let changeMsg := mkMessage (Some oldPrefix) NICK [newNick] "" in
      Some (true, s', usr',
            [Lock; DelUser (uID usr); SetNick u newNick;
             PutUser (uID usr') u; Unlock; Encode u changeMsg]
            ++ ((fun other => Encode other changeMsg) <$> VisibleTo s' u usr'))
  end.

(** The bridge the server talks to through [s.u.br]: [Protocol()],
    [GetChannelName(id)] and [GetChannel(id)] ([None] is an error). *)
Variable Protocol : string.
Variable GetChannelName : string -> string.
Variable GetChannel : string -> option ChannelInfo.

(** [HasChannel] *)
Definition HasChannel (s : server) (channelID : string) : option Channel :=
  channels s !! channelID.

(** Modelled from the spec: [NewChannel] (channel.go), the default of
    [config.NewChannel]; [modes["p"]] is the privacy flag. *)
Definition NewChannel (ptr : loc) (channelId name service : string)
    (private : bool) : Channel :=
  mkChannel ptr channelId name service private.

(** [Channel]: the stored instance, or a new one built from the bridge's
    metadata and stored under both its id and its name. [s.u] is [nil]
    until a user has registered. *)
Definition server_Channel (s : server) (channelID : string)
  : option (Channel * server * list effect) :=
  match channels s !! channelID with
  | Some ch => Some (ch, s, [Lock; Unlock])
  | None =>
      _ ← su s;
      let service := Protocol in
      let name := GetChannelName channelID in
      let '(info, logged) :=
        match GetChannel channelID with
        | Some info => (info, [])
        | None =>
            (emptyChannelInfo,
             if HasPrefix channelID "&" then [] else [LogError channelID])
        end in
      let ch := NewChannel (next_chan s) channelID name service (CPrivate info) in
      Some (ch,
            set_channels s (<[name := ch]> (<[channelID := ch]> (channels s)))
              (Pos.succ (next_chan s)),
            [Lock] ++ logged ++ [Unlock])
  end.

(** [UnlinkChannel]: both keys are deleted when the entry stored under
    the channel's name is this very instance. *)
Definition UnlinkChannel (s : server) (ch : Channel) : server * list effect :=
  let chStored := channels s !! ch_name ch in
  let r := same_instance chStored ch in
  if r
  then (set_channels s (delete (ch_id ch) (delete (ch_name ch) (channels s)))
          (next_chan s),
        [Lock; Unlock])
  else (s, [Lock; Unlock]).

(** [Quit]: what [Quit] itself does, in program order. [go u.Close()] is
    recorded as the effect [GoClose]: the goroutine is started, but the body
    of [User.Close] is in user.go and what it goes on to do (to the
    connection, the memberships of [u] or the channels) is not part of this
    model. The statements of [Quit] itself change the user map only. *)
Definition Quit (s : server) (u : loc) (usr : User) (message : string)
  : server * list effect :=
  (set_users s (delete (uID usr) (users s)),
   [GoClose u; Lock; DelUser (uID usr); Unlock; BridgeLogout u]).

(** [add] *)
Definition add (s : server) (u : loc) (usr : User)
  : bool * server * list effect :=
  let id := uID usr in
  match users s !! id with
  | Some _ => (false, s, [Lock; Unlock])
  | None => (true, set_users s (<[id := u]> (users s)),
             [Lock; PutUser id u; Unlock])
  end.

(** [u.ResolveHost()] and [s.welcome(u)]: the first is in user.go. The
    second writes the five welcome numerics to the connection through
    [u.Encode] (user.go) and ends in [CmdMotd] (commands.go); the call is
    recorded as the effect [Welcome], which stands for all it writes, and
    [welcome] is the error it returns. *)
Variable ResolveHost : User -> string.
Variable welcome : server -> loc -> User -> option error.

(** What [select] delivers in the handshake loop: a message from
    [u.DecodeCh] ([None] is a nil message), or the 10 second timer. *)
Inductive input :=
| Recv (msg : option Message)
| TimerFired.

Inductive hs_result :=
| Registered (err : option error)
| Failed (err : error)
| Waiting
| Panicked.

Definition hs_error (r : hs_result) : option error :=
  match r with
  | Registered e => e
  | Failed e => Some e
  | Waiting | Panicked => None
  end.

(** The [switch msg.Command] of the handshake. *)
Definition handshake_command (s : server) (u : loc) (usr : User)
    (msg : Message) (params : list string) (p0 : string) : User * list effect :=
  if (Command msg =? NICK)%string then
    (mkUser p0 (Username usr) (Real usr) (Host usr) (Pass usr) (uchannels usr), [])
  else if (Command msg =? USER)%string then
    (mkUser (Nick usr) p0 (Trailing msg) (Host usr) (Pass usr) (uchannels usr), [])
  else if (Command msg =? PASS)%string then
    (mkUser (Nick usr) (Username usr) (Real usr) (Host usr) (Some params)
       (uchannels usr), [])
  else if (Command msg =? JOIN)%string then
    (usr, [EncodeMessage s u ERR_NOTREGISTERED ["*"] "Please register first"])
  else (usr, []).

(** The backend login started after a successful welcome when PASS was
    given: one PASS argument selects slack, any other number mattermost. *)
Definition handshake_login (u : loc) (usr : User) (err : option error)
  : list effect :=
  match err, Pass usr with
  | None, Some pass =>
      let service :=
        if (Z.of_nat (length pass) =? 1) then "slack" else "mattermost" in
      [LoginCall u service pass]
  | _, _ => []
  end.

(** The loop of [handshake]: [i] counts down from
    [handshakeMsgTolerance]; [ins] is what arrives. The input running out
    means the loop is still waiting. *)
Fixpoint handshake_loop (s : server) (u : loc) (usr : User) (i : Z)
    (ins : list input) (done : list effect)
  : hs_result * server * User * list effect :=
  match ins with
  | [] => (Waiting, s, usr, done)
  | TimerFired :: _ => (Failed ErrHandshakeFailed, s, usr, done)
  | Recv msg :: rest =>
      let i := i - 1 in
      if i =? 0 then (Failed ErrHandshakeFailed, s, usr, done)
      else
        match msg with
        | None => handshake_loop s u usr i rest done
        | Some msg =>
            let params :=
              if ((Command msg =? NICK)%string || (Command msg =? PASS)%string)
                 && negb (Trailing msg =? "")%string
              then Params msg ++ [Trailing msg] else Params msg in
            match params with
            | [] => handshake_loop s u usr i rest done
            | p0 :: _ =>
                let '(usr, replies) := handshake_command s u usr msg params p0 in
                let done := done ++ replies in
                if (Nick usr =? "")%string || (Username usr =? "")%string
                then handshake_loop s u usr i rest done
                else
                  match (if MaxNickLen (config s) <? len (Nick usr)
                         then slice_to (Nick usr) (MaxNickLen (config s))
                         else Some (Nick usr)) with
                  | None => (Panicked, s, usr, done)
                  | Some nick =>
                      let usr := set_Nick usr nick in
                      let '(ok, s', locked) := add s u usr in
                      let done := done ++ locked in
                      if ok then
                        let s' := set_su s' u in
                        let err := welcome s' u usr in
                        (Registered err, s', usr,
                         done ++ [Welcome u] ++ handshake_login u usr err)
                      else
                        handshake_loop s' u usr i rest
                          (done ++ [EncodeMessage s' u ERR_NICKNAMEINUSE
                                      [Nick usr] "Nickname is already in use"])
                  end
            end
        end
  end.

(** [handshake] *)
Definition handshake (s : server) (u : loc) (usr : User) (ins : list input)
  : hs_result * server * User * list effect :=
  let usr := mkUser (Nick usr) (Username usr) (Real usr) (ResolveHost usr)
               (Pass usr) (uchannels usr) in
  handshake_loop s u usr handshakeMsgTolerance ins [GoDecode u].

(** [Connect]: a failed handshake closes the connection; a successful one
    starts the command loop. *)
Definition Connect (s : server) (u : loc) (usr : User) (ins : list input)
  : hs_result * server * User * list effect :=
  let '(r, s', usr', done) := handshake s u usr ins in
  match hs_error r, r with
  | _, Waiting | _, Panicked => (r, s', usr', done)
  | Some _, _ => (r, s', usr', done ++ [CloseConn u])
  | None, _ => (r, s', usr', done ++ [GoHandle u])
  end.

(** The number of messages among what arrives. *)
Fixpoint recv_count (ins : list input) : Z :=
  match ins with
  | [] => 0
  | Recv _ :: rest => 1 + recv_count rest
  | TimerFired :: rest => recv_count rest
  end.

(** A channel is registered when some key of [channels] holds it. *)
Definition registered (s : server) (ch : Channel) : Prop :=
  exists k, channels s !! k = Some ch.

(** The display name the bridge gives a new channel collides with no
    entry: it is the channel's own id, or no key of [channels] yet. *)
Definition name_unused (s : server) (channelID : string) : Prop :=
  channels s !! channelID = None ->
  GetChannelName channelID = channelID
  \/ channels s !! GetChannelName channelID = None.

(** The registries built by calls of [Channel] and [UnlinkChannel] from
    one without channels, with the channel instances created on the way;
    [allowed] says which calls of [Channel] are considered.
    [UnlinkChannel] is called on an instance that exists. *)
Inductive built (allowed : server -> string -> Prop)
  : server -> list Channel -> Prop :=
| built_empty s :
    channels s = ∅ -> built allowed s []
| built_Channel s created channelID ch s' done :
    built allowed s created ->
    allowed s channelID ->
    server_Channel s channelID = Some (ch, s', done) ->
    built allowed s' (ch :: created)
| built_Unlink s created ch :
    built allowed s created ->
    ch ∈ created ->
    built allowed (UnlinkChannel s ch).1 created.

Definition any_call (s : server) (channelID : string) : Prop := True.

(** The dual index: every entry of [channels] holds a created instance
    under its id or its name, and that instance is found under both;
    the created instances have distinct addresses below [next_chan]. *)
Definition dual_keyed (s : server) (created : list Channel) : Prop :=
  (forall k c, channels s !! k = Some c ->
     c ∈ created /\ (k = ch_id c \/ k = ch_name c)
     /\ channels s !! ch_id c = Some c /\ channels s !! ch_name c = Some c)
  /\ (forall c, c ∈ created -> (ch_ptr c < next_chan s)%positive)
  /\ (forall c c', c ∈ created -> c' ∈ created ->
        ch_ptr c = ch_ptr c' -> c = c').

End Registry.

End Irckit.

(** ** The Slack bridge and its event translator *)

Module SlackBridge.

Import Bridge.

(** The parts of the slack client's types the bridge reads. *)
Record UserProfile := mkProfile {
  FirstName : string;
  LastName : string;
  PRealName : string;
  DisplayName : string }.

Record SlackUser := mkSlackUser {
  SID : string;
  STeamID : string;
  SName : string;
  SRealName : string;
  Profile : UserProfile }.

Record Bot := mkBot { BotName : string }.

(** [rmsg.SubMessage], and the [Item.Message] of star and pin events. *)
Record Msg := mkMsg {
  MUser : string;
  MText : string;
  MTimestamp : string }.

Record Attachment := mkAttachment {
  Pretext : string;
  AText : string }.

Record File := mkFile {
  FMode : string;
  FName : string;
  FTitle : string;
  Filetype : string;
  URLPrivate : string }.

Record MessageEvent := mkMessageEvent {
  EvUser : string;
  EvChannel : string;
  EvTimestamp : string;
  SubType : string;
  SubMessage : option Msg;
  DeletedTimestamp : string;
  EvText : string;
  BotID : string;
  EvUsername : string;
  Attachments : list Attachment;
  Files : list File;
  ThreadTimestamp : string }.

Definition set_EvText (rmsg : MessageEvent) (t : string) : MessageEvent :=
  mkMessageEvent (EvUser rmsg) (EvChannel rmsg) (EvTimestamp rmsg) (SubType rmsg)
    (SubMessage rmsg) (DeletedTimestamp rmsg) t (BotID rmsg) (EvUsername rmsg)
    (Attachments rmsg) (Files rmsg) (ThreadTimestamp rmsg).


(** What arrives on [rtm.IncomingEvents], by the cases of the type switch
    in [handleSlack]. The item of a reaction event carries a channel and a
    timestamp; the item of a star or pin event carries a channel and a
    message pointer. *)
Inductive RTMEvent :=
| EvMessage (ev : MessageEvent)
| EvMemberLeftChannel (user channel : string)
| EvMemberJoinedChannel (user channel inviter : string)
| EvDisconnected
| EvReactionAdded (user reaction itemChannel itemTimestamp : string)
| EvReactionRemoved (user reaction itemChannel itemTimestamp : string)
| EvStarAdded (user itemChannel : string) (itemMessage : option Msg)
| EvStarRemoved (user itemChannel : string) (itemMessage : option Msg)
| EvPinAdded (user itemChannel : string) (itemMessage : option Msg)
| EvPinRemoved (user itemChannel : string) (itemMessage : option Msg)
| EvOther.

(** The fields of [Slack] the translator uses; [sinfo] is split into the
    three values read from it. *)
Record Slack := mkSlack {
  sinfo_UserID : string;
  sinfo_UserName : string;
  sinfo_TeamID : string;
  susers : gmap string SlackUser;
  msgLast : gmap string string }.

Definition set_susers (s : Slack) (m : gmap string SlackUser) : Slack :=
  mkSlack (sinfo_UserID s) (sinfo_UserName s) (sinfo_TeamID s) m (msgLast s).

Definition set_msgLast (s : Slack) (m : gmap string string) : Slack :=
  mkSlack (sinfo_UserID s) (sinfo_UserName s) (sinfo_TeamID s) (susers s) m.

(** What the translator does, in program order: reads of [msgLast], the
    sleep of the echo check (milliseconds), error logs, and events sent on
    [eventChan]. *)
Inductive action :=
| ReadLast (channel : string)
| Sleep (ms : Z)
| LogErr
| Emit (e : Event).

Definition emitted (acts : list action) : list Event :=
  omap (fun a => match a with Emit e => Some e | _ => None end) acts.

Definition sleeps (acts : list action) : list Z :=
  omap (fun a => match a with Sleep d => Some d | _ => None end) acts.

Definition reads (acts : list action) : list string :=
  omap (fun a => match a with ReadLast c => Some c | _ => None end) acts.

(** The result of [getSlackUserFromMessage]. *)
Inductive userLookup :=
| Found (u : SlackUser)
| LookupErr
| NilDeref.

Section Translator.

(** [strings.ToUpper] *)
Variable ToUpper : string -> string.

(** The slack client: [GetUserInfo], [GetBotInfo] ([None] is an error,
    with a nil result), [GetUsersInConversation] (errors ignored),
    [PostMessage] and [OpenConversation]. *)
Variable GetUserInfo : string -> option SlackUser.
Variable GetBotInfo : string -> option Bot.
Variable GetUsersInConversation : string -> list string.
Variable PostMessage : string -> string -> option string.
Variable OpenConversation : string -> option string.

(** Configuration: [slack.PreferNickname], [slack.UseDisplayName]. *)
Variable PreferNickname UseDisplayName : bool.

(** Helpers of the bridge defined in its other files. *)
Variable isValidNick : string -> bool.
Variable cleanupMessage : string -> string.
Variable formatTS : string -> string.
Variable sprintfEmpty : MessageEvent -> string.

(** What other goroutines ([MsgChannel], [MsgUser]) do to [msgLast] while
    the translator sleeps. *)
Variable meanwhile : gmap string string -> gmap string string.

(** [s.msgLast[c]]: a missing key reads as the empty string. *)
Definition lastSent (s : Slack) (c : string) : string :=
  default "" (msgLast s !! c).

(** [MsgChannel] *)
Definition MsgChannel (s : Slack) (channelID text : string)
  : option string * Slack :=
  match PostMessage (ToUpper channelID) text with
  | None => (None, s)
  | Some msgID =>
      (Some msgID, set_msgLast s (<[ToUpper channelID := msgID]> (msgLast s)))
  end.

(** [MsgUser] *)
Definition MsgUser (s : Slack) (username text : string)
  : option string * Slack :=
  match OpenConversation username with
  | None => (None, s)
  | Some dchannel =>
      match PostMessage dchannel text with
      | None => (None, s)
      | Some msgID =>
          (Some msgID, set_msgLast s (<[dchannel := msgID]> (msgLast s)))
      end
  end.

(** [createUser] *)
Definition createUser (s : Slack) (slackuser : option SlackUser) : UserInfo :=
  match slackuser with
  | None => emptyUserInfo
  | Some slackuser =>
      let nick :=
        if (PreferNickname || UseDisplayName)
           && isValidNick (DisplayName (Profile slackuser))
        then DisplayName (Profile slackuser) else SName slackuser in
      let me := (SID slackuser =? sinfo_UserID s)%string in
      mkUserInfo nick (SID slackuser) (SRealName slackuser) "host" ""
        (DisplayName (Profile slackuser)) true me
        (PRealName (Profile slackuser)) (FirstName (Profile slackuser))
        (LastName (Profile slackuser)) (sinfo_TeamID s)
  end.

(** [getSlackUser]: the cache, then the client; a found user is cached. *)
Definition getSlackUser (s : Slack) (userID : string)
  : option SlackUser * Slack :=
  match susers s !! userID with
  | Some user => (Some user, s)
  | None =>
      match GetUserInfo userID with
      | None => (None, s)
      | Some user => (Some user, set_susers s (<[SID user := user]> (susers s)))
      end
  end.

(** [GetUser] *)
Definition GetUser (s : Slack) (userID : string) : UserInfo * Slack :=
  let '(suser, s') := getSlackUser s userID in
  (createUser s' suser, s').

(** [GetMe] *)
Definition GetMe (s : Slack) : UserInfo :=
  createUser s (GetUserInfo (sinfo_UserID s)).

(** [sendDirectMessage] and [sendPublicMessage] *)
Definition sendDirectMessage (sender receiver : UserInfo)
    (msg channelID : string) : action :=
  Emit (mkEvent "direct_message"
          (DirectMessageEvent msg channelID sender receiver)).

Definition sendPublicMessage (ghost : UserInfo) (msg channelID : string)
  : action :=
  Emit (mkEvent "channel_message" (ChannelMessageEvent msg channelID ghost)).

(** The receiver of a direct message: the ghost itself, or, when the
    ghost is the local account, the last other member of the
    conversation. *)
Definition directReceiver (s : Slack) (ghost : UserInfo) (channelID : string)
  : UserInfo :=
  if UMe ghost then
    fold_left
      (fun receiver member =>
         if (member =? UUser (GetMe s))%string then receiver
         else createUser s (GetUserInfo member))
      (GetUsersInConversation channelID) ghost
  else ghost.

(** [handleActionMisc] *)
Definition handleActionMisc (s : Slack) (userID channelID msg : string)
  : list action :=
  match GetUserInfo userID with
  | None => []
  | Some suser =>
      let ghost := createUser s (Some suser) in
      if HasPrefix channelID "D" then
        [sendDirectMessage ghost (directReceiver s ghost channelID) msg channelID]
      else
        [Emit (mkEvent "channel_message"
                 (ChannelMessageEvent msg channelID ghost))]
  end.

(** [handleMemberLeftChannel] *)
Definition handleMemberLeftChannel (s : Slack) (user channel : string)
  : Slack * list action :=
  let '(removed, s1) := GetUser s user in
  (s1, [Emit (mkEvent "channel_remove" (ChannelRemoveEvent [removed] channel))]).

(** [handleMemberJoinedChannel] *)
Definition handleMemberJoinedChannel (s : Slack) (user channel inviter : string)
  : Slack * list action :=
  let '(adder, s1) :=
    if negb (inviter =? "")%string then
      let '(inv, s1) := GetUser s inviter in
      (Some (set_UNick emptyUserInfo (UNick inv)), s1)
    else (None, s) in
  let '(added, s2) := GetUser s1 user in
  (s2, [Emit (mkEvent "channel_add" (ChannelAddEvent [added] adder channel))]).

(** [getSlackUserFromMessage]: the user the message is attributed to.
    [rmsg.SubMessage] is a pointer, and [GetBotInfo] returns a nil bot
    with its error. *)
Definition getSlackUserFromMessage (s : Slack) (rmsg : MessageEvent) : userLookup :=
  match (if (SubType rmsg =? "message_changed")%string
         then MUser <$> SubMessage rmsg else Some (EvUser rmsg)) with
  | None => NilDeref
  | Some usr =>
      let usr :=
        if (SubType rmsg =? "message_deleted")%string then "USLACKBOT" else usr in
      if (SubType rmsg =? "bot_message")%string then
        if (EvUsername rmsg =? "")%string then
          match GetBotInfo (BotID rmsg) with
          | None => NilDeref
          | Some bot =>
              Found (mkSlackUser (BotID rmsg) (sinfo_TeamID s) (BotName bot) ""
                       (mkProfile "bot" "bot" "bot" (BotName bot)))
          end
        else
          Found (mkSlackUser (BotID rmsg) (sinfo_TeamID s) (EvUsername rmsg) ""
                   (mkProfile "bot" "bot" "bot" ""))
      else
        match GetUserInfo usr with
        | None => LookupErr
        | Some suser => Found suser
        end
  end.

(** The own-message check at the head of [handleSlackActionPost]: whether
    the event is the echo of the message just sent. The recorded id is
    read; when it is smaller than the event's timestamp the translator
    sleeps 100 ms and reads it again. *)
Definition echoCheck (s : Slack) (rmsg : MessageEvent)
  : bool * Slack * list action :=
  if (EvUser rmsg =? sinfo_UserID s)%string then
    let lastmsg := lastSent s (EvChannel rmsg) in
    let '(lastmsg, s, acts) :=
      if (lastmsg <? EvTimestamp rmsg)%string then
        let s' := set_msgLast s (meanwhile (msgLast s)) in
        (lastSent s' (EvChannel rmsg), s',
         [ReadLast (EvChannel rmsg); Sleep 100; ReadLast (EvChannel rmsg)])
      else (lastmsg, s, [ReadLast (EvChannel rmsg)]) in
    ((lastmsg =? EvTimestamp rmsg)%string, s, acts)
  else (false, s, []).

(** The loop over the rows of one attachment's text: each row is quoted;
    after the row of an index above 4 the marker follows and the loop
    ends. *)
Fixpoint attachRows (i : Z) (rows : list string) : list string :=
  match rows with
  | [] => []
  | row :: rest =>
      ("> " +:+ row)
        :: (if 4 <? i then ["> ..."] else attachRows (i + 1) rest)
  end.

(** The rendered body of an attachment whose text is not empty. *)
Definition attachBody (text : string) : list string :=
  attachRows 0 (split_lines text).

(** The most rows of an attachment body that are rendered: those of the
    indices 0 to 5. *)
Definition attachLineCap : nat := 6.

(** One turn of the loop over [rmsg.Attachments]. *)
Definition attachLines (acc : list string * bool) (attach : Attachment)
  : list string * bool :=
  let '(msgs, msghandled) :=
    if negb (Pretext attach =? "")%string
    then (acc.1 ++ split_lines (Pretext attach), true) else acc in
  if (AText attach =? "")%string then (msgs, msghandled)
  else (msgs ++ attachBody (AText attach), true).

(** One turn of the loop over [rmsg.Files]. *)
Definition fileLine (acc : list string * bool) (file : File)
  : list string * bool :=
  (acc.1 ++ ["Uploaded " +:+ FMode file +:+ " " +:+ FName file +:+ " / "
             +:+ FTitle file +:+ " (" +:+ Filetype file +:+ "): "
             +:+ URLPrivate file], true).

(** [msgs[0] = tag + msgs[0]] when [len(msgs) > 0]. *)
Definition markFirst (tag : string) (msgs : list string) : list string :=
  match msgs with
  | [] => []
  | m :: rest => (tag +:+ m) :: rest
  end.

(** The lines of a message and whether anything was found in it. *)
Definition renderLines (rmsg : MessageEvent) : option (list string * bool) :=
  let acc :=
    if negb (EvText rmsg =? "")%string
    then (split_lines (EvText rmsg), true) else ([], false) in
  let acc := fold_left attachLines (Attachments rmsg) acc in
  let '(msgs, msghandled) := fold_left fileLine (Files rmsg) acc in
  let msgs :=
    if msghandled && negb (ThreadTimestamp rmsg =? "")%string
    then markFirst ("[T " +:+ formatTS (ThreadTimestamp rmsg) +:+ "] ") msgs
    else msgs in
  if (SubType rmsg =? "message_changed")%string then
    sub ← SubMessage rmsg;
    Some (markFirst ("[C " +:+ formatTS (MTimestamp sub) +:+ "] ")
            (msgs ++ split_lines (MText sub)), true)
  else Some (msgs, msghandled).

(** The body of the loop over the lines: a direct message on a channel
    whose id starts with D, a channel message otherwise. *)
Definition deliver (s : Slack) (rmsg : MessageEvent) (ghost : UserInfo)
    (spoofUsername : string) (msghandled : bool) (msg : string) : action :=
  let msg := cleanupMessage msg in
  let msg := if negb msghandled then sprintfEmpty rmsg else msg in
  if HasPrefix (EvChannel rmsg) "D" then
    sendDirectMessage ghost (directReceiver s ghost (EvChannel rmsg))
      msg (EvChannel rmsg)
  else
    sendPublicMessage (set_UNick ghost spoofUsername) msg (EvChannel rmsg).

(** The text of a deleted message is replaced. *)
Definition markDeleted (rmsg : MessageEvent) : MessageEvent :=
  if (SubType rmsg =? "message_deleted")%string
  then set_EvText rmsg
         ("[M " +:+ formatTS (DeletedTimestamp rmsg) +:+ "] Message deleted")
  else rmsg.

(** What [handleSlackActionPost] does with an event that is not the echo
    of an own message. *)
Definition translatePost (s : Slack) (rmsg : MessageEvent)
  : option (list action) :=
  let rmsg := markDeleted rmsg in
  match getSlackUserFromMessage s rmsg with
  | NilDeref => None
  | LookupErr => Some [LogErr]
  | Found suser =>
      let ghost := createUser s (Some suser) in
      let spoofUsername := UNick ghost in
      match renderLines rmsg with
      | None => None
      | Some (msgs, msghandled) =>
          Some (deliver s rmsg ghost spoofUsername msghandled <$> msgs)
      end
  end.

(** [handleSlackActionPost] *)
Definition handleSlackActionPost (s : Slack) (rmsg : MessageEvent)
  : option (Slack * list action) :=
  let '(echo, s, acts) := echoCheck s rmsg in
  if echo then Some (s, acts)
  else
    match translatePost s rmsg with
    | None => None
    | Some out => Some (s, acts ++ out)
    end.

(** One turn of the loop of [handleSlack]. *)
Definition handleSlackEvent (s : Slack) (msg : RTMEvent)
  : option (Slack * list action) :=
  match msg with
  | EvMessage ev =>
      if bool_decide (SubType ev ∈
           ["group_join"; "channel_join"; "group_leave"; "channel_leave"])
      then Some (s, [])
      else handleSlackActionPost s ev
  | EvMemberLeftChannel user channel =>
      Some (handleMemberLeftChannel s user channel)
  | EvMemberJoinedChannel user channel inviter =>
      Some (handleMemberJoinedChannel s user channel inviter)
  | EvDisconnected => Some (s, [])
  | EvReactionAdded user reaction channel ts =>
      Some (s, handleActionMisc s user channel
                 ("[M " +:+ formatTS ts +:+ "] Added reaction :"
                  +:+ reaction +:+ ":"))
  | EvReactionRemoved user reaction channel ts =>
      Some (s, handleActionMisc s user channel
                 ("[M " +:+ formatTS ts +:+ "] Removed reaction :"
                  +:+ reaction +:+ ":"))
  | EvStarAdded user channel (Some m) =>
      Some (s, handleActionMisc s user channel
                 ("[M " +:+ formatTS (MTimestamp m) +:+ "] Message starred ("
                  +:+ MText m +:+ ")"))
  | EvStarRemoved user channel (Some m) =>
      Some (s, handleActionMisc s user channel
                 ("[M " +:+ formatTS (MTimestamp m) +:+ "] Message unstarred ("
                  +:+ MText m +:+ ")"))
  | EvPinAdded user channel (Some m) =>
      Some (s, handleActionMisc s user channel
                 ("[M " +:+ formatTS (MTimestamp m) +:+ "] Message pinned ("
                  +:+ MText m +:+ ")"))
  | EvPinRemoved user channel (Some m) =>
      Some (s, handleActionMisc s user channel
                 ("[M " +:+ formatTS (MTimestamp m) +:+ "] Message unpinned ("
                  +:+ MText m +:+ ")"))
  | EvStarAdded _ _ None | EvStarRemoved _ _ None
  | EvPinAdded _ _ None | EvPinRemoved _ _ None => Some (s, [])
  | EvOther => Some (s, [])
  end.

(** [handleSlack]: the events are translated one at a time, in order. *)
Fixpoint handleSlack (s : Slack) (evs : list RTMEvent)
  : option (Slack * list action) :=
  match evs with
  | [] => Some (s, [])
  | ev :: rest =>
      match handleSlackEvent s ev with
      | None => None
      | Some (s1, out1) =>
          match handleSlack s1 rest with
          | None => None
          | Some (s2, out2) => Some (s2, out1 ++ out2)
          end
      end
  end.

End Translator.

End SlackBridge.

(** ** Concrete registries and events *)

Module Samples.

Import Irc Bridge Irckit.

Definition cfg : ServerConfig :=
  mkConfig "matterircd" "go-irckit" [] false 32 false.

Definition prefixOf (usr : User) : Prefix :=
  mkPrefix (Nick usr) (Username usr) (Host usr).

(** The user at address 1, member of the channel at address 7. *)
Definition alice : User := mkUser "Alice" "alice" "Alice A" "irc.example" None {[7%positive]}.

Definition newcomer : User := mkUser "" "" "" "" None ∅.

(** A registry holding [alice] and no channel yet. *)
Definition srv0 : server :=
  mkServer cfg (Some 1%positive) {["alice" := 1%positive]} ∅ ∅ 7%positive.

(** A bridge that names every channel after its id. *)
Definition nameById (channelID : string) : string := "#" +:+ channelID.

(** A bridge on which two ids carry one display name. *)
Definition nameShared (channelID : string) : string := "#general".

Definition noInfo (channelID : string) : option ChannelInfo := None.

Definition chanC1 : Channel := mkChannel 7 "C1" "#C1" "slack" false.

Definition chanA : Channel := mkChannel 7 "C1" "#general" "slack" false.
Definition chanB : Channel := mkChannel 8 "C2" "#general" "slack" false.

(** [srv0] after [Channel("C1")] and [Channel("C2")] on the bridge with
    the shared name. *)
Definition srvShared : server :=
  mkServer cfg (Some 1%positive) {["alice" := 1%positive]}
    (<["#general" := chanB]> (<["C2" := chanB]>
       (<["#general" := chanA]> (<["C1" := chanA]> ∅))))
    ∅ 9%positive.

(** [srv0] after [Channel("C1")] on the bridge [nameById]. *)
Definition srvC1 : server :=
  mkServer cfg (Some 1%positive) {["alice" := 1%positive]}
    (<["#C1" := chanC1]> (<["C1" := chanC1]> ∅)) ∅ 8%positive.

Definition noWelcomeError (s : server) (u : positive) (usr : User)
  : option error := None.

Definition hostOf (usr : User) : string := "irc.example".

Definition ping : Message := mkMessage None "PING" ["x"] "".

End Samples.

Module SlackSamples.

Import Bridge SlackBridge.

Definition me : SlackUser :=
  mkSlackUser "U1" "T1" "me" "Me Myself" (mkProfile "Me" "Myself" "Me Myself" "me").

Definition bob : SlackUser :=
  mkSlackUser "U2" "T1" "bob" "Bob B" (mkProfile "Bob" "B" "Bob B" "bobby").

(** A client that knows the users U1 and U2. *)
Definition userInfo (userID : string) : option SlackUser :=
  if (userID =? "U1")%string then Some me
  else if (userID =? "U2")%string then Some bob
  else None.

Definition noBot (botID : string) : option Bot := None.
Definition noMembers (channelID : string) : list string := [].
Definition noConversation (user : string) : option string := None.
Definition anyNick (nick : string) : bool := true.
Definition asIs (text : string) : string := text.
Definition emptyDump (rmsg : MessageEvent) : string := "Empty".
Definition nothingSent (m : gmap string string) : gmap string string := m.

(** The bridge of the account U1, with nothing sent yet. *)
Definition slack0 : Slack := mkSlack "U1" "me" "T1" ∅ ∅.

(** The bridge after the local send path recorded the id 100 for C1. *)
Definition slackSent : Slack := mkSlack "U1" "me" "T1" ∅ {["C1" := "100"]}.

(** A plain message on a channel. *)
Definition post (user channel ts text : string) : MessageEvent :=
  mkMessageEvent user channel ts "" None "" text "" "" [] [] "".

Definition ghostOf (su : SlackUser) (isMe : bool) : UserInfo :=
  mkUserInfo (SName su) (SID su) (SRealName su) "host" ""
    (DisplayName (Profile su)) true isMe (PRealName (Profile su))
    (FirstName (Profile su)) (LastName (Profile su)) "T1".

(** The translator on the sample client. *)
Definition handle : Slack -> RTMEvent -> option (Slack * list action) :=
  handleSlackEvent userInfo noBot noMembers false false anyNick asIs asIs
    emptyDump nothingSent.

Definition handlePost : Slack -> MessageEvent -> option (Slack * list action) :=
  handleSlackActionPost userInfo noBot noMembers false false anyNick asIs asIs
    emptyDump nothingSent.

Definition nl : string := String newline "".

(** An attachment text of eight lines. *)
Definition eightLines : string :=
  "r1" +:+ nl +:+ "r2" +:+ nl +:+ "r3" +:+ nl +:+ "r4" +:+ nl
  +:+ "r5" +:+ nl +:+ "r6" +:+ nl +:+ "r7" +:+ nl +:+ "r8".

(** An attachment text of six lines. *)
Definition sixLines : string :=
  "r1" +:+ nl +:+ "r2" +:+ nl +:+ "r3" +:+ nl +:+ "r4" +:+ nl
  +:+ "r5" +:+ nl +:+ "r6".

End SlackSamples.

(** ** The rest of the registry ([mm-go-irckit/server.go]) *)

Module IrckitRest.

Import Irc Bridge Irckit.

Definition defaultVersion : string := "go-irckit".

(** [ServerConfig.Server()]: an empty version, an empty name and a zero
    [MaxNickLen] get their defaults; the registry starts empty and [u] is
    [nil]. The constructor and command table of the configuration are not
    data and are left out, as in [ServerConfig]. *)
Definition Server (c : ServerConfig) : server :=
  let version := if (Version c =? "")%string then defaultVersion else Version c in
  let name := if (Name c =? "")%string then "go-irckit" else Name c in
  let maxNickLen := if MaxNickLen c =? 0 then 32 else MaxNickLen c in
  mkServer
    (mkConfig name version (Motd c) (InviteOnly c) maxNickLen (DiscardEmpty c))
    None ∅ ∅ ∅ 1%positive.

(** [NewServer] *)
Definition NewServer (name : string) : server :=
  Server (mkConfig name "" [] false 0 false).

(** [Len] and [UserCount]: [len(s.users)]. *)
Definition Len (s : server) : Z := Z.of_nat (size (users s)).
Definition UserCount (s : server) : Z := Z.of_nat (size (users s)).

(** [ChannelCount]: [len(s.channels)]. *)
Definition ChannelCount (s : server) : Z := Z.of_nat (size (channels s)).

Section Users.

Variable ToLower : string -> string.

(** [Add] *)
Definition Add (s : server) (u : loc) (usr : User) : bool * server * list effect :=
  add ToLower s u usr.

(** One turn of the loop of [BatchAdd]: a user whose key is free is stored. *)
Definition batchStep (acc : server * list effect) (entry : loc * User)
  : server * list effect :=
  let id := uID ToLower entry.2 in
  match users acc.1 !! id with
  | Some _ => acc
  | None => (set_users acc.1 (<[id := entry.1]> (users acc.1)),
             acc.2 ++ [PutUser id entry.1])
  end.

(** [BatchAdd] *)
Definition BatchAdd (s : server) (us : list (loc * User)) : server * list effect :=
  let '(s', puts) := fold_left batchStep us (s, [Lock]) in
  (s', puts ++ [Unlock]).

(** What a run of JOIN messages is answered with before the registration
    is complete: a JOIN with a parameter gets the not-registered error. *)
Definition not_registered_replies (s : server) (u : loc) (joins : list Message)
  : list effect :=
  flat_map
    (fun msg =>
       match Params msg with
       | [] => []
       | _ :: _ =>
           [EncodeMessage s u ERR_NOTREGISTERED ["*"] "Please register first"]
       end)
    joins.

(** [HasUser]: the first user, in the order [order] in which the map is
    iterated, whose nick is exactly [nick]. [objs] holds the [User] object at
    each address. *)
Definition HasUser (objs : gmap loc User) (order : list (string * loc))
    (nick : string) : option loc :=
  snd <$> List.find
            (fun entry =>
               match objs !! entry.2 with
               | Some usr => (Nick usr =? nick)%string
               | None => false
               end)
            order.

(** The keys of the registry are the normalized nicks of the objects. *)
Definition keyed_by_nick (s : server) (objs : gmap loc User) : Prop :=
  forall k u, users s !! k = Some u ->
    exists usr, objs !! u = Some usr /\ k = uID ToLower usr.

End Users.

End IrckitRest.

(** ** The rest of the Slack bridge *)

Module SlackRest.

Import Bridge SlackBridge.

(** The parts of the client's [slack.Channel] the bridge reads. *)
Record Conversation := mkConversation {
  CvID : string;
  CvName : string;
  CvTopic : string;
  IsMember : bool;
  IsIM : bool;
  IsMpIM : bool;
  IsOpen : bool }.

(** [strings.ReplaceAll(s, "\n", " | ")] *)
Fixpoint replaceNewlines (s : string) : string :=
  match s with
  | EmptyString => EmptyString
  | String c r =>
      if Ascii.eqb c newline then " | " +:+ replaceNewlines r
      else String c (replaceNewlines r)
  end.

(** [Protocol] *)
Definition Protocol : string := "slack".

(** The loop over a list of strings that sets [ok] and breaks at the first
    equal element. *)
Fixpoint found (x : string) (l : list string) : bool :=
  match l with
  | [] => false
  | y :: rest => if (y =? x)%string then true else found x rest
  end.

(** [allowedLogin]: the error, if any, and whether the connection was
    disconnected. [restrict] and [denyUsers] are the configured
    [slack.restrict] and [slack.DenyUsers]. *)
Definition allowedLogin (restrict denyUsers : list string)
    (domain userName : string) : option string * bool :=
  if (0 <? Z.of_nat (length restrict)) && negb (found domain restrict) then
    (Some ("Not allowed to connect to " +:+ domain +:+ " slack"), true)
  else if (0 <? Z.of_nat (length denyUsers)) && found userName denyUsers then
    (Some "not allowed to connect", true)
  else (None, false).

(** The loop of [New] over the users of the team: every user but the
    account's own is put into the cache under its id. *)
Definition cacheUsers (s : Slack) (users : list SlackUser) : Slack :=
  set_susers s
    (fold_left
       (fun m mmuser =>
          if (SID mmuser =? sinfo_UserID s)%string then m
          else <[SID mmuser := mmuser]> m)
       users (susers s)).

(** Every user in the cache is stored under its own id. *)
Definition cache_keyed (s : Slack) : Prop :=
  forall k v, susers s !! k = Some v -> SID v = k.

Section Client.

Variable ToUpper : string -> string.

(** The slack client: [GetConversations] by cursor (the page, the next
    cursor, whether an error came back), [GetConversationInfo] ([None] is an
    error), [GetUsersInConversation] by channel and cursor, [GetUserInfo]. *)
Variable GetConversations : string -> list Conversation * string * bool.
Variable GetConversationInfo : string -> option Conversation.
Variable GetUsersPage : string -> string -> list string * string.
Variable GetUserInfo : string -> option SlackUser.

Variable PreferNickname UseDisplayName : bool.
Variable isValidNick : string -> bool.

(** The pages [GetConversations] serves from [cursor] on, each with its
    error flag: the last page comes with an empty next cursor and every page
    before it with one that is not empty. *)
Fixpoint pages_from (cursor : string) (pages : list (list Conversation * bool))
  : Prop :=
  match pages with
  | [] => False
  | page :: rest =>
      match rest with
      | [] => GetConversations cursor = (page.1, "", page.2)
      | _ :: _ =>
          exists next,
            next <> "" /\ GetConversations cursor = (page.1, next, page.2)
            /\ pages_from next rest
      end
  end.

(** All the conversations of the pages, in order, and the number of pages
    that came with an error. *)
Definition all_conversations (pages : list (list Conversation * bool))
  : list Conversation :=
  concat (fst <$> pages).

Definition errors_in (pages : list (list Conversation * bool)) : nat :=
  length (List.filter snd pages).

(** What [List] records for a channel. *)
Definition listed (channelinfo : gmap string string) (channel : Conversation)
  : gmap string string :=
  <["#" +:+ CvName channel := replaceNewlines (CvTopic channel)]> channelinfo.

(** The client answers a lookup with the user of the id asked for. *)
Definition faithful_client : Prop :=
  forall userID user, GetUserInfo userID = Some user -> SID user = userID.

(** The inner loop of [List] over one page: the channel is recorded, and
    when the next cursor is empty the whole listing ends there. *)
Fixpoint List_page (conversations : list Conversation) (nextCursor : string)
    (channelinfo : gmap string string) : gmap string string * bool :=
  match conversations with
  | [] => (channelinfo, false)
  | channel :: rest =>
      let channelinfo :=
        <["#" +:+ CvName channel := replaceNewlines (CvTopic channel)]> channelinfo in
      if (nextCursor =? "")%string then (channelinfo, true)
      else List_page rest nextCursor channelinfo
  end.

(** The outer loop of [List]; [fuel] bounds the number of pages fetched and
    [None] means the loop is still running. *)
Fixpoint List_loop (fuel : nat) (cursor : string) (channelinfo : gmap string string)
  : option (gmap string string) :=
  match fuel with
  | O => None
  | S fuel =>
      let '(conversations, nextCursor, _) := GetConversations cursor in
      match List_page conversations nextCursor channelinfo with
      | (channelinfo, true) => Some channelinfo
      | (channelinfo, false) => List_loop fuel nextCursor channelinfo
      end
  end.

(** [List] *)
Definition Slack_List (fuel : nat) : option (gmap string string) :=
  List_loop fuel "" ∅.

(** The [bridge.ChannelInfo] built in [GetChannels]. *)
Definition channelInfoOf (s : Slack) (mmchannel : Conversation) : ChannelInfo :=
  mkChannelInfo (CvName mmchannel) (CvID mmchannel) (sinfo_TeamID s)
    (IsIM mmchannel || IsMpIM mmchannel) (negb (IsOpen mmchannel)).

(** The loop of [GetChannels]: the channels the account is a member of,
    page after page, until the next cursor is empty; [logged] counts the
    errors logged. *)
Fixpoint GetChannels_loop (fuel : nat) (s : Slack) (cursor : string)
    (channels : list ChannelInfo) (logged : nat)
  : option (list ChannelInfo * nat) :=
  match fuel with
  | O => None
  | S fuel =>
      let '(mmchannels, nextCursor, err) := GetConversations cursor in
      let logged := if err then S logged else logged in
      let channels :=
        channels ++ (channelInfoOf s <$> List.filter IsMember mmchannels) in
      if (nextCursor =? "")%string then Some (channels, logged)
      else GetChannels_loop fuel s nextCursor channels logged
  end.

(** [GetChannels] *)
Definition GetChannels (fuel : nat) (s : Slack) : option (list ChannelInfo * nat) :=
  GetChannels_loop fuel s "" [] 0%nat.

(** [GetChannel]: the inner [None] is the error "channel not found". *)
Definition GetChannel (fuel : nat) (s : Slack) (channelID : string)
  : option (option ChannelInfo) :=
  match GetChannels fuel s with
  | None => None
  | Some (channels, _) =>
      Some (List.find (fun channel => (CID channel =? channelID)%string) channels)
  end.

(** [GetChannel] as a caller that waits for its answer sees it: the channel,
    or the error. *)
Definition GetChannel_result (fuel : nat) (s : Slack) (channelID : string)
  : option ChannelInfo :=
  default None (GetChannel fuel s channelID).

(** The member conversation with the given id that [GetChannel] comes to
    first. *)
Definition member_with_id (channelID : string) (mmchannel : Conversation) : bool :=
  IsMember mmchannel && (CvID mmchannel =? channelID)%string.

(** [GetChannelName] *)
Definition GetChannelName (channelID : string) : string :=
  match GetConversationInfo channelID with
  | None => channelID
  | Some info => "#" +:+ CvName info
  end.

(** [Topic] *)
Definition Topic (channelID : string) : string :=
  match GetConversationInfo (ToUpper channelID) with
  | None => ""
  | Some info => CvTopic info
  end.

(** One turn of the loop of [GetChannelUsers] over the members of a page. *)
Definition memberStep (acc : Slack * list UserInfo) (user : string)
  : Slack * list UserInfo :=
  if (sinfo_UserID acc.1 =? user)%string then acc
  else
    let '(suser, s') := getSlackUser GetUserInfo acc.1 user in
    (s', acc.2 ++ [createUser PreferNickname UseDisplayName isValidNick s' suser]).

(** The loop of [GetChannelUsers] over the pages of members. *)
Fixpoint GetChannelUsers_loop (fuel : nat) (s : Slack) (channelID cursor : string)
    (users : list UserInfo) : option (Slack * list UserInfo) :=
  match fuel with
  | O => None
  | S fuel =>
      let '(members, nextCursor) := GetUsersPage channelID cursor in
      let '(s, users) := fold_left memberStep members (s, users) in
      if (nextCursor =? "")%string then Some (s, users)
      else GetChannelUsers_loop fuel s channelID nextCursor users
  end.

(** [GetChannelUsers]: the inner [None] is the error of the channel lookup;
    slackbot and the account itself are added at the end. *)
Definition GetChannelUsers (fuel : nat) (s : Slack) (channelID : string)
  : option (Slack * option (list UserInfo)) :=
  match GetConversationInfo channelID with
  | None => Some (s, None)
  | Some _ =>
      match GetChannelUsers_loop fuel s channelID "" [] with
      | None => None
      | Some (s, users) =>
          let '(slackuser, s) := getSlackUser GetUserInfo s "USLACKBOT" in
          Some (s,
                Some (users
                      ++ [createUser PreferNickname UseDisplayName isValidNick s
                            slackuser;
                          GetMe GetUserInfo PreferNickname UseDisplayName
                            isValidNick s]))
      end
  end.

End Client.

End SlackRest.


(** ** More sample data *)

Module RegistrySamples.

Import Irc Bridge Irckit Samples.

Definition bobUser : User := mkUser "Bob" "bob" "Bob B" "irc.example" None ∅.

(** The same nick in capitals. *)
Definition bobShout : User := mkUser "BOB" "bob2" "Bob C" "irc.example" None ∅.

Definition nickMsg (nick : string) : Message := mkMessage None NICK [nick] "".

Definition userMsg (uname real : string) : Message :=
  mkMessage None USER [uname; "0"; "*"] real.

Definition passMsg (token : string) : Message := mkMessage None PASS [token] "".

Definition joinMsg : Message := mkMessage None JOIN ["#general"] "".

(** A welcome burst that fails on the connection. *)
Definition welcomeFails (s : server) (u : positive) (usr : User) : option error :=
  Some (ErrOther "write failed").

(** A configuration with a negative [MaxNickLen]. *)
Definition cfgNegative : ServerConfig :=
  mkConfig "matterircd" "go-irckit" [] false (-1) false.

(** The [User] objects behind the addresses of [srv0]. *)
Definition heap0 : gmap loc User := {[1%positive := alice]}.

End RegistrySamples.

Module ClientSamples.

Import Bridge SlackBridge SlackSamples SlackRest.

Definition general : Conversation :=
  mkConversation "C1" "general" "Talk" true false false true.

Definition random : Conversation :=
  mkConversation "C2" "random" "" false false false true.

Definition secret : Conversation :=
  mkConversation "G3" "secret" ("line one" +:+ nl +:+ "line two")
    true false false false.

Definition archive : Conversation :=
  mkConversation "C4" "archive" "Old" true false false true.

(** A client that serves the conversations on two pages. *)
Definition twoPages (cursor : string) : list Conversation * string * bool :=
  if (cursor =? "")%string then ([general; random], "p2", false)
  else ([secret; archive], "", false).

(** A client whose only page comes empty and with an error. *)
Definition failingPages (cursor : string) : list Conversation * string * bool :=
  ([], "", true).

Definition conversationInfo (channelID : string) : option Conversation :=
  if (channelID =? "C1")%string then Some general else None.

(** The members of every channel, on one page; U9 is not known to the
    client [userInfo]. *)
Definition membersOnePage (channelID cursor : string) : list string * string :=
  (["U1"; "U2"; "U9"], "").

Definition slackbot : SlackUser :=
  mkSlackUser "USLACKBOT" "T1" "slackbot" "Slackbot"
    (mkProfile "Slack" "Bot" "Slackbot" "slackbot").

(** Another entry of the team list with the id of [bob]. *)
Definition bobLater : SlackUser :=
  mkSlackUser "U2" "T1" "robert" "Robert B"
    (mkProfile "Robert" "B" "Robert B" "rob").

(** A client every user lookup of which fails. *)
Definition noUserInfo (userID : string) : option SlackUser := None.

(** The client [userInfo] that also knows slackbot. *)
Definition userInfoBot (userID : string) : option SlackUser :=
  if (userID =? "USLACKBOT")%string then Some slackbot else userInfo userID.

(** A client that gives the post with the text [one] the id 100 and every
    other post the id 200. *)
Definition postByText (channelID text : string) : option string :=
  Some (if (text =? "one")%string then "100" else "200").

(** The notice that the message 100 on C1 was deleted. *)
Definition deleted : MessageEvent :=
  mkMessageEvent "U2" "C1" "300" "message_deleted" None "100" "gone" "" "" [] [] "".

End ClientSamples.
(** * Properties *)

(** ** Strings *)

Lemma slice_to_in_range s n :
  0 <= n -> n <= len s -> slice_to s n = Some (substring 0 (Z.to_nat n) s).
Proof.
  intros H0 H1. unfold slice_to.
  destruct (Z.ltb_spec n 0); [lia|].
  destruct (Z.ltb_spec (len s) n); [lia|]. reflexivity.
Qed.

Lemma split_lines_nonempty s : split_lines s <> [].
Proof.
  destruct s as [|c r]; simpl; [discriminate|].
  destruct (Ascii.eqb c newline); [discriminate|].
  destruct (split_lines r); discriminate.
Qed.

(** ** The registry *)

Section RegistryFacts.

Import Irc Bridge Irckit.

Variable ToLower : string -> string.
Variable UserPrefix : User -> Prefix.

Local Abbreviation ID := (ID ToLower).
Local Abbreviation uID := (uID ToLower).
Local Abbreviation RenameUser := (RenameUser ToLower UserPrefix).

(** The cut of [RenameUser] never panics for a length that is not
    negative, and yields [truncateNick]. *)
Lemma rename_cut (max : Z) (newNick : string) :
  0 <= max ->
  (if max <? len newNick then slice_to newNick max else Some newNick)
  = Some (truncateNick max newNick).
Proof.
  intros Hmax. unfold truncateNick.
  destruct (Z.ltb_spec max (len newNick)); [|reflexivity].
  apply slice_to_in_range; lia.
Qed.

(** A taken key: the rename fails, the error goes to [u], nothing changes. *)
Lemma RenameUser_taken s u usr newNick :
  0 <= MaxNickLen (config s) ->
  is_Some (users s !! ID (truncateNick (MaxNickLen (config s)) newNick)) ->
  RenameUser s u usr newNick
  = Some (false, s, usr,
          [Lock; Unlock;
           EncodeMessage s u ERR_NICKNAMEINUSE
             [truncateNick (MaxNickLen (config s)) newNick]
             "Nickname is already in use"]).
Proof.
  intros Hmax [other Hother]. unfold Irckit.RenameUser.
  rewrite (rename_cut _ _ Hmax). simpl. by rewrite Hother.
Qed.

(** Who [VisibleTo] lists: the others in the channels of [u]. *)
Lemma elem_of_VisibleTo s u usr o :
  o ∈ VisibleTo s u usr
  <-> o <> u /\ exists c, c ∈ uchannels usr /\ o ∈ chan_users s c.
Proof.
  unfold VisibleTo. rewrite elem_of_elements, elem_of_difference,
    elem_of_union_list, not_elem_of_singleton.
  split.
  - intros [(X & HX & Ho) Hne]. split; [done|].
    apply list_elem_of_fmap in HX as (c & -> & Hc).
    exists c. split; [by apply elem_of_elements|done].
  - intros [Hne (c & Hc & Ho)]. split; [|done].
    exists (chan_users s c). split; [|done].
    apply list_elem_of_fmap. exists c. split; [done|by apply elem_of_elements].
Qed.

(** C7. [RenameUser(u, newNick)] works on [newNick] cut to [MaxNickLen]
    bytes. When the normalized cut nick is a key of [users], the result is
    [false], the one reply is the nickname-in-use error sent to [u], and
    the registry and the user are unchanged. Otherwise the result is
    [true]: between one [Lock] and its [Unlock] the old key is deleted, the
    nick is set and [u] is stored under the new normalized nick; after the
    unlock a NICK message with the old prefix and the new nick goes first
    to [u] and then to exactly the other users that share a channel with
    [u]. *)
Theorem RenameUser_spec s u usr newNick :
  0 <= MaxNickLen (config s) ->
  let nick := truncateNick (MaxNickLen (config s)) newNick in
  let changeMsg := mkMessage (Some (UserPrefix usr)) NICK [nick] "" in
  match users s !! ID nick with
  | Some _ =>
      RenameUser s u usr newNick
      = Some (false, s, usr,
              [Lock; Unlock;
               EncodeMessage s u ERR_NICKNAMEINUSE [nick]
                 "Nickname is already in use"])
  | None =>
      exists s' usr' others,
        RenameUser s u usr newNick
        = Some (true, s', usr',
                [Lock; DelUser (uID usr); SetNick u nick; PutUser (ID nick) u;
                 Unlock; Encode u changeMsg]
                ++ ((fun o => Encode o changeMsg) <$> others))
        /\ usr' = set_Nick usr nick
        /\ users s' = <[ID nick := u]> (delete (uID usr) (users s))
        /\ users s' !! ID nick = Some u
        /\ channels s' = channels s
        /\ members s' = members s
        /\ NoDup others
        /\ forall o, o ∈ others
              <-> o <> u /\ exists c, c ∈ uchannels usr /\ o ∈ chan_users s c
  end.
Proof.
  intros Hmax nick changeMsg.
  destruct (users s !! ID nick) as [other|] eqn:Hkey.
  - apply RenameUser_taken; [done|]. by exists other.
  - unfold Irckit.RenameUser. rewrite (rename_cut _ _ Hmax). simpl.
    fold nick. rewrite Hkey.
    eexists _, _, _. split; [reflexivity|].
    split_and!; try done.
    + simpl. apply lookup_insert_eq.
    + apply NoDup_elements.
    + intros o. rewrite elem_of_VisibleTo. reflexivity.
Qed.

(** C9. A registered user who asks for a nick whose cut, normalized form
    is the user's own key is refused like anyone else: the result is
    [false], the nickname-in-use error goes to the user, and the registry
    and the user are unchanged. The lookup makes no exception for the
    entry of [u] itself. *)
Theorem RenameUser_own_key s u usr newNick :
  0 <= MaxNickLen (config s) ->
  users s !! uID usr = Some u ->
  ID (truncateNick (MaxNickLen (config s)) newNick) = uID usr ->
  RenameUser s u usr newNick
  = Some (false, s, usr,
          [Lock; Unlock;
           EncodeMessage s u ERR_NICKNAMEINUSE
             [truncateNick (MaxNickLen (config s)) newNick]
             "Nickname is already in use"]).
Proof.
  intros Hmax Hreg Hsame. apply RenameUser_taken; [done|].
  rewrite Hsame. by exists u.
Qed.

End RegistryFacts.

Section RegistryExamples.

Import Irc Bridge Irckit Samples.

(** C7, witness: [alice] takes the free nick [Bob]. *)
Lemma RenameUser_spec_witness :
  0 <= MaxNickLen (config srv0)
  /\ let nick := truncateNick (MaxNickLen (config srv0)) "Bob" in
     let changeMsg := mkMessage (Some (prefixOf alice)) NICK [nick] "" in
     match users srv0 !! ID ascii_ToLower nick with
     | Some _ =>
         RenameUser ascii_ToLower prefixOf srv0 1 alice "Bob"
         = Some (false, srv0, alice,
                 [Lock; Unlock;
                  EncodeMessage srv0 1 ERR_NICKNAMEINUSE [nick]
                    "Nickname is already in use"])
     | None =>
         exists s' usr' others,
           RenameUser ascii_ToLower prefixOf srv0 1 alice "Bob"
           = Some (true, s', usr',
                   [Lock; DelUser (uID ascii_ToLower alice); SetNick 1 nick;
                    PutUser (ID ascii_ToLower nick) 1;
                    Unlock; Encode 1 changeMsg]
                   ++ ((fun o => Encode o changeMsg) <$> others))
           /\ usr' = set_Nick alice nick
           /\ users s' = <[ID ascii_ToLower nick := 1%positive]>
                           (delete (uID ascii_ToLower alice) (users srv0))
           /\ users s' !! ID ascii_ToLower nick = Some 1%positive
           /\ channels s' = channels srv0
           /\ members s' = members srv0
           /\ NoDup others
           /\ forall o, o ∈ others
                 <-> o <> 1%positive
                     /\ exists c, c ∈ uchannels alice /\ o ∈ chan_users srv0 c
     end.
Proof.
  split; [vm_compute; discriminate|].
  apply (RenameUser_spec ascii_ToLower prefixOf srv0 1 alice "Bob").
  vm_compute; discriminate.
Defined.

(** C9, witness: [alice], registered under the key of [Alice], asks for
    [ALICE]. *)
Lemma RenameUser_own_key_witness :
  RenameUser ascii_ToLower prefixOf srv0 1 alice "ALICE"
  = Some (false, srv0, alice,
          [Lock; Unlock;
           EncodeMessage srv0 1 ERR_NICKNAMEINUSE ["ALICE"]
             "Nickname is already in use"]).
Proof.
  apply (RenameUser_own_key ascii_ToLower prefixOf srv0 1 alice "ALICE").
  - vm_compute; discriminate.
  - vm_compute. reflexivity.
  - vm_compute. reflexivity.
Defined.

(** A taken nick of another length: the cut nick is what is looked up and
    reported. *)
Example RenameUser_cut_taken :
  RenameUser ascii_ToLower prefixOf
    (mkServer (mkConfig "matterircd" "go-irckit" [] false 5 false)
       (Some 1%positive) {["alice" := 1%positive]} ∅ ∅ 7%positive)
    2 newcomer "AliceInWonderland"
  = Some (false,
          mkServer (mkConfig "matterircd" "go-irckit" [] false 5 false)
            (Some 1%positive) {["alice" := 1%positive]} ∅ ∅ 7%positive,
          newcomer,
          [Lock; Unlock;
           Encode 2 (mkMessage (Some (mkPrefix "matterircd" "" ""))
                       "433" ["Alice"] "Nickname is already in use")]).
Proof. vm_compute. reflexivity. Qed.

End RegistryExamples.

(** ** The channel index *)

Section ChannelFacts.

Import Irc Bridge Irckit.

Variable Protocol : string.
Variable GetChannelName : string -> string.
Variable GetChannel : string -> option ChannelInfo.

Local Abbreviation server_Channel :=
  (server_Channel Protocol GetChannelName GetChannel).
Local Abbreviation name_unused := (name_unused GetChannelName).
Local Abbreviation built := (built Protocol GetChannelName GetChannel).

Lemma same_instance_true stored ch :
  same_instance stored ch = true ->
  exists c, stored = Some c /\ ch_ptr c = ch_ptr ch.
Proof.
  destruct stored as [c|]; simpl; [|discriminate].
  intros H. apply bool_decide_eq_true in H. eauto.
Qed.

(** A call of [Channel] for a key that is present changes nothing. *)
Lemma server_Channel_present s channelID ch :
  channels s !! channelID = Some ch ->
  server_Channel s channelID = Some (ch, s, [Lock; Unlock]).
Proof. intros H. unfold Irckit.server_Channel. by rewrite H. Qed.

(** A call of [Channel] for an absent key creates the instance at
    [next_chan] and stores it under the id and under the bridge's name. *)
Lemma server_Channel_absent s channelID ch s' done :
  channels s !! channelID = None ->
  server_Channel s channelID = Some (ch, s', done) ->
  ch_ptr ch = next_chan s /\ ch_id ch = channelID
  /\ ch_name ch = GetChannelName channelID
  /\ channels s' = <[GetChannelName channelID := ch]>
                     (<[channelID := ch]> (channels s))
  /\ next_chan s' = Pos.succ (next_chan s).
Proof.
  intros Habs. unfold Irckit.server_Channel. rewrite Habs.
  destruct (su s); simpl; [|discriminate].
  destruct (GetChannel channelID); intros [= <- <- <-]; done.
Qed.

Lemma dual_keyed_Channel s created channelID ch s' done :
  dual_keyed s created ->
  name_unused s channelID ->
  server_Channel s channelID = Some (ch, s', done) ->
  dual_keyed s' (ch :: created).
Proof.
  intros (Ha & Hb & Hc) Hname Hcall.
  destruct (channels s !! channelID) as [ch0|] eqn:Hid.
  - rewrite (server_Channel_present _ _ _ Hid) in Hcall.
    injection Hcall as <- <- <-.
    destruct (Ha _ _ Hid) as (Hin & _).
    split_and!.
    + intros k c Hk. destruct (Ha _ _ Hk) as (? & ? & ? & ?).
      split_and!; [by right|done..].
    + intros c [->|Hin']%elem_of_cons; by apply Hb.
    + intros c c' [->|Hin1]%elem_of_cons [->|Hin2]%elem_of_cons;
        by apply Hc.
  - destruct (server_Channel_absent _ _ _ _ _ Hid Hcall)
      as (Hptr & Hcid & Hcname & Hmap & Hnext).
    assert (Hkeep : forall k c, channels s !! k = Some c ->
              channels s' !! k = Some c).
    { intros k c Hk. rewrite Hmap.
      assert (k <> channelID) by congruence.
      assert (k <> GetChannelName channelID).
      { intros ->. destruct (Hname Hid) as [Heq|Hnone]; congruence. }
      by rewrite !lookup_insert_ne. }
    assert (Hnew_id : channels s' !! channelID = Some ch).
    { rewrite Hmap, lookup_insert. case_decide; [done|].
      apply lookup_insert_eq. }
    assert (Hnew_name : channels s' !! GetChannelName channelID = Some ch).
    { rewrite Hmap. apply lookup_insert_eq. }
    split_and!.
    + intros k c Hk. rewrite Hmap, lookup_insert in Hk.
      case_decide as Hk1.
      { injection Hk as <-. subst k. rewrite Hcid, Hcname.
        split_and!; [by left|by right|done..]. }
      rewrite lookup_insert in Hk. case_decide as Hk2.
      { injection Hk as <-. subst k. rewrite Hcid, Hcname.
        split_and!; [by left|by left|done..]. }
      destruct (Ha _ _ Hk) as (? & ? & ? & ?).
      split_and!; [by right|done|by apply Hkeep..].
    + rewrite Hnext. intros c [->|Hin]%elem_of_cons.
      * rewrite Hptr. lia.
      * specialize (Hb _ Hin). lia.
    + intros c c' [->|Hin1]%elem_of_cons [->|Hin2]%elem_of_cons Hp;
        [done| | |by apply Hc].
      * specialize (Hb _ Hin2). rewrite <- Hp, Hptr in Hb. lia.
      * specialize (Hb _ Hin1). rewrite Hp, Hptr in Hb. lia.
Qed.

(** [UnlinkChannel] on the instance stored under its own name removes the
    entries of both its keys. *)
Lemma UnlinkChannel_stored s ch :
  channels s !! ch_name ch = Some ch ->
  channels (UnlinkChannel s ch).1
  = delete (ch_id ch) (delete (ch_name ch) (channels s)).
Proof.
  intros H. unfold UnlinkChannel. rewrite H. simpl.
  by rewrite bool_decide_eq_true_2.
Qed.

Lemma dual_keyed_Unlink s created ch :
  dual_keyed s created ->
  ch ∈ created ->
  dual_keyed (UnlinkChannel s ch).1 created.
Proof.
  intros (Ha & Hb & Hc) Hin.
  destruct (same_instance (channels s !! ch_name ch) ch) eqn:Hsame.
  - apply same_instance_true in Hsame as (c0 & Hstored & Hptr).
    destruct (Ha _ _ Hstored) as (Hin0 & _).
    assert (c0 = ch) as -> by by apply Hc.
    destruct (Ha _ _ Hstored) as (_ & _ & Hid & Hname).
    pose proof (UnlinkChannel_stored _ _ Hstored) as Hmap.
    assert (Hnext : next_chan (UnlinkChannel s ch).1 = next_chan s).
    { unfold UnlinkChannel. by destruct (same_instance _ _). }
    split_and!; [|by rewrite Hnext|done].
    intros k c Hk. rewrite Hmap in Hk.
    apply lookup_delete_Some in Hk as (Hk1 & Hk).
    apply lookup_delete_Some in Hk as (Hk2 & Hk).
    destruct (Ha _ _ Hk) as (? & Hkey & Hcid & Hcname).
    assert (c <> ch) as Hne by (intros ->; destruct Hkey; congruence).
    split_and!; [done..| |]; rewrite Hmap.
    + rewrite !lookup_delete_ne; [done|congruence..].
    + rewrite !lookup_delete_ne; [done|congruence..].
  - unfold UnlinkChannel. rewrite Hsame. done.
Qed.

(** The registries built with display names that collide with no entry
    keep the dual index. *)
Lemma built_dual_keyed s created :
  built name_unused s created -> dual_keyed s created.
Proof.
  induction 1 as [s Hempty|s created channelID ch s' done _ IH Hname Hcall
                 |s created ch _ IH Hin].
  - split_and!.
    + intros k c Hk. rewrite Hempty, lookup_empty in Hk. discriminate.
    + intros c Hin. by apply elem_of_nil in Hin.
    + intros c c' Hin. by apply elem_of_nil in Hin.
  - by eapply dual_keyed_Channel.
  - by apply dual_keyed_Unlink.
Qed.

(** C1 (amended). In a registry built by calls of [Channel] and
    [UnlinkChannel] in which the display name of each new channel was its
    own id or not yet a key, every registered channel is found under its
    id and under its name, as the one instance, and after [UnlinkChannel]
    on it both keys are absent. *)
Theorem registered_channel_dual_keyed s created ch :
  built name_unused s created ->
  registered s ch ->
  HasChannel s (ch_id ch) = Some ch
  /\ HasChannel s (ch_name ch) = Some ch
  /\ HasChannel (UnlinkChannel s ch).1 (ch_id ch) = None
  /\ HasChannel (UnlinkChannel s ch).1 (ch_name ch) = None.
Proof.
  intros Hbuilt [k Hk].
  destruct (built_dual_keyed _ _ Hbuilt) as (Ha & _).
  destruct (Ha _ _ Hk) as (_ & _ & Hid & Hname).
  unfold HasChannel. rewrite (UnlinkChannel_stored _ _ Hname).
  split_and!; [done..| |].
  - apply lookup_delete_eq.
  - destruct (decide (ch_id ch = ch_name ch)) as [->|Hne].
    + apply lookup_delete_eq.
    + rewrite lookup_delete_ne by done. apply lookup_delete_eq.
Qed.

End ChannelFacts.

Section ChannelExamples.

Import Irc Bridge Irckit Samples.

(** C1, witness: the registry after [Channel("C1")] on a bridge that names
    channels after their ids. *)
Lemma registered_channel_dual_keyed_witness :
  HasChannel srvC1 "C1" = Some chanC1
  /\ HasChannel srvC1 "#C1" = Some chanC1
  /\ HasChannel (UnlinkChannel srvC1 chanC1).1 "C1" = None
  /\ HasChannel (UnlinkChannel srvC1 chanC1).1 "#C1" = None.
Proof.
  apply (registered_channel_dual_keyed "slack" nameById noInfo
           srvC1 [chanC1] chanC1).
  - eapply (built_Channel _ _ _ _ srv0 [] "C1").
    + apply built_empty. reflexivity.
    + intros _. right. vm_compute. reflexivity.
    + vm_compute. reflexivity.
  - exists "C1". vm_compute. reflexivity.
Defined.

(** C1, counterexample: two backend ids with one display name. After
    [Channel("C1")] and [Channel("C2")] the first channel is still
    registered under its id, its name yields the second instance, and
    [UnlinkChannel] on it removes nothing. *)
Lemma shared_name_breaks_dual_index :
  ~ (forall s created ch,
       built "slack" nameShared noInfo any_call s created ->
       registered s ch ->
       HasChannel s (ch_id ch) = Some ch
       /\ HasChannel s (ch_name ch) = Some ch
       /\ HasChannel (UnlinkChannel s ch).1 (ch_id ch) = None
       /\ HasChannel (UnlinkChannel s ch).1 (ch_name ch) = None).
Proof.
  intros H.
  destruct (H srvShared [chanB; chanA] chanA) as (_ & Hname & _).
  - eapply (built_Channel _ _ _ _ _ [chanA] "C2").
    + eapply (built_Channel _ _ _ _ srv0 [] "C1").
      * apply built_empty. reflexivity.
      * exact I.
      * vm_compute. reflexivity.
    + exact I.
    + vm_compute. reflexivity.
  - exists "C1". vm_compute. reflexivity.
  - vm_compute in Hname. discriminate.
Qed.

(** What the registry of the counterexample holds, and what
    [UnlinkChannel] on the first channel leaves. *)
Example shared_name_lookups :
  HasChannel srvShared "C1" = Some chanA
  /\ HasChannel srvShared "#general" = Some chanB
  /\ HasChannel (UnlinkChannel srvShared chanA).1 "C1" = Some chanA.
Proof. vm_compute. done. Qed.

End ChannelExamples.

(** ** The handshake *)

Section HandshakeFacts.

Import Irc Bridge Irckit.

Variable ToLower : string -> string.
Variable ResolveHost : User -> string.
Variable welcome : server -> loc -> User -> option error.

Local Abbreviation handshake_loop := (handshake_loop ToLower welcome).
Local Abbreviation handshake := (handshake ToLower ResolveHost welcome).
Local Abbreviation Connect := (Connect ToLower ResolveHost welcome).

(** The loop gives up: with a budget of [i] messages, when [i] messages
    arrive or the timer fires, the loop has returned; unless the user was
    registered it has failed, and the user map is what it was. *)
Lemma handshake_loop_gives_up ins :
  forall s u usr i done r s' usr' done',
    0 <= MaxNickLen (config s) ->
    1 <= i ->
    i <= recv_count ins \/ TimerFired ∈ ins ->
    handshake_loop s u usr i ins done = (r, s', usr', done') ->
    (exists e, r = Registered e)
    \/ (r = Failed ErrHandshakeFailed /\ users s' = users s).
Proof.
  induction ins as [|[msg|] rest IH]; intros s u usr i done r s' usr' done'
    Hmax Hi Harrive Hrun.
  - destruct Harrive as [Hcount|Hin]; [simpl in Hcount; lia|].
    by apply elem_of_nil in Hin.
  - cbn [Irckit.handshake_loop] in Hrun.
    destruct (Z.eqb_spec (i - 1) 0) as [Hz|Hnz].
    { injection Hrun as <- <- <- <-. by right. }
    assert (Hrest : i - 1 <= recv_count rest \/ TimerFired ∈ rest).
    { destruct Harrive as [Hcount|Hin].
      - left. simpl in Hcount. lia.
      - right. by apply elem_of_cons in Hin as [?|?]. }
    assert (Hi' : 1 <= i - 1) by lia.
    destruct msg as [msg|]; [|by eapply (IH s)].
    cbv zeta in Hrun.
    destruct (if _ : bool then Params msg ++ [Trailing msg] else Params msg)
      as [|p0 params] eqn:Hparams; [by eapply (IH s)|].
    destruct (handshake_command _ _ _ _ _ _) as [usr1 replies].
    destruct ((Nick usr1 =? "")%string || _); [by eapply (IH s)|].
    rewrite (rename_cut _ _ Hmax) in Hrun.
    unfold add in Hrun.
    destruct (users s !! _) as [other|].
    + by eapply (IH s).
    + injection Hrun as <- <- <- <-. left. eauto.
  - cbn [Irckit.handshake_loop] in Hrun.
    injection Hrun as <- <- <- <-. by right.
Qed.

(** C4. A connection on which more than 20 messages arrive, or on which the
    10 second timer fires, and whose handshake does not register the user:
    [Connect] returns the handshake-failed error, the last thing it does is
    to close the connection, and the user map of the registry is what it was
    before, so the user is not in it. *)
Theorem Connect_gives_up s u usr ins r s' usr' done :
  0 <= MaxNickLen (config s) ->
  20 < recv_count ins \/ TimerFired ∈ ins ->
  Connect s u usr ins = (r, s', usr', done) ->
  (forall e, r <> Registered e) ->
  r = Failed ErrHandshakeFailed
  /\ hs_error r = Some ErrHandshakeFailed
  /\ last done = Some (CloseConn u)
  /\ users s' = users s
  /\ (forall k, users s' !! k = Some u -> users s !! k = Some u).
Proof.
  intros Hmax Harrive Hrun Hnot.
  unfold Irckit.Connect, Irckit.handshake in Hrun.
  destruct (handshake_loop _ _ _ _ _ _) as [[[r0 s0] usr0] done0] eqn:Hloop.
  assert (Hbudget : handshakeMsgTolerance <= recv_count ins \/ TimerFired ∈ ins).
  { destruct Harrive; [left; unfold handshakeMsgTolerance; lia|by right]. }
  assert (Hone : 1 <= handshakeMsgTolerance) by (unfold handshakeMsgTolerance; lia).
  destruct (handshake_loop_gives_up _ _ _ _ _ _ _ _ _ _ Hmax Hone Hbudget Hloop)
    as [[e ->]|[-> Husers]].
  - exfalso. destruct e; simpl in Hrun; injection Hrun as <- <- <- <-;
      by eapply Hnot.
  - simpl in Hrun. injection Hrun as <- <- <- <-.
    split_and!; [done..|by rewrite last_snoc|done|by rewrite Husers].
Qed.

End HandshakeFacts.

Section HandshakeExamples.

Import Irc Bridge Irckit Samples.

(** C4, witness: twenty-one PING messages from a connection that never
    sends NICK or USER. *)
Lemma Connect_gives_up_witness :
  Failed ErrHandshakeFailed = Failed ErrHandshakeFailed
  /\ hs_error (Failed ErrHandshakeFailed) = Some ErrHandshakeFailed
  /\ last [GoDecode 2; CloseConn 2] = Some (CloseConn 2)
  /\ users srv0 = users srv0
  /\ (forall k, users srv0 !! k = Some 2%positive ->
              users srv0 !! k = Some 2%positive).
Proof.
  apply (Connect_gives_up ascii_ToLower hostOf noWelcomeError
           srv0 2 newcomer (replicate 21 (Recv (Some ping)))
           (Failed ErrHandshakeFailed) srv0
           (mkUser "" "" "" "irc.example" None ∅)
           [GoDecode 2; CloseConn 2]).
  - vm_compute; discriminate.
  - left. vm_compute. reflexivity.
  - vm_compute. reflexivity.
  - intros e. discriminate.
Defined.

(** NICK and USER as the first two messages register the user. *)
Example Connect_registers :
  let '(r, s', usr', done) :=
    Connect ascii_ToLower hostOf noWelcomeError srv0 2 newcomer
      [Recv (Some (mkMessage None "NICK" ["bob"] ""));
       Recv (Some (mkMessage None "USER" ["bob"; "0"; "*"] "Bob B"))] in
  r = Registered None /\ users s' !! "bob" = Some 2%positive
  /\ su s' = Some 2%positive.
Proof. vm_compute. done. Qed.

(** The budget is spent by the twentieth message: NICK and USER arriving as
    the nineteenth and twentieth messages do not register the user. *)
Example Connect_twentieth_message :
  let '(r, s', usr', done) :=
    Connect ascii_ToLower hostOf noWelcomeError srv0 2 newcomer
      (replicate 18 (Recv (Some ping))
       ++ [Recv (Some (mkMessage None "NICK" ["bob"] ""));
           Recv (Some (mkMessage None "USER" ["bob"; "0"; "*"] "Bob B"))]) in
  r = Failed ErrHandshakeFailed /\ users s' !! "bob" = None.
Proof. vm_compute. done. Qed.

(** The timer firing before anything arrives. *)
Example Connect_timer :
  Connect ascii_ToLower hostOf noWelcomeError srv0 2 newcomer [TimerFired]
  = (Failed ErrHandshakeFailed, srv0, mkUser "" "" "" "irc.example" None ∅,
     [GoDecode 2; CloseConn 2]).
Proof. vm_compute. reflexivity. Qed.

End HandshakeExamples.


(** ** The event translator *)

Section AttachmentFacts.

Import Bridge SlackBridge.

(** From index [i] on, rows up to the index 5 are rendered and the marker
    follows the row of index 5. *)
Lemma attachRows_long rows :
  forall i, 0 <= i <= 5 ->
    (Z.to_nat (6 - i) <= length rows)%nat ->
    attachRows i rows
    = ((fun row => "> " +:+ row) <$> take (Z.to_nat (6 - i)) rows) ++ ["> ..."].
Proof.
  induction rows as [|row rest IH]; intros i Hi Hlen.
  - cbn [length] in Hlen. lia.
  - cbn [attachRows]. destruct (Z.ltb_spec 4 i) as [Hlast|Hmore].
    + replace i with 5 by lia. reflexivity.
    + cbn [length] in Hlen.
      rewrite IH; [|lia|lia].
      replace (Z.to_nat (6 - i)) with (S (Z.to_nat (6 - (i + 1)))) by lia.
      reflexivity.
Qed.

(** A body of fewer rows than that is rendered whole, without a marker. *)
Lemma attachRows_short rows :
  forall i, 0 <= i <= 5 ->
    (length rows < Z.to_nat (6 - i))%nat ->
    attachRows i rows = (fun row => "> " +:+ row) <$> rows.
Proof.
  induction rows as [|row rest IH]; intros i Hi Hlen; [done|].
  cbn [attachRows]. destruct (Z.ltb_spec 4 i) as [Hlast|Hmore].
  - cbn [length] in Hlen. lia.
  - cbn [length] in Hlen. rewrite IH; [done|lia|lia].
Qed.

(** C8. An attachment body of more lines than the cap of 6 is rendered as
    exactly cap + 1 lines: the first 6 lines of the body, quoted, and then
    the one marker line. *)
Theorem attachBody_truncated text :
  (attachLineCap < length (split_lines text))%nat ->
  attachBody text
  = ((fun row => "> " +:+ row) <$> take attachLineCap (split_lines text))
    ++ ["> ..."]
  /\ length (attachBody text) = (attachLineCap + 1)%nat
  /\ last (attachBody text) = Some "> ...".
Proof.
  intros Hlong. unfold attachBody, attachLineCap in *.
  rewrite (attachRows_long _ 0);
    [|lia|change (Z.to_nat (6 - 0)) with 6%nat; lia].
  change (Z.to_nat (6 - 0)) with 6%nat.
  split_and!; [done| |by rewrite last_snoc].
  rewrite length_app, length_fmap, length_take. cbn [length]. lia.
Qed.

(** The cap is where the rendering changes: a body of fewer than 6 lines is
    rendered whole. *)
Lemma attachBody_whole text :
  (length (split_lines text) < attachLineCap)%nat ->
  attachBody text = (fun row => "> " +:+ row) <$> split_lines text.
Proof.
  intros Hshort. unfold attachBody, attachLineCap in *.
  apply attachRows_short; [lia|change (Z.to_nat (6 - 0)) with 6%nat; lia].
Qed.

End AttachmentFacts.

Section AttachmentExamples.

Import Bridge SlackBridge SlackSamples.

(** C8, witness: a body of eight lines. *)
Lemma attachBody_truncated_witness :
  attachBody eightLines
  = ((fun row => "> " +:+ row) <$> take attachLineCap (split_lines eightLines))
    ++ ["> ..."]
  /\ length (attachBody eightLines) = (attachLineCap + 1)%nat
  /\ last (attachBody eightLines) = Some "> ...".
Proof.
  apply (attachBody_truncated eightLines). vm_compute. lia.
Defined.

Example attachBody_eight :
  attachBody eightLines
  = ["> r1"; "> r2"; "> r3"; "> r4"; "> r5"; "> r6"; "> ..."].
Proof. vm_compute. reflexivity. Qed.

(** A body of exactly six lines is rendered whole and the marker follows
    it all the same. *)
Example attachBody_six :
  attachBody sixLines
  = ["> r1"; "> r2"; "> r3"; "> r4"; "> r5"; "> r6"; "> ..."].
Proof. vm_compute. reflexivity. Qed.

End AttachmentExamples.

Section TranslatorFacts.

Import Bridge SlackBridge.

Variable ToUpper : string -> string.
Variable GetUserInfo : string -> option SlackUser.
Variable GetBotInfo : string -> option Bot.
Variable GetUsersInConversation : string -> list string.
Variable PostMessage : string -> string -> option string.
Variable PreferNickname UseDisplayName : bool.
Variable isValidNick : string -> bool.
Variable cleanupMessage : string -> string.
Variable formatTS : string -> string.
Variable sprintfEmpty : MessageEvent -> string.
Variable meanwhile : gmap string string -> gmap string string.

Local Abbreviation MsgChannel := (MsgChannel ToUpper PostMessage).
Local Abbreviation echoCheck := (echoCheck meanwhile).
Local Abbreviation createUser :=
  (createUser PreferNickname UseDisplayName isValidNick).
Local Abbreviation getSlackUserFromMessage :=
  (getSlackUserFromMessage GetUserInfo GetBotInfo).
Local Abbreviation renderLines := (renderLines formatTS).
Local Abbreviation deliver :=
  (deliver GetUserInfo GetUsersInConversation PreferNickname UseDisplayName
     isValidNick cleanupMessage sprintfEmpty).
Local Abbreviation translatePost :=
  (translatePost GetUserInfo GetBotInfo GetUsersInConversation PreferNickname
     UseDisplayName isValidNick cleanupMessage formatTS sprintfEmpty).
Local Abbreviation handleSlackActionPost :=
  (handleSlackActionPost GetUserInfo GetBotInfo GetUsersInConversation
     PreferNickname UseDisplayName isValidNick cleanupMessage formatTS
     sprintfEmpty meanwhile).
Local Abbreviation handleActionMisc :=
  (handleActionMisc GetUserInfo GetUsersInConversation PreferNickname
     UseDisplayName isValidNick).
Local Abbreviation handleSlackEvent :=
  (handleSlackEvent GetUserInfo GetBotInfo GetUsersInConversation
     PreferNickname UseDisplayName isValidNick cleanupMessage formatTS
     sprintfEmpty meanwhile).
Local Abbreviation getSlackUser := (getSlackUser GetUserInfo).
Local Abbreviation GetUser :=
  (GetUser GetUserInfo PreferNickname UseDisplayName isValidNick).
Local Abbreviation handleMemberLeftChannel :=
  (handleMemberLeftChannel GetUserInfo PreferNickname UseDisplayName isValidNick).
Local Abbreviation handleMemberJoinedChannel :=
  (handleMemberJoinedChannel GetUserInfo PreferNickname UseDisplayName
     isValidNick).

Lemma ltb_irrefl (x : string) : (x <? x)%string = false.
Proof.
  unfold String.ltb. pose proof (String.compare_antisym x x) as H.
  destruct (x ?= x)%string; simpl in H; congruence.
Qed.

(** What [MsgChannel] records is what the translator reads back. *)
Lemma MsgChannel_records s0 channelID text M s1 :
  MsgChannel s0 channelID text = (Some M, s1) ->
  lastSent s1 (ToUpper channelID) = M
  /\ sinfo_UserID s1 = sinfo_UserID s0.
Proof.
  unfold SlackBridge.MsgChannel.
  destruct (PostMessage _ _) as [msgID|]; [|discriminate].
  intros [= <- <-]. unfold lastSent. simpl. by rewrite lookup_insert_eq.
Qed.

(** An own event whose id is the recorded one is the echo: one read, no
    sleep, and the handler returns at once. *)
Lemma echo_suppressed s rmsg :
  EvUser rmsg = sinfo_UserID s ->
  lastSent s (EvChannel rmsg) = EvTimestamp rmsg ->
  handleSlackActionPost s rmsg = Some (s, [ReadLast (EvChannel rmsg)]).
Proof.
  intros Hown Hlast.
  unfold SlackBridge.handleSlackActionPost, SlackBridge.echoCheck.
  rewrite Hown, String.eqb_refl, Hlast, ltb_irrefl, String.eqb_refl. done.
Qed.

(** The translation of an event proper neither reads [msgLast] nor sleeps. *)
Lemma deliver_emits s rmsg ghost handled msg :
  exists e, deliver s rmsg ghost (UNick ghost) handled msg = Emit e
    /\ is_message e
    /\ message_channel e = Some (EvChannel rmsg)
    /\ message_sender e = Some ghost.
Proof.
  unfold SlackBridge.deliver. destruct (HasPrefix _ _).
  - eexists. split; [reflexivity|]. done.
  - eexists. split; [reflexivity|]. split_and!; [done..|].
    destruct ghost; reflexivity.
Qed.

Lemma sleeps_cons a (acts : list action) :
  sleeps (a :: acts)
  = match a with Sleep d => d :: sleeps acts | _ => sleeps acts end.
Proof. by destruct a. Qed.

Lemma emitted_cons a (acts : list action) :
  emitted (a :: acts)
  = match a with Emit e => e :: emitted acts | _ => emitted acts end.
Proof. by destruct a. Qed.

Lemma emitted_app (acts more : list action) :
  emitted (acts ++ more) = emitted acts ++ emitted more.
Proof. apply omap_app. Qed.

Lemma quiet_actions (out : list action) :
  Forall (fun a => match a with Emit _ | LogErr => True | _ => False end) out ->
  sleeps out = [] /\ reads out = [].
Proof.
  induction 1 as [|a out Ha _ [IH1 IH2]]; [done|].
  destruct a; try done; unfold sleeps, reads in *; simpl; done.
Qed.

(** The shape of [translatePost] once the sender is found. *)
Lemma translatePost_found s rmsg suser :
  getSlackUserFromMessage s (markDeleted formatTS rmsg) = Found suser ->
  translatePost s rmsg
  = match renderLines (markDeleted formatTS rmsg) with
    | None => None
    | Some (msgs, handled) =>
        Some (deliver s (markDeleted formatTS rmsg) (createUser s (Some suser))
                (UNick (createUser s (Some suser))) handled <$> msgs)
    end.
Proof. intros H. unfold SlackBridge.translatePost. cbv zeta. by rewrite H. Qed.

Lemma translatePost_quiet s rmsg out :
  translatePost s rmsg = Some out ->
  sleeps out = [] /\ reads out = [].
Proof.
  intros Hout. apply quiet_actions. revert Hout.
  destruct (getSlackUserFromMessage s (markDeleted formatTS rmsg))
    as [suser| |] eqn:Hsender.
  - rewrite (translatePost_found _ _ _ Hsender).
    destruct (renderLines _) as [[msgs handled]|]; [|discriminate].
    intros Heq.
    assert (out = deliver s (markDeleted formatTS rmsg) (createUser s (Some suser))
                    (UNick (createUser s (Some suser))) handled <$> msgs)
      as -> by congruence.
    apply Forall_fmap, Forall_forall. intros m _. unfold compose.
    by destruct (deliver_emits s (markDeleted formatTS rmsg)
                   (createUser s (Some suser)) handled m) as (e & -> & _).
  - unfold SlackBridge.translatePost. cbv zeta. rewrite Hsender.
    intros [= <-]. by repeat constructor.
  - unfold SlackBridge.translatePost. cbv zeta. by rewrite Hsender.
Qed.

(** C5 (amended). In the own-message check the translator sleeps when the
    recorded last-sent id is smaller than the timestamp of the event, that
    is, when the record is the earlier one: it reads the record, sleeps
    100 ms, and reads the record once more, before anything else. When the
    record is not smaller than the timestamp it reads the record once and
    does not sleep. *)
Theorem echo_wait s rmsg s' acts :
  EvUser rmsg = sinfo_UserID s ->
  handleSlackActionPost s rmsg = Some (s', acts) ->
  exists out,
    sleeps out = [] /\ reads out = []
    /\ if (lastSent s (EvChannel rmsg) <? EvTimestamp rmsg)%string
       then acts = [ReadLast (EvChannel rmsg); Sleep 100;
                    ReadLast (EvChannel rmsg)] ++ out
            /\ sleeps acts = [100]
            /\ s' = set_msgLast s (meanwhile (msgLast s))
       else acts = [ReadLast (EvChannel rmsg)] ++ out
            /\ sleeps acts = []
            /\ s' = s.
Proof.
  intros Hown. unfold SlackBridge.handleSlackActionPost, SlackBridge.echoCheck.
  rewrite Hown, String.eqb_refl.
  destruct (lastSent s (EvChannel rmsg) <? EvTimestamp rmsg)%string.
  - destruct (lastSent _ _ =? _)%string.
    + intros [= <- <-]. by exists [].
    + destruct (translatePost _ rmsg) as [out|] eqn:Hout; [|discriminate].
      intros [= <- <-]. exists out.
      destruct (translatePost_quiet _ _ _ Hout) as [Hs Hr].
      split_and!; try done; by rewrite !sleeps_cons, Hs.
  - destruct (lastSent _ _ =? _)%string.
    + intros [= <- <-]. by exists [].
    + destruct (translatePost _ rmsg) as [out|] eqn:Hout; [|discriminate].
      intros [= <- <-]. exists out.
      destruct (translatePost_quiet _ _ _ Hout) as [Hs Hr].
      split_and!; try done; by rewrite !sleeps_cons, Hs.
Qed.

(** The loops over attachments and files only add lines. *)
Lemma attachLines_keeps acc attach :
  acc.1 <> [] -> (attachLines acc attach).1 <> [].
Proof.
  destruct acc as [msgs handled]. unfold attachLines. simpl. intros H.
  destruct (negb _); destruct (AText attach =? "")%string; simpl;
    try done; destruct msgs; done.
Qed.

Lemma fold_attachLines_keeps atts :
  forall acc, acc.1 <> [] -> (fold_left attachLines atts acc).1 <> [].
Proof.
  induction atts as [|a atts IH]; intros acc H; [done|].
  simpl. by apply IH, attachLines_keeps.
Qed.

Lemma fold_fileLine_keeps files :
  forall acc, acc.1 <> [] -> (fold_left fileLine files acc).1 <> [].
Proof.
  induction files as [|f files IH]; intros acc H; [done|].
  simpl. apply IH. unfold fileLine. simpl. by destruct (acc.1).
Qed.

Lemma markFirst_keeps tag msgs : msgs <> [] -> markFirst tag msgs <> [].
Proof. by destruct msgs. Qed.

(** A message with a text renders at least one line. *)
Lemma renderLines_text rmsg :
  EvText rmsg <> "" ->
  (SubType rmsg = "message_changed" -> is_Some (SubMessage rmsg)) ->
  exists msgs handled, renderLines rmsg = Some (msgs, handled) /\ msgs <> [].
Proof.
  intros Htext Hsub. unfold SlackBridge.renderLines.
  apply String.eqb_neq in Htext. rewrite Htext. cbn [negb].
  pose proof (fold_fileLine_keeps (Files rmsg)
                (fold_left attachLines (Attachments rmsg)
                   (split_lines (EvText rmsg), true))
                (fold_attachLines_keeps _ (_, true) (split_lines_nonempty _)))
    as Hlines.
  destruct (fold_left fileLine _ _) as [msgs handled]. simpl in Hlines.
  cbv zeta.
  destruct (String.eqb_spec (SubType rmsg) "message_changed") as [Hch|_].
  - destruct (Hsub Hch) as [sub ->]. simpl. eexists _, _. split; [done|].
    apply markFirst_keeps. intros [Hnil _]%app_eq_nil. revert Hnil.
    destruct (_ && _); [by apply markFirst_keeps|done].
  - eexists _, _. split; [done|].
    destruct (_ && _); [by apply markFirst_keeps|done].
Qed.

Lemma markDeleted_fields rmsg :
  SubType (markDeleted formatTS rmsg) = SubType rmsg
  /\ SubMessage (markDeleted formatTS rmsg) = SubMessage rmsg
  /\ EvChannel (markDeleted formatTS rmsg) = EvChannel rmsg
  /\ (EvText rmsg <> "" -> EvText (markDeleted formatTS rmsg) <> "").
Proof.
  unfold markDeleted. destruct (SubType rmsg =? "message_deleted")%string; done.
Qed.

Lemma getSlackUserFromMessage_markDeleted s rmsg :
  getSlackUserFromMessage s (markDeleted formatTS rmsg)
  = getSlackUserFromMessage s rmsg.
Proof.
  unfold markDeleted. by destruct (SubType rmsg =? "message_deleted")%string.
Qed.

Lemma found_has_SubMessage s rmsg suser :
  getSlackUserFromMessage s rmsg = Found suser ->
  SubType rmsg = "message_changed" -> is_Some (SubMessage rmsg).
Proof.
  unfold SlackBridge.getSlackUserFromMessage. intros H Hst.
  rewrite Hst in H. simpl in H.
  destruct (SubMessage rmsg); [eauto|done].
Qed.

(** What the lines of a message are turned into: one message event each,
    on the channel of the message, from the ghost of its sender. *)
Lemma emitted_deliver s rmsg ghost handled msgs :
  length (emitted (deliver s rmsg ghost (UNick ghost) handled <$> msgs))
  = length msgs
  /\ Forall (fun e => is_message e
                     /\ message_channel e = Some (EvChannel rmsg)
                     /\ message_sender e = Some ghost)
       (emitted (deliver s rmsg ghost (UNick ghost) handled <$> msgs)).
Proof.
  induction msgs as [|m msgs [IHlen IHall]]; [by split|].
  rewrite fmap_cons, emitted_cons.
  destruct (deliver_emits s rmsg ghost handled m) as (e & -> & He).
  split; [simpl; by rewrite IHlen|by constructor].
Qed.

(** An event with a text whose sender is found is forwarded. *)
Lemma translatePost_forwards s rmsg suser :
  getSlackUserFromMessage s rmsg = Found suser ->
  EvText rmsg <> "" ->
  exists out,
    translatePost s rmsg = Some out
    /\ emitted out <> []
    /\ Forall (fun e => is_message e
                       /\ message_channel e = Some (EvChannel rmsg)
                       /\ message_sender e = Some (createUser s (Some suser)))
         (emitted out).
Proof.
  intros Hsender Htext.
  destruct (markDeleted_fields rmsg) as (Hst & Hsm & Hch & Htx).
  rewrite <- getSlackUserFromMessage_markDeleted in Hsender.
  rewrite (translatePost_found _ _ _ Hsender).
  destruct (renderLines_text (markDeleted formatTS rmsg) (Htx Htext)
              (found_has_SubMessage _ _ _ Hsender))
    as (msgs & handled & -> & Hne).
  eexists. split; [reflexivity|].
  destruct (emitted_deliver s (markDeleted formatTS rmsg)
              (createUser s (Some suser)) handled msgs) as [Hlen Hall].
  rewrite Hch in Hall. split; [|done].
  intros Hnil. rewrite Hnil in Hlen. by destruct msgs.
Qed.






(** [handleActionMisc] on a channel: nothing when the acting user is not
    found, one channel message from the user's ghost otherwise. *)
Lemma handleActionMisc_spec s userID channelID msg :
  match GetUserInfo userID with
  | None => handleActionMisc s userID channelID msg = []
  | Some suser =>
      exists e,
        handleActionMisc s userID channelID msg = [Emit e]
        /\ is_message e
        /\ message_text e = Some msg
        /\ message_channel e = Some channelID
        /\ message_sender e = Some (createUser s (Some suser))
  end.
Proof.
  unfold SlackBridge.handleActionMisc.
  destruct (GetUserInfo userID) as [suser|]; [|done].
  destruct (HasPrefix channelID "D"); eexists; (split; [reflexivity|done]).
Qed.

(** C6 (amended). A reaction-added or reaction-removed event is not checked
    against any stored message: in every state of the bridge it is handed to
    [handleActionMisc] with a text that quotes the timestamp of the item.
    It is dropped, with nothing enqueued and no error, when its acting user
    is not found; otherwise exactly one message event with that text is
    enqueued. A star or pin event whose item carries no message is dropped
    the same way. *)
Theorem reaction_forwarded_unless_user_unknown s user reaction channel ts :
  let added := "[M " +:+ formatTS ts +:+ "] Added reaction :" +:+ reaction +:+ ":" in
  let removed :=
    "[M " +:+ formatTS ts +:+ "] Removed reaction :" +:+ reaction +:+ ":" in
  match GetUserInfo user with
  | None =>
      handleSlackEvent s (EvReactionAdded user reaction channel ts) = Some (s, [])
      /\ handleSlackEvent s (EvReactionRemoved user reaction channel ts)
         = Some (s, [])
  | Some suser =>
      exists e1 e2,
        handleSlackEvent s (EvReactionAdded user reaction channel ts)
        = Some (s, [Emit e1])
        /\ handleSlackEvent s (EvReactionRemoved user reaction channel ts)
           = Some (s, [Emit e2])
        /\ is_message e1 /\ message_text e1 = Some added
        /\ message_channel e1 = Some channel
        /\ is_message e2 /\ message_text e2 = Some removed
        /\ message_channel e2 = Some channel
  end
  /\ handleSlackEvent s (EvStarAdded user channel None) = Some (s, [])
  /\ handleSlackEvent s (EvStarRemoved user channel None) = Some (s, [])
  /\ handleSlackEvent s (EvPinAdded user channel None) = Some (s, [])
  /\ handleSlackEvent s (EvPinRemoved user channel None) = Some (s, []).
Proof.
  intros added removed. split; [|done].
  pose proof (handleActionMisc_spec s user channel added) as Ha.
  pose proof (handleActionMisc_spec s user channel removed) as Hr.
  cbn [SlackBridge.handleSlackEvent]. fold added removed.
  destruct (GetUserInfo user) as [suser|].
  - destruct Ha as (e1 & -> & ? & ? & ? & _).
    destruct Hr as (e2 & -> & ? & ? & ? & _).
    exists e1, e2. done.
  - by rewrite Ha, Hr.
Qed.






End TranslatorFacts.

Section TranslatorExamples.

Import Bridge SlackBridge SlackSamples ClientSamples.



(** The event with the id 200 and a text on the client that cannot look
    the account up, and the event without any text on the client that can. *)
Example own_other_id_dropped :
  handleSlackActionPost noUserInfo noBot noMembers false false anyNick
    asIs asIs emptyDump nothingSent slackSent (post "U1" "C1" "200" "hi")
  = Some (slackSent, [ReadLast "C1"; Sleep 100; ReadLast "C1"; LogErr])
  /\ handlePost slackSent (post "U1" "C1" "200" "")
     = Some (slackSent, [ReadLast "C1"; Sleep 100; ReadLast "C1"]).
Proof. split; vm_compute; reflexivity. Qed.

(** The echo and a message of another session of the account, evaluated. *)
Example own_echo_100 :
  handlePost slackSent (post "U1" "C1" "100" "hi")
  = Some (slackSent, [ReadLast "C1"]).
Proof. vm_compute. reflexivity. Qed.

Example own_other_session_200 :
  handlePost slackSent (post "U1" "C1" "200" "hi")
  = Some (slackSent,
          [ReadLast "C1"; Sleep 100; ReadLast "C1";
           Emit (mkEvent "channel_message"
                   (ChannelMessageEvent "hi" "C1" (ghostOf me true)))]).
Proof. vm_compute. reflexivity. Qed.

(** C5, witness: the record 100 is earlier than the event 200. *)
Lemma echo_wait_witness :
  exists out,
    sleeps out = [] /\ reads out = []
    /\ if (lastSent slackSent (EvChannel (post "U1" "C1" "200" "hi"))
          <? EvTimestamp (post "U1" "C1" "200" "hi"))%string
       then [ReadLast "C1"; Sleep 100; ReadLast "C1";
             Emit (mkEvent "channel_message"
                     (ChannelMessageEvent "hi" "C1" (ghostOf me true)))]
            = [ReadLast (EvChannel (post "U1" "C1" "200" "hi")); Sleep 100;
               ReadLast (EvChannel (post "U1" "C1" "200" "hi"))] ++ out
            /\ sleeps [ReadLast "C1"; Sleep 100; ReadLast "C1";
                       Emit (mkEvent "channel_message"
                               (ChannelMessageEvent "hi" "C1" (ghostOf me true)))]
               = [100]
            /\ slackSent = set_msgLast slackSent (nothingSent (msgLast slackSent))
       else [ReadLast "C1"; Sleep 100; ReadLast "C1";
             Emit (mkEvent "channel_message"
                     (ChannelMessageEvent "hi" "C1" (ghostOf me true)))]
            = [ReadLast (EvChannel (post "U1" "C1" "200" "hi"))] ++ out
            /\ sleeps [ReadLast "C1"; Sleep 100; ReadLast "C1";
                       Emit (mkEvent "channel_message"
                               (ChannelMessageEvent "hi" "C1" (ghostOf me true)))]
               = []
            /\ slackSent = slackSent.
Proof.
  apply (echo_wait userInfo noBot noMembers false false anyNick asIs asIs
           emptyDump nothingSent slackSent (post "U1" "C1" "200" "hi")).
  - vm_compute. reflexivity.
  - vm_compute. reflexivity.
Defined.

(** C5, counterexample: the record 100 is not earlier than the event 100,
    and the translator does not sleep; the record 100 is earlier than the
    event 200, and the translator sleeps. *)
Lemma no_wait_when_record_not_earlier :
  ~ (forall s rmsg s' acts,
       EvUser rmsg = sinfo_UserID s ->
       handlePost s rmsg = Some (s', acts) ->
       if negb (lastSent s (EvChannel rmsg) <? EvTimestamp rmsg)%string
       then sleeps acts = [100]
       else sleeps acts = []).
Proof.
  intros H.
  specialize (H slackSent (post "U1" "C1" "100" "hi") slackSent [ReadLast "C1"]
                ltac:(vm_compute; reflexivity) ltac:(vm_compute; reflexivity)).
  vm_compute in H. discriminate.
Qed.

Example wait_when_record_earlier :
  (lastSent slackSent "C1" <? "200")%string = true
  /\ (exists s' acts,
        handlePost slackSent (post "U1" "C1" "200" "hi") = Some (s', acts)
        /\ sleeps acts = [100]).
Proof. split; [vm_compute; reflexivity|]. eexists _, _. vm_compute. done. Qed.

(** C6, counterexample: no message is stored anywhere in the bridge, and
    the reaction to the message of timestamp T is enqueued as a channel
    message. *)
Lemma unresolved_reaction_is_forwarded :
  ~ (forall s ts,
       (forall c, msgLast s !! c <> Some ts) ->
       exists s' acts,
         handle s (EvReactionAdded "U2" "thumbsup" "C1" ts) = Some (s', acts)
         /\ emitted acts = []).
Proof.
  intros H. destruct (H slack0 "T") as (s' & acts & Hrun & Hnone).
  - intros c. vm_compute. discriminate.
  - vm_compute in Hrun. injection Hrun as <- <-. vm_compute in Hnone.
    discriminate.
Qed.

Example reaction_on_unknown_message :
  handle slack0 (EvReactionAdded "U2" "thumbsup" "C1" "T")
  = Some (slack0,
          [Emit (mkEvent "channel_message"
                   (ChannelMessageEvent "[M T] Added reaction :thumbsup:" "C1"
                      (ghostOf bob false)))]).
Proof. vm_compute. reflexivity. Qed.


(** The kinds of event of the unknown user U404, evaluated: its reaction,
    star and changed message emit nothing; as an inviter it gives an adder
    with an empty nick. *)
Example unknown_user_events :
  handle slack0 (EvReactionRemoved "U404" "wave" "C1" "100") = Some (slack0, [])
  /\ handle slack0 (EvStarAdded "U404" "C1" (Some (mkMsg "U2" "100" "hello")))
     = Some (slack0, [])
  /\ handle slack0
       (EvMessage (mkMessageEvent "U2" "C1" "300" "message_changed"
                     (Some (mkMsg "U404" "100" "hello")) "" "" "" "" [] [] ""))
     = Some (slack0, [LogErr])
  /\ handle slack0 (EvMemberJoinedChannel "U2" "C1" "U404")
     = Some (mkSlack "U1" "me" "T1" {["U2" := bob]} ∅,
             [Emit (mkEvent "channel_add"
                      (ChannelAddEvent [ghostOf bob false] (Some emptyUserInfo)
                         "C1"))]).
Proof. split_and!; vm_compute; reflexivity. Qed.


(** A bot message without a user name whose bot the client does not know:
    the translator dereferences the nil bot. *)
Example bot_lookup_nil_dereference :
  handle slack0
    (EvMessage (mkMessageEvent "" "C1" "300" "bot_message" None "" "beep"
                  "B1" "" [] [] ""))
  = None.
Proof. vm_compute. reflexivity. Qed.

End TranslatorExamples.

(** * Further properties of the registry *)

Section UserMapFacts.

Import Irc Bridge Irckit IrckitRest.

Variable ToLower : string -> string.
Variable UserPrefix : User -> Prefix.

Local Abbreviation ID := (ID ToLower).
Local Abbreviation uID := (uID ToLower).
Local Abbreviation add := (add ToLower).
Local Abbreviation HasUserID := (HasUserID ToLower).
Local Abbreviation RenameUser := (RenameUser ToLower UserPrefix).
Local Abbreviation Quit := (Quit ToLower).
Local Abbreviation BatchAdd := (BatchAdd ToLower).
Local Abbreviation batchStep := (batchStep ToLower).

(** X1. Nicks are unique up to normalization: when the key of a user is
    free, [add] stores the user, [HasUserID] then finds the user under every
    spelling with the same normalized form, and [add] of any user with such a
    nick is refused and leaves the registry as it is. *)
Theorem add_then_same_key_refused s u usr u2 usr2 :
  users s !! uID usr = None ->
  ID (Nick usr2) = ID (Nick usr) ->
  exists s1,
    add s u usr = (true, s1, [Lock; PutUser (uID usr) u; Unlock])
    /\ HasUserID s1 (Nick usr) = Some u
    /\ HasUserID s1 (Nick usr2) = Some u
    /\ add s1 u2 usr2 = (false, s1, [Lock; Unlock]).
Proof.
  intros Hfree Hsame. unfold Irckit.add. rewrite Hfree.
  eexists. split; [reflexivity|].
  unfold Irckit.HasUserID, Irckit.uID, Irckit.ID in *. simpl.
  rewrite Hsame, lookup_insert_eq. done.
Qed.

(** A taken key: [add] changes nothing. *)
Lemma add_taken s u usr other :
  users s !! uID usr = Some other ->
  add s u usr = (false, s, [Lock; Unlock]).
Proof. intros H. unfold Irckit.add. by rewrite H. Qed.

Lemma batchStep_users acc entry :
  users (batchStep acc entry).1
  = match users acc.1 !! uID entry.2 with
    | Some _ => users acc.1
    | None => <[uID entry.2 := entry.1]> (users acc.1)
    end.
Proof. unfold IrckitRest.batchStep. by destruct (users acc.1 !! _). Qed.

Lemma fold_batchStep_users us :
  forall acc,
    (forall k u, users acc.1 !! k = Some u ->
       users (fold_left batchStep us acc).1 !! k = Some u)
    /\ (forall entry, entry ∈ us ->
          is_Some (users (fold_left batchStep us acc).1 !! uID entry.2))
    /\ (forall k u, users (fold_left batchStep us acc).1 !! k = Some u ->
          users acc.1 !! k = Some u
          \/ exists usr, (u, usr) ∈ us /\ k = uID usr).
Proof.
  induction us as [|entry us IH]; intros acc.
  - split_and!; [done| |by left]. intros entry Hin. by apply elem_of_nil in Hin.
  - cbn [fold_left]. destruct (IH (batchStep acc entry)) as (Hkeep & Hall & Hfrom).
    assert (Hstep : forall k u, users acc.1 !! k = Some u ->
              users (batchStep acc entry).1 !! k = Some u).
    { intros k u Hk. rewrite batchStep_users.
      destruct (users acc.1 !! uID entry.2) eqn:He; [done|].
      rewrite lookup_insert_ne; [done|congruence]. }
    split_and!.
    + intros k u Hk. by apply Hkeep, Hstep.
    + intros e [->|Hin]%elem_of_cons; [|by apply Hall].
      assert (is_Some (users (batchStep acc entry).1 !! uID entry.2))
        as [v Hv].
      { rewrite batchStep_users.
        destruct (users acc.1 !! uID entry.2) eqn:He; [by rewrite He|].
        rewrite lookup_insert_eq. eauto. }
      exists v. by apply Hkeep.
    + intros k u Hk. destruct (Hfrom _ _ Hk) as [Hs|(usr & Hin & ->)].
      * rewrite batchStep_users in Hs.
        destruct (users acc.1 !! uID entry.2) eqn:He; [by left|].
        rewrite lookup_insert in Hs. case_decide as Hkey; [|by left].
        injection Hs as <-. right. exists entry.2. split; [|done].
        destruct entry. apply elem_of_cons. by left.
      * right. exists usr. split; [|done]. apply elem_of_cons. by right.
Qed.

(** A key that was free goes to the first listed user with that key. *)
Lemma fold_batchStep_first us :
  forall acc k,
    users acc.1 !! k = None ->
    users (fold_left batchStep us acc).1 !! k
    = fst <$> List.find (fun entry => bool_decide (uID entry.2 = k)) us.
Proof.
  induction us as [|entry us IH]; intros acc k Hk; [done|].
  cbn [fold_left List.find]. case_bool_decide as Hkey.
  - subst k. destruct (fold_batchStep_users us (batchStep acc entry)) as (Hkeep & _).
    apply Hkeep. rewrite batchStep_users, Hk. apply lookup_insert_eq.
  - apply IH. rewrite batchStep_users.
    destruct (users acc.1 !! uID entry.2); [done|].
    by rewrite lookup_insert_ne.
Qed.

(** X2. [BatchAdd] never replaces an entry: what the registry held it still
    holds; afterwards the key of every listed user is taken; every entry is
    an old one or a listed user under its own key; and a key that was free
    goes to the first listed user with that key, so that a later user of the
    list with the same key is skipped. *)
Theorem BatchAdd_keeps_and_covers s us :
  (forall k u, users s !! k = Some u -> users (BatchAdd s us).1 !! k = Some u)
  /\ (forall entry, entry ∈ us ->
        is_Some (users (BatchAdd s us).1 !! uID entry.2))
  /\ (forall k u, users (BatchAdd s us).1 !! k = Some u ->
        users s !! k = Some u \/ exists usr, (u, usr) ∈ us /\ k = uID usr)
  /\ (forall k, users s !! k = None ->
        users (BatchAdd s us).1 !! k
        = fst <$> List.find (fun entry => bool_decide (uID entry.2 = k)) us)
  /\ channels (BatchAdd s us).1 = channels s.
Proof.
  unfold IrckitRest.BatchAdd.
  destruct (fold_batchStep_users us (s, [Lock])) as (Hkeep & Hall & Hfrom).
  assert (Hch : forall us acc,
            channels (fold_left batchStep us acc).1 = channels acc.1).
  { clear. induction us as [|e us IH]; intros acc; [done|].
    cbn [fold_left]. rewrite IH. unfold IrckitRest.batchStep.
    by destruct (users acc.1 !! _). }
  specialize (Hch us (s, [Lock])).
  pose proof (fold_batchStep_first us (s, [Lock])) as Hfirst.
  destruct (fold_left batchStep us (s, [Lock])) as [s' puts]. done.
Qed.

(** A free key: the user is re-keyed. *)
Lemma RenameUser_free s u usr newNick :
  0 <= MaxNickLen (config s) ->
  users s !! ID (truncateNick (MaxNickLen (config s)) newNick) = None ->
  exists done,
    RenameUser s u usr newNick
    = Some (true,
            set_users s
              (<[ID (truncateNick (MaxNickLen (config s)) newNick) := u]>
                 (delete (uID usr) (users s))),
            set_Nick usr (truncateNick (MaxNickLen (config s)) newNick),
            done).
Proof.
  intros Hmax Hfree. unfold Irckit.RenameUser.
  rewrite (rename_cut _ _ Hmax). cbn [mbind option_bind]. rewrite Hfree.
  eexists. reflexivity.
Qed.

Lemma size_delete_present (m : gmap string positive) k v :
  m !! k = Some v -> Z.of_nat (size (delete k m)) = Z.of_nat (size m) - 1.
Proof.
  intros Hk. pose proof (map_size_delete k m) as Hd. rewrite Hk in Hd.
  assert (size m <> 0%nat).
  { intros Hz. apply map_size_empty_inv in Hz. rewrite Hz in Hk.
    by rewrite lookup_empty in Hk. }
  lia.
Qed.

(** X3. Renaming a registered user to a free nick and back again restores
    the registry and the user; the rename in between changes no other entry
    and keeps the number of users. *)
Theorem RenameUser_and_back s u usr newNick :
  0 <= MaxNickLen (config s) ->
  users s !! uID usr = Some u ->
  users s !! ID (truncateNick (MaxNickLen (config s)) newNick) = None ->
  truncateNick (MaxNickLen (config s)) (Nick usr) = Nick usr ->
  exists s1 usr1 done1 s2 usr2 done2,
    RenameUser s u usr newNick = Some (true, s1, usr1, done1)
    /\ Len s1 = Len s
    /\ (forall k, k <> uID usr ->
          k <> ID (truncateNick (MaxNickLen (config s)) newNick) ->
          users s1 !! k = users s !! k)
    /\ users s1 !! uID usr = None
    /\ RenameUser s1 u usr1 (Nick usr) = Some (true, s2, usr2, done2)
    /\ users s2 = users s
    /\ usr2 = usr.
Proof.
  intros Hmax Hreg Hfree Hfits.
  set (nick := truncateNick (MaxNickLen (config s)) newNick) in *.
  assert (Hne : ID nick <> uID usr) by congruence.
  destruct (RenameUser_free s u usr newNick Hmax Hfree) as [done1 H1].
  fold nick in H1.
  set (m1 := <[ID nick := u]> (delete (uID usr) (users s))) in *.
  assert (Hold : m1 !! uID usr = None).
  { subst m1. rewrite lookup_insert_ne by done. apply lookup_delete_eq. }
  destruct (RenameUser_free (set_users s m1) u (set_Nick usr nick) (Nick usr))
    as [done2 H2]; [done|cbn [config set_users users]; by rewrite Hfits|].
  cbn [config set_users users] in H2. rewrite Hfits in H2.
  eexists _, _, _, _, _, _. split; [exact H1|]. split_and!.
  - unfold Len. cbn [users set_users]. subst m1.
    rewrite map_size_insert_None by (rewrite lookup_delete_ne; done).
    rewrite Nat2Z.inj_succ, (size_delete_present _ _ _ Hreg). lia.
  - intros k Hk1 Hk2. cbn [users set_users]. subst m1.
    rewrite lookup_insert_ne by done. by rewrite lookup_delete_ne.
  - done.
  - exact H2.
  - cbn [users set_users]. subst m1.
    change (Irckit.uID ToLower (set_Nick usr nick)) with (ID nick).
    rewrite delete_insert_eq.
    rewrite (delete_id (delete (uID usr) (users s)) (ID nick))
      by (rewrite lookup_delete_ne; done).
    rewrite insert_delete_eq. by apply insert_id.
  - by destruct usr.
Qed.

(** X4. [Quit] deletes the entry under the key of the user's nick, whoever
    holds it, and nothing else: the other keys keep their entries, the
    number of users drops by one, and [Quit] after a successful [add] gives
    back the user map from before the [add]. *)
Theorem Quit_deletes_one_key s u usr holder :
  users s !! uID usr = Some holder ->
  HasUserID (Quit s u usr "").1 (Nick usr) = None
  /\ (forall k, k <> uID usr -> users (Quit s u usr "").1 !! k = users s !! k)
  /\ Len (Quit s u usr "").1 = Len s - 1
  /\ (forall s0, users s0 !! uID usr = None ->
        users (Quit (add s0 u usr).1.2 u usr "").1 = users s0).
Proof.
  intros Hheld. cbn [Irckit.Quit fst users set_users]. split_and!.
  - unfold Irckit.HasUserID. cbn [users]. apply lookup_delete_eq.
  - intros k Hk. by rewrite lookup_delete_ne.
  - unfold Len. cbn [users]. by apply size_delete_present with holder.
  - intros s0 Hfree. unfold Irckit.add. rewrite Hfree. cbn.
    rewrite delete_insert_eq. by apply delete_id.
Qed.

End UserMapFacts.

Section ChannelMoreFacts.

Import Irc Bridge Irckit IrckitRest.

Variable Protocol : string.
Variable GetChannelName : string -> string.
Variable GetChannel : string -> option ChannelInfo.

Local Abbreviation server_Channel :=
  (server_Channel Protocol GetChannelName GetChannel).

(** [Channel] and [UnlinkChannel] touch the channel index only. *)
Lemma server_Channel_frame s channelID ch s1 done :
  server_Channel s channelID = Some (ch, s1, done) ->
  su s1 = su s /\ users s1 = users s /\ members s1 = members s
  /\ config s1 = config s.
Proof.
  unfold Irckit.server_Channel.
  destruct (channels s !! channelID) as [c|]; [by intros [= <- <- <-]|].
  destruct (su s) eqn:Hsu; simpl; [|discriminate].
  destruct (GetChannel channelID); by intros [= <- <- <-].
Qed.

Lemma UnlinkChannel_frame s ch :
  su (UnlinkChannel s ch).1 = su s /\ users (UnlinkChannel s ch).1 = users s
  /\ members (UnlinkChannel s ch).1 = members s
  /\ config (UnlinkChannel s ch).1 = config s
  /\ next_chan (UnlinkChannel s ch).1 = next_chan s.
Proof. unfold UnlinkChannel. by destruct (same_instance _ _). Qed.

(** X5. [Channel] is get-or-create: whatever the first call did, the
    instance it returned is found under the id, a second call returns the
    same instance and changes nothing, and no key that held an entry has
    lost it. *)
Theorem server_Channel_again s channelID ch s1 done :
  server_Channel s channelID = Some (ch, s1, done) ->
  HasChannel s1 channelID = Some ch
  /\ server_Channel s1 channelID = Some (ch, s1, [Lock; Unlock])
  /\ (forall k, is_Some (channels s !! k) -> is_Some (channels s1 !! k))
  /\ users s1 = users s.
Proof.
  intros Hcall.
  destruct (channels s !! channelID) as [ch0|] eqn:Hid.
  - rewrite (server_Channel_present _ _ _ _ _ _ Hid) in Hcall.
    injection Hcall as <- <- <-.
    split_and!; [done|by apply server_Channel_present|done..].
  - destruct (server_Channel_absent _ _ _ _ _ _ _ _ Hid Hcall)
      as (_ & _ & _ & Hmap & _).
    assert (Hnew : channels s1 !! channelID = Some ch).
    { rewrite Hmap, lookup_insert. case_decide; [done|apply lookup_insert_eq]. }
    split_and!; [done|by apply server_Channel_present| |].
    + intros k Hk. rewrite Hmap, !lookup_insert.
      repeat case_decide; eauto.
    + by destruct (server_Channel_frame _ _ _ _ _ Hcall) as (_ & ? & _).
Qed.

(** X6. [ChannelCount] counts keys, not channels: creating a channel whose
    name differs from its id and is not a key yet adds two; creating one
    that is named by its id, or whose name is a key already, adds one. *)
Theorem ChannelCount_after_create s channelID ch s1 done :
  channels s !! channelID = None ->
  server_Channel s channelID = Some (ch, s1, done) ->
  ChannelCount s1
  = ChannelCount s
    + (if decide (GetChannelName channelID = channelID) then 1
       else match channels s !! GetChannelName channelID with
            | None => 2
            | Some _ => 1
            end).
Proof.
  intros Hid Hcall.
  destruct (server_Channel_absent _ _ _ _ _ _ _ _ Hid Hcall)
    as (_ & _ & _ & Hmap & _).
  unfold ChannelCount. rewrite Hmap.
  case_decide as Hname.
  - rewrite Hname, insert_insert_eq, map_size_insert_None by done. lia.
  - destruct (channels s !! GetChannelName channelID) as [c|] eqn:Hn.
    + rewrite map_size_insert_Some
        by (rewrite lookup_insert_ne by done; by rewrite Hn).
      rewrite map_size_insert_None by done. lia.
    + rewrite map_size_insert_None
        by (rewrite lookup_insert_ne by done; done).
      rewrite map_size_insert_None by done. lia.
Qed.

(** X7. Creating a channel whose id and name are free and unlinking it again
    restores the channel index; a later [Channel] for the same id then
    builds a new instance, at another address, with the same id and name. *)
Theorem Channel_Unlink_Channel s channelID ch s1 done :
  channels s !! channelID = None ->
  channels s !! GetChannelName channelID = None ->
  server_Channel s channelID = Some (ch, s1, done) ->
  channels (UnlinkChannel s1 ch).1 = channels s
  /\ exists ch2 s3 done3,
       server_Channel (UnlinkChannel s1 ch).1 channelID = Some (ch2, s3, done3)
       /\ ch_ptr ch2 <> ch_ptr ch
       /\ ch_id ch2 = ch_id ch /\ ch_name ch2 = ch_name ch
       /\ HasChannel s3 channelID = Some ch2.
Proof.
  intros Hid Hname Hcall.
  destruct (server_Channel_absent _ _ _ _ _ _ _ _ Hid Hcall)
    as (Hptr & Hcid & Hcname & Hmap & Hnext).
  assert (Hstored : channels s1 !! ch_name ch = Some ch).
  { rewrite Hmap, Hcname. apply lookup_insert_eq. }
  pose proof (UnlinkChannel_stored _ _ Hstored) as Hun.
  assert (Hback : channels (UnlinkChannel s1 ch).1 = channels s).
  { rewrite Hun, Hmap, Hcid, Hcname.
    rewrite delete_insert_eq.
    destruct (decide (GetChannelName channelID = channelID)) as [Heq|Hne].
    - rewrite Heq, delete_insert_eq.
      rewrite (delete_id (channels s)) by done. by rewrite delete_id.
    - rewrite (delete_insert_ne _ _ _ _ Hne).
      rewrite (delete_id _ (GetChannelName channelID)) by done.
      rewrite delete_insert_eq. by rewrite delete_id. }
  split; [done|].
  assert (Hsu : su (UnlinkChannel s1 ch).1 = su s
                /\ next_chan (UnlinkChannel s1 ch).1 = Pos.succ (next_chan s)).
  { destruct (UnlinkChannel_frame s1 ch) as (-> & _ & _ & _ & ->).
    by destruct (server_Channel_frame _ _ _ _ _ Hcall) as (-> & _). }
  destruct Hsu as [Hsu Hnext2].
  assert (Hsome : is_Some (su s)).
  { revert Hcall. unfold Irckit.server_Channel. rewrite Hid.
    destruct (su s); simpl; [eauto|discriminate]. }
  destruct Hsome as [u0 Hu0].
  assert (Hid2 : channels (UnlinkChannel s1 ch).1 !! channelID = None)
    by (by rewrite Hback).
  assert (exists r, server_Channel (UnlinkChannel s1 ch).1 channelID = Some r)
    as [[[ch2 s3] done3] Hcall2].
  { unfold Irckit.server_Channel. rewrite Hid2, Hsu, Hu0. simpl.
    destruct (GetChannel channelID); eauto. }
  destruct (server_Channel_absent _ _ _ _ _ _ _ _ Hid2 Hcall2)
    as (Hptr2 & Hcid2 & Hcname2 & Hmap2 & _).
  exists ch2, s3, done3. split_and!; [done| |congruence..|].
  - rewrite Hptr2, Hnext2, Hptr. lia.
  - unfold HasChannel. rewrite Hmap2, lookup_insert.
    case_decide; [done|apply lookup_insert_eq].
Qed.

(** X8. [UnlinkChannel] is idempotent: a second call on the same channel
    changes nothing, whether or not the first one removed the channel. *)
Theorem UnlinkChannel_twice s ch :
  UnlinkChannel (UnlinkChannel s ch).1 ch
  = ((UnlinkChannel s ch).1, [Lock; Unlock]).
Proof.
  unfold UnlinkChannel at 2 3.
  destruct (same_instance (channels s !! ch_name ch) ch) eqn:Hsame.
  - unfold UnlinkChannel. cbn [fst channels set_channels].
    destruct (decide (ch_id ch = ch_name ch)) as [Heq|Hne].
    + rewrite Heq, lookup_delete_eq. done.
    + rewrite lookup_delete_ne, lookup_delete_eq by done. done.
  - unfold UnlinkChannel. cbn [fst]. by rewrite Hsame.
Qed.

End ChannelMoreFacts.

Section HandshakeMoreFacts.

Import Irc Bridge Irckit IrckitRest.

Variable ToLower : string -> string.
Variable UserPrefix : User -> Prefix.
Variable ResolveHost : User -> string.
Variable welcome : server -> loc -> User -> option error.

Local Abbreviation ID := (ID ToLower).
Local Abbreviation handshake_loop := (handshake_loop ToLower welcome).
Local Abbreviation handshake := (handshake ToLower ResolveHost welcome).
Local Abbreviation Connect := (Connect ToLower ResolveHost welcome).
Local Abbreviation RenameUser := (RenameUser ToLower UserPrefix).

(** The first parameter of a NICK or PASS message, whose trailing part
    counts as a last parameter. *)
Lemma first_param_with_trailing (ps : list string) (t p : string) :
  ps = p :: tail ps \/ (ps = [] /\ t = p /\ p <> "") ->
  exists more,
    (if true && negb (t =? "")%string then ps ++ [t] else ps) = p :: more.
Proof.
  intros [Hps|(-> & -> & Hp)].
  - rewrite Hps. destruct (negb _); simpl; eauto.
  - apply String.eqb_neq in Hp. rewrite Hp. simpl. eauto.
Qed.

(** One message that completes the user and finds the key free. *)
Lemma handshake_loop_registers s u usr i msg rest done p0 more usr1 replies :
  0 <= MaxNickLen (config s) ->
  i - 1 <> 0 ->
  (if ((Command msg =? NICK)%string || (Command msg =? PASS)%string)
      && negb (Trailing msg =? "")%string
   then Params msg ++ [Trailing msg] else Params msg) = p0 :: more ->
  handshake_command s u usr msg (p0 :: more) p0 = (usr1, replies) ->
  Nick usr1 <> "" ->
  Username usr1 <> "" ->
  users s !! ID (truncateNick (MaxNickLen (config s)) (Nick usr1)) = None ->
  let nick := truncateNick (MaxNickLen (config s)) (Nick usr1) in
  let usr2 := set_Nick usr1 nick in
  let s2 := set_su (set_users s (<[ID nick := u]> (users s))) u in
  handshake_loop s u usr i (Recv (Some msg) :: rest) done
  = (Registered (welcome s2 u usr2), s2, usr2,
     ((done ++ replies) ++ [Lock; PutUser (ID nick) u; Unlock])
     ++ [Welcome u] ++ handshake_login u usr2 (welcome s2 u usr2)).
Proof.
  intros Hmax Hi Hparams Hcmd Hnick Huser Hfree nick usr2 s2.
  cbn [Irckit.handshake_loop].
  destruct (Z.eqb_spec (i - 1) 0) as [|_]; [done|].
  cbv zeta. rewrite Hparams, Hcmd.
  apply String.eqb_neq in Hnick, Huser. rewrite Hnick, Huser. cbn [orb].
  rewrite (rename_cut _ _ Hmax). fold nick.
  unfold add, uID. cbn [Nick set_Nick]. subst nick. rewrite Hfree.
  reflexivity.
Qed.

(** One message after which the user is still incomplete. *)
Lemma handshake_loop_waits s u usr i msg rest done p0 more usr1 replies :
  i - 1 <> 0 ->
  (if ((Command msg =? NICK)%string || (Command msg =? PASS)%string)
      && negb (Trailing msg =? "")%string
   then Params msg ++ [Trailing msg] else Params msg) = p0 :: more ->
  handshake_command s u usr msg (p0 :: more) p0 = (usr1, replies) ->
  Nick usr1 = "" \/ Username usr1 = "" ->
  handshake_loop s u usr i (Recv (Some msg) :: rest) done
  = handshake_loop s u usr1 (i - 1) rest (done ++ replies).
Proof.
  intros Hi Hparams Hcmd Hinc.
  cbn [Irckit.handshake_loop].
  destruct (Z.eqb_spec (i - 1) 0) as [|_]; [done|].
  cbv zeta. rewrite Hparams, Hcmd.
  destruct Hinc as [-> | ->]; [done|].
  by rewrite orb_true_r.
Qed.

(** One message that completes the user and finds the key taken. *)
Lemma handshake_loop_collides s u usr i msg rest done p0 more usr1 replies other :
  0 <= MaxNickLen (config s) ->
  i - 1 <> 0 ->
  (if ((Command msg =? NICK)%string || (Command msg =? PASS)%string)
      && negb (Trailing msg =? "")%string
   then Params msg ++ [Trailing msg] else Params msg) = p0 :: more ->
  handshake_command s u usr msg (p0 :: more) p0 = (usr1, replies) ->
  Nick usr1 <> "" ->
  Username usr1 <> "" ->
  users s !! ID (truncateNick (MaxNickLen (config s)) (Nick usr1)) = Some other ->
  let nick := truncateNick (MaxNickLen (config s)) (Nick usr1) in
  handshake_loop s u usr i (Recv (Some msg) :: rest) done
  = handshake_loop s u (set_Nick usr1 nick) (i - 1) rest
      (((done ++ replies) ++ [Lock; Unlock])
       ++ [EncodeMessage s u ERR_NICKNAMEINUSE [nick]
             "Nickname is already in use"]).
Proof.
  intros Hmax Hi Hparams Hcmd Hnick Huser Htaken nick.
  cbn [Irckit.handshake_loop].
  destruct (Z.eqb_spec (i - 1) 0) as [|_]; [done|].
  cbv zeta. rewrite Hparams, Hcmd.
  apply String.eqb_neq in Hnick, Huser. rewrite Hnick, Huser. cbn [orb].
  rewrite (rename_cut _ _ Hmax). fold nick.
  unfold add, uID. cbn [Nick set_Nick]. subst nick. rewrite Htaken.
  reflexivity.
Qed.

Lemma handshake_command_NICK s u usr msg ps p0 :
  Command msg = NICK ->
  handshake_command s u usr msg ps p0
  = (mkUser p0 (Username usr) (Real usr) (Host usr) (Pass usr) (uchannels usr), []).
Proof. intros H. unfold handshake_command. by rewrite H. Qed.

Lemma handshake_command_USER s u usr msg ps p0 :
  Command msg = USER ->
  handshake_command s u usr msg ps p0
  = (mkUser (Nick usr) p0 (Trailing msg) (Host usr) (Pass usr) (uchannels usr), []).
Proof. intros H. unfold handshake_command. by rewrite H. Qed.

Lemma handshake_command_PASS s u usr msg ps p0 :
  Command msg = PASS ->
  handshake_command s u usr msg ps p0
  = (mkUser (Nick usr) (Username usr) (Real usr) (Host usr) (Some ps)
       (uchannels usr), []).
Proof. intros H. unfold handshake_command. by rewrite H. Qed.

Lemma handshake_command_JOIN s u usr msg ps p0 :
  Command msg = JOIN ->
  handshake_command s u usr msg ps p0
  = (usr, [EncodeMessage s u ERR_NOTREGISTERED ["*"] "Please register first"]).
Proof. intros H. unfold handshake_command. by rewrite H. Qed.

Lemma params_NICK msg nick :
  Command msg = NICK ->
  Params msg = nick :: tail (Params msg)
  \/ (Params msg = [] /\ Trailing msg = nick /\ nick <> "") ->
  exists more,
    (if ((Command msg =? NICK)%string || (Command msg =? PASS)%string)
        && negb (Trailing msg =? "")%string
     then Params msg ++ [Trailing msg] else Params msg) = nick :: more.
Proof.
  intros Hc Hp. rewrite Hc. by apply first_param_with_trailing.
Qed.

Lemma params_USER msg uname :
  Command msg = USER ->
  Params msg = uname :: tail (Params msg) ->
  (if ((Command msg =? NICK)%string || (Command msg =? PASS)%string)
      && negb (Trailing msg =? "")%string
   then Params msg ++ [Trailing msg] else Params msg)
  = uname :: tail (Params msg).
Proof. intros Hc Hp. by rewrite Hc. Qed.

(** NICK and then USER from a new connection, the key of the nick free. *)
Lemma handshake_NICK_USER s u usr m1 m2 nick uname :
  0 <= MaxNickLen (config s) ->
  Command m1 = NICK ->
  Params m1 = nick :: tail (Params m1)
  \/ (Params m1 = [] /\ Trailing m1 = nick /\ nick <> "") ->
  nick <> "" ->
  Command m2 = USER ->
  Params m2 = uname :: tail (Params m2) ->
  uname <> "" ->
  Username usr = "" ->
  users s !! ID (truncateNick (MaxNickLen (config s)) nick) = None ->
  let nick' := truncateNick (MaxNickLen (config s)) nick in
  let usr1 := mkUser nick' uname (Trailing m2) (ResolveHost usr) (Pass usr)
                (uchannels usr) in
  let s1 := set_su (set_users s (<[ID nick' := u]> (users s))) u in
  handshake s u usr [Recv (Some m1); Recv (Some m2)]
  = (Registered (welcome s1 u usr1), s1, usr1,
     [GoDecode u; Lock; PutUser (ID nick') u; Unlock; Welcome u]
     ++ handshake_login u usr1 (welcome s1 u usr1)).
Proof.
  intros Hmax Hc1 Hp1 Hnick Hc2 Hp2 Huname Hfresh Hfree nick' usr1 s1.
  unfold Irckit.handshake. cbv zeta.
  destruct (params_NICK m1 nick Hc1 Hp1) as [more1 Hps1].
  erewrite handshake_loop_waits;
    [|unfold handshakeMsgTolerance; lia|exact Hps1
     |by apply handshake_command_NICK|right; exact Hfresh].
  erewrite handshake_loop_registers;
    [|done|unfold handshakeMsgTolerance; lia|by apply params_USER
     |by apply handshake_command_USER|done|done|done].
  reflexivity.
Qed.

(** X9. A new connection that sends NICK and then USER, the nick's key being
    free and no PASS having been sent: the user is registered under the
    normalized nick, cut to [MaxNickLen] bytes, with the user name and real
    name of the USER message; the welcome is the one thing written to the
    connection, after the user is stored and with no error reply before it;
    no backend login is started, and, the welcome succeeding, the command
    loop is started. *)
Theorem Connect_NICK_USER s u usr m1 m2 nick uname :
  0 <= MaxNickLen (config s) ->
  Command m1 = NICK ->
  Params m1 = nick :: tail (Params m1)
  \/ (Params m1 = [] /\ Trailing m1 = nick /\ nick <> "") ->
  nick <> "" ->
  Command m2 = USER ->
  Params m2 = uname :: tail (Params m2) ->
  uname <> "" ->
  Username usr = "" ->
  Pass usr = None ->
  users s !! ID (truncateNick (MaxNickLen (config s)) nick) = None ->
  (forall s' usr', welcome s' u usr' = None) ->
  let nick' := truncateNick (MaxNickLen (config s)) nick in
  exists s1,
    Connect s u usr [Recv (Some m1); Recv (Some m2)]
    = (Registered None, s1,
       mkUser nick' uname (Trailing m2) (ResolveHost usr) None (uchannels usr),
       [GoDecode u; Lock; PutUser (ID nick') u; Unlock; Welcome u; GoHandle u])
    /\ users s1 = <[ID nick' := u]> (users s)
    /\ HasUserID ToLower s1 nick' = Some u
    /\ su s1 = Some u
    /\ channels s1 = channels s.
Proof.
  intros Hmax Hc1 Hp1 Hnick Hc2 Hp2 Huname Hfresh Hpass Hfree Hwelcome nick'.
  unfold Irckit.Connect.
  rewrite (handshake_NICK_USER s u usr m1 m2 nick uname) by done.
  rewrite Hwelcome, Hpass. cbn. eexists. split; [reflexivity|].
  cbn. split_and!; try done. unfold Irckit.HasUserID. cbn.
  apply lookup_insert_eq.
Qed.

(** X10. When the welcome burst fails after the user has been stored,
    [Connect] returns that error and closes the connection, and no backend
    login is started even with a PASS; but the user stays in the registry:
    the key of its nick remains taken. *)
Theorem Connect_welcome_fails s u usr m1 m2 nick uname e :
  0 <= MaxNickLen (config s) ->
  Command m1 = NICK ->
  Params m1 = nick :: tail (Params m1)
  \/ (Params m1 = [] /\ Trailing m1 = nick /\ nick <> "") ->
  nick <> "" ->
  Command m2 = USER ->
  Params m2 = uname :: tail (Params m2) ->
  uname <> "" ->
  Username usr = "" ->
  users s !! ID (truncateNick (MaxNickLen (config s)) nick) = None ->
  (forall s' usr', welcome s' u usr' = Some e) ->
  let nick' := truncateNick (MaxNickLen (config s)) nick in
  exists s1 usr1,
    Connect s u usr [Recv (Some m1); Recv (Some m2)]
    = (Registered (Some e), s1, usr1,
       [GoDecode u; Lock; PutUser (ID nick') u; Unlock; Welcome u; CloseConn u])
    /\ hs_error (Registered (Some e)) = Some e
    /\ HasUserID ToLower s1 nick' = Some u
    /\ (forall u2 usr2, ID (Nick usr2) = ID nick' ->
          add ToLower s1 u2 usr2 = (false, s1, [Lock; Unlock])).
Proof.
  intros Hmax Hc1 Hp1 Hnick Hc2 Hp2 Huname Hfresh Hfree Hwelcome nick'.
  unfold Irckit.Connect.
  rewrite (handshake_NICK_USER s u usr m1 m2 nick uname) by done.
  rewrite Hwelcome.
  set (s1 := set_su (set_users s (<[ID nick' := u]> (users s))) u).
  assert (Hin : forall k, k = ID nick' -> users s1 !! k = Some u).
  { intros k ->. subst s1. cbn. apply lookup_insert_eq. }
  exists s1, (mkUser nick' uname (Trailing m2) (ResolveHost usr) (Pass usr)
                (uchannels usr)).
  split_and!; [reflexivity|done|by apply Hin|].
  intros u2 usr2 Hsame. unfold add, uID.
  change (Irckit.ID ToLower (Nick usr2)) with (ID (Nick usr2)).
  by rewrite (Hin _ Hsame).
Qed.

Lemma params_PASS msg :
  Command msg = PASS ->
  (if ((Command msg =? NICK)%string || (Command msg =? PASS)%string)
      && negb (Trailing msg =? "")%string
   then Params msg ++ [Trailing msg] else Params msg)
  = (if negb (Trailing msg =? "")%string
     then Params msg ++ [Trailing msg] else Params msg).
Proof. intros Hc. by rewrite Hc. Qed.

(** X11. A nick that is taken does not end the handshake. NICK with a taken
    nick, USER, and then NICK with a free nick: the first attempt is
    answered with the nickname-in-use error for the cut nick and changes
    nothing in the registry, and the second attempt registers the user
    under the free nick; the holder of the taken nick keeps its entry. *)
Theorem Connect_retries_after_collision s u usr m1 m2 m3 taken uname free other :
  0 <= MaxNickLen (config s) ->
  Command m1 = NICK -> Params m1 = taken :: tail (Params m1) -> taken <> "" ->
  Command m2 = USER -> Params m2 = uname :: tail (Params m2) -> uname <> "" ->
  Command m3 = NICK -> Params m3 = free :: tail (Params m3) -> free <> "" ->
  Username usr = "" ->
  Pass usr = None ->
  users s !! ID (truncateNick (MaxNickLen (config s)) taken) = Some other ->
  users s !! ID (truncateNick (MaxNickLen (config s)) free) = None ->
  (forall s' usr', welcome s' u usr' = None) ->
  let taken' := truncateNick (MaxNickLen (config s)) taken in
  let free' := truncateNick (MaxNickLen (config s)) free in
  exists s1,
    Connect s u usr [Recv (Some m1); Recv (Some m2); Recv (Some m3)]
    = (Registered None, s1,
       mkUser free' uname (Trailing m2) (ResolveHost usr) None (uchannels usr),
       [GoDecode u; Lock; Unlock;
        EncodeMessage s u ERR_NICKNAMEINUSE [taken'] "Nickname is already in use";
        Lock; PutUser (ID free') u; Unlock; Welcome u; GoHandle u])
    /\ users s1 = <[ID free' := u]> (users s)
    /\ users s1 !! ID taken' = Some other.
Proof.
  intros Hmax Hc1 Hp1 Ht Hc2 Hp2 Hu Hc3 Hp3 Hf Hfresh Hpass Htaken Hfree
    Hwelcome taken' free'.
  assert (Hne : ID free' <> ID taken').
  { intros Heq. subst free' taken'. rewrite Heq in Hfree. congruence. }
  unfold Irckit.Connect, Irckit.handshake. cbv zeta.
  destruct (params_NICK m1 taken Hc1 (or_introl Hp1)) as [more1 Hps1].
  destruct (params_NICK m3 free Hc3 (or_introl Hp3)) as [more3 Hps3].
  erewrite handshake_loop_waits;
    [|unfold handshakeMsgTolerance; lia|exact Hps1
     |by apply handshake_command_NICK|right; exact Hfresh].
  erewrite handshake_loop_collides;
    [|done|unfold handshakeMsgTolerance; lia|by apply params_USER
     |by apply handshake_command_USER|done|done|exact Htaken].
  erewrite handshake_loop_registers;
    [|done|unfold handshakeMsgTolerance; lia|exact Hps3
     |by apply handshake_command_NICK|done|done|exact Hfree].
  cbn [Nick Username Real Host Pass uchannels set_Nick].
  rewrite Hwelcome, Hpass. cbn.
  eexists. split; [reflexivity|]. cbn. split; [done|].
  rewrite lookup_insert_ne by done. exact Htaken.
Qed.

(** X12. PASS before NICK and USER starts a backend login after the
    welcome: the credentials are the parameters of PASS, its trailing part
    counting as the last one, and the service is slack when there is
    exactly one credential and mattermost otherwise. *)
Theorem Connect_PASS_selects_service s u usr m0 m1 m2 nick uname pass :
  0 <= MaxNickLen (config s) ->
  Command m0 = PASS ->
  (if negb (Trailing m0 =? "")%string
   then Params m0 ++ [Trailing m0] else Params m0) = pass ->
  pass <> [] ->
  Command m1 = NICK -> Params m1 = nick :: tail (Params m1) -> nick <> "" ->
  Command m2 = USER -> Params m2 = uname :: tail (Params m2) -> uname <> "" ->
  Nick usr = "" ->
  Username usr = "" ->
  users s !! ID (truncateNick (MaxNickLen (config s)) nick) = None ->
  (forall s' usr', welcome s' u usr' = None) ->
  let nick' := truncateNick (MaxNickLen (config s)) nick in
  let service := if (Z.of_nat (length pass) =? 1) then "slack" else "mattermost" in
  exists s1 usr1,
    Connect s u usr [Recv (Some m0); Recv (Some m1); Recv (Some m2)]
    = (Registered None, s1, usr1,
       [GoDecode u; Lock; PutUser (ID nick') u; Unlock; Welcome u;
        LoginCall u service pass; GoHandle u])
    /\ Pass usr1 = Some pass
    /\ users s1 !! ID nick' = Some u.
Proof.
  intros Hmax Hc0 Hp0 Hne Hc1 Hp1 Hn Hc2 Hp2 Hu Hnick0 Hfresh Hfree Hwelcome
    nick' service.
  unfold Irckit.Connect, Irckit.handshake. cbv zeta.
  destruct pass as [|p0 more0]; [done|].
  destruct (params_NICK m1 nick Hc1 (or_introl Hp1)) as [more1 Hps1].
  erewrite handshake_loop_waits;
    [|unfold handshakeMsgTolerance; lia
     |rewrite (params_PASS _ Hc0); exact Hp0
     |by apply handshake_command_PASS|left; exact Hnick0].
  erewrite handshake_loop_waits;
    [|unfold handshakeMsgTolerance; lia|exact Hps1
     |by apply handshake_command_NICK|right; exact Hfresh].
  erewrite handshake_loop_registers;
    [|done|unfold handshakeMsgTolerance; lia|by apply params_USER
     |by apply handshake_command_USER|done|done|exact Hfree].
  cbn [Nick Username Real Host Pass uchannels set_Nick].
  rewrite Hwelcome. cbn [handshake_login hs_error].
  eexists _, _. split; [reflexivity|]. split; [done|].
  cbn. apply lookup_insert_eq.
Qed.

(** One JOIN before the registration is complete. *)
Lemma handshake_loop_JOIN s u usr i msg rest done :
  i - 1 <> 0 ->
  Command msg = JOIN ->
  Nick usr = "" \/ Username usr = "" ->
  handshake_loop s u usr i (Recv (Some msg) :: rest) done
  = handshake_loop s u usr (i - 1) rest
      (done ++ match Params msg with
               | [] => []
               | _ :: _ =>
                   [EncodeMessage s u ERR_NOTREGISTERED ["*"]
                      "Please register first"]
               end).
Proof.
  intros Hi Hc Hinc.
  destruct (Params msg) as [|p0 more] eqn:Hp.
  - cbn [Irckit.handshake_loop].
    destruct (Z.eqb_spec (i - 1) 0) as [|_]; [done|].
    cbv zeta. rewrite Hc, Hp. cbn. by rewrite app_nil_r.
  - eapply handshake_loop_waits; [done| |by apply handshake_command_JOIN|done].
    rewrite Hc, Hp. reflexivity.
Qed.

(** What the JOIN messages of a list are answered with. *)
Lemma handshake_loop_JOINs s u usr joins :
  forall i rest done,
    Forall (fun msg => Command msg = JOIN) joins ->
    Nick usr = "" \/ Username usr = "" ->
    Z.of_nat (length joins) < i ->
    handshake_loop s u usr i (((fun msg => Recv (Some msg)) <$> joins) ++ rest) done
    = handshake_loop s u usr (i - Z.of_nat (length joins)) rest
        (done ++ not_registered_replies s u joins).
Proof.
  induction joins as [|msg joins IH]; intros i rest done Hall Hinc Hlen.
  - cbn. by rewrite Z.sub_0_r, app_nil_r.
  - apply Forall_cons in Hall as [Hc Hall].
    cbn [length] in Hlen. rewrite fmap_cons, <- app_comm_cons.
    rewrite handshake_loop_JOIN by (done || lia).
    rewrite IH by (done || lia).
    cbn [length not_registered_replies flat_map].
    rewrite <- app_assoc. f_equal. lia.
Qed.

(** X13. JOIN before the registration is complete registers nothing and
    changes neither the user nor the registry: each JOIN with a parameter is
    answered with the not-registered error, one without is passed over; but
    each uses up one message of the budget. After at most seventeen of them
    NICK and USER still register the user; after eighteen, USER is the
    twentieth message and the handshake fails with the registry as it was and
    the connection closed. *)
Theorem JOINs_use_up_handshake_budget s u usr joins m1 m2 nick uname :
  0 <= MaxNickLen (config s) ->
  Forall (fun msg => Command msg = JOIN) joins ->
  Command m1 = NICK -> Params m1 = nick :: tail (Params m1) -> nick <> "" ->
  Command m2 = USER -> Params m2 = uname :: tail (Params m2) -> uname <> "" ->
  Username usr = "" ->
  Pass usr = None ->
  users s !! ID (truncateNick (MaxNickLen (config s)) nick) = None ->
  (forall s' usr', welcome s' u usr' = None) ->
  let nick' := truncateNick (MaxNickLen (config s)) nick in
  let ins := ((fun msg => Recv (Some msg)) <$> joins)
             ++ [Recv (Some m1); Recv (Some m2)] in
  ((length joins <= 17)%nat ->
   exists s1,
     Connect s u usr ins
     = (Registered None, s1,
        mkUser nick' uname (Trailing m2) (ResolveHost usr) None (uchannels usr),
        [GoDecode u] ++ not_registered_replies s u joins
        ++ [Lock; PutUser (ID nick') u; Unlock; Welcome u; GoHandle u])
     /\ users s1 = <[ID nick' := u]> (users s))
  /\ (length joins = 18%nat ->
      exists usr1,
        Connect s u usr ins
        = (Failed ErrHandshakeFailed, s, usr1,
           [GoDecode u] ++ not_registered_replies s u joins ++ [CloseConn u])).
Proof.
  intros Hmax Hjoins Hc1 Hp1 Hnick Hc2 Hp2 Huname Hfresh Hpass Hfree Hwelcome
    nick' ins.
  destruct (params_NICK m1 nick Hc1 (or_introl Hp1)) as [more1 Hps1].
  unfold Irckit.Connect, Irckit.handshake, handshakeMsgTolerance. subst ins.
  split; intros Hlen.
  - rewrite handshake_loop_JOINs; [|done|right; exact Hfresh|lia].
    erewrite handshake_loop_waits;
      [|lia|exact Hps1|by apply handshake_command_NICK|right; exact Hfresh].
    erewrite handshake_loop_registers;
      [|done|lia|by apply params_USER|by apply handshake_command_USER
       |done|done|done].
    rewrite Hwelcome. unfold handshake_login, set_Nick.
    cbn [Pass Nick Username Real Host uchannels hs_error]. rewrite Hpass.
    eexists. split; [rewrite app_nil_r, <- !app_assoc; reflexivity|reflexivity].
  - rewrite handshake_loop_JOINs; [|done|right; exact Hfresh|lia].
    erewrite handshake_loop_waits;
      [|lia|exact Hps1|by apply handshake_command_NICK|right; exact Hfresh].
    cbn [Irckit.handshake_loop].
    replace (20 - Z.of_nat (length joins) - 1 - 1) with 0 by lia.
    cbn. eexists. by rewrite <- !app_assoc.
Qed.

End HandshakeMoreFacts.

Section ConfigFacts.

Import Irc Bridge Irckit IrckitRest.

Variable ToLower : string -> string.
Variable UserPrefix : User -> Prefix.
Variable ResolveHost : User -> string.
Variable welcome : server -> loc -> User -> option error.

Local Abbreviation ID := (ID ToLower).
Local Abbreviation RenameUser := (RenameUser ToLower UserPrefix).
Local Abbreviation Connect := (Connect ToLower ResolveHost welcome).

Lemma length_substring_0 (s : string) :
  forall n, String.length (substring 0 n s) = Nat.min n (String.length s).
Proof.
  induction s as [|c s IH]; intros [|n]; simpl; try done.
  by rewrite IH.
Qed.

(** The cut nick is a nick of at most [max] bytes. *)
Lemma truncateNick_len max newNick :
  0 <= max -> len (truncateNick max newNick) <= max.
Proof.
  intros Hmax. unfold truncateNick, len.
  destruct (Z.ltb_spec max (Z.of_nat (String.length newNick))); [|lia].
  rewrite length_substring_0. lia.
Qed.

Lemma truncateNick_short max newNick :
  len newNick <= max -> truncateNick max newNick = newNick.
Proof.
  intros Hlen. unfold truncateNick.
  destruct (Z.ltb_spec max (len newNick)); [lia|done].
Qed.

(** X14. On a server made by [NewServer] the registry is empty and nicks
    are cut to 32 bytes: the first [RenameUser] succeeds for every nick, the
    nick it sets has at most 32 bytes and is the asked one when that has at
    most 32 bytes, and the user is then the one entry of the registry. *)
Theorem NewServer_renames_within_32 name u usr newNick :
  Len (NewServer name) = 0
  /\ ChannelCount (NewServer name) = 0
  /\ exists s1 usr1 done,
       RenameUser (NewServer name) u usr newNick = Some (true, s1, usr1, done)
       /\ len (Nick usr1) <= 32
       /\ (len newNick <= 32 -> Nick usr1 = newNick)
       /\ users s1 = {[ID (Nick usr1) := u]}.
Proof.
  split; [done|]. split; [done|].
  destruct (RenameUser_free ToLower UserPrefix (NewServer name) u usr newNick)
    as [sent H]; [done|apply lookup_empty|].
  eexists _, _, _. split; [exact H|].
  change (MaxNickLen (config (NewServer name))) with 32.
  cbn [Nick set_Nick users set_users]. split_and!.
  - by apply truncateNick_len.
  - apply truncateNick_short.
  - change (users (NewServer name)) with (∅ : gmap string positive).
    by rewrite delete_empty, insert_empty.
Qed.

(** X15. [Server()] replaces a [MaxNickLen] of zero but keeps a negative
    one, and with a negative one every nick is longer than the maximum and
    the cut panics: [RenameUser] panics for every nick, and so does the
    handshake as soon as NICK and USER have arrived. *)
Theorem Server_negative_MaxNickLen_panics c u usr newNick m1 m2 nick uname :
  MaxNickLen c < 0 ->
  Command m1 = NICK -> Params m1 = nick :: tail (Params m1) -> nick <> "" ->
  Command m2 = USER -> Params m2 = uname :: tail (Params m2) -> uname <> "" ->
  Username usr = "" ->
  MaxNickLen (config (Server c)) = MaxNickLen c
  /\ RenameUser (Server c) u usr newNick = None
  /\ (Connect (Server c) u usr [Recv (Some m1); Recv (Some m2)]).1.1.1 = Panicked.
Proof.
  intros Hneg Hc1 Hp1 Hn Hc2 Hp2 Hu Hfresh.
  assert (Hmax : MaxNickLen (config (Server c)) = MaxNickLen c).
  { unfold Server. cbn. destruct (Z.eqb_spec (MaxNickLen c) 0); [lia|done]. }
  assert (Hcut : forall n,
            (if MaxNickLen (config (Server c)) <? len n
             then slice_to n (MaxNickLen (config (Server c))) else Some n)
            = None).
  { intros n. rewrite Hmax. unfold len, slice_to.
    destruct (Z.ltb_spec (MaxNickLen c) (Z.of_nat (String.length n))); [|lia].
    destruct (Z.ltb_spec (MaxNickLen c) 0); [done|lia]. }
  split_and!; [done| |].
  - unfold Irckit.RenameUser. by rewrite Hcut.
  - unfold Irckit.Connect, Irckit.handshake. cbv zeta.
    destruct (params_NICK m1 nick Hc1 (or_introl Hp1)) as [more1 Hps1].
    erewrite handshake_loop_waits;
      [|unfold handshakeMsgTolerance; lia|exact Hps1
       |by apply handshake_command_NICK|right; exact Hfresh].
    cbn [Irckit.handshake_loop]. cbv zeta.
    rewrite (params_USER _ _ Hc2 Hp2), (handshake_command_USER _ _ _ _ _ _ Hc2).
    cbn [Nick Username].
    apply String.eqb_neq in Hn, Hu. rewrite Hn, Hu. cbn [orb].
    rewrite Hcut. reflexivity.
Qed.

(** X16. [HasUser] compares the nick as it is spelled, whatever the order
    in which the map is gone through: in a registry keyed by the normalized
    nicks, a user it returns has exactly that nick and is the one
    [HasUserID] finds for it, and when it returns none no registered user
    has exactly that nick. *)
Theorem HasUser_exact_nick s (objs : gmap loc User) order nick :
  order ≡ₚ map_to_list (users s) ->
  keyed_by_nick ToLower s objs ->
  match HasUser objs order nick with
  | Some u =>
      (exists usr, objs !! u = Some usr /\ Nick usr = nick)
      /\ HasUserID ToLower s nick = Some u
  | None =>
      forall k u usr,
        users s !! k = Some u -> objs !! u = Some usr -> Nick usr <> nick
  end.
Proof.
  intros Hperm Hkeyed. unfold HasUser.
  destruct (List.find _ order) as [[k u]|] eqn:Hfind; cbn [fmap option_fmap option_map snd].
  - apply List.find_some in Hfind as [Hin Hmatch]. cbn [snd] in Hmatch.
    destruct (objs !! u) as [usr|] eqn:Hobj; [|done].
    apply String.eqb_eq in Hmatch.
    apply list_elem_of_In in Hin. rewrite Hperm in Hin.
    apply elem_of_map_to_list in Hin.
    destruct (Hkeyed _ _ Hin) as (usr' & Hobj' & ->).
    assert (usr' = usr) as -> by congruence.
    split; [eauto|]. unfold Irckit.HasUserID. rewrite <- Hmatch. exact Hin.
  - intros k u usr Hk Hobj Hnick.
    assert (Hin : (k, u) ∈ order).
    { rewrite Hperm. by apply elem_of_map_to_list. }
    apply list_elem_of_In in Hin.
    pose proof (List.find_none _ _ Hfind _ Hin) as Hno. cbn [snd] in Hno.
    rewrite Hobj in Hno. apply String.eqb_neq in Hno. done.
Qed.

End ConfigFacts.

(** * Further properties of the Slack bridge *)

Section LoginFacts.

Import Bridge SlackBridge SlackRest.

Lemma found_elem_of x (l : list string) : found x l = true <-> x ∈ l.
Proof.
  induction l as [|y l IH]; simpl.
  - split; [done|]. intros H. by apply elem_of_nil in H.
  - destruct (String.eqb_spec y x) as [->|Hne].
    + split; [|done]. intros _. apply elem_of_cons. by left.
    + rewrite IH. split.
      * intros H. apply elem_of_cons. by right.
      * intros [->|H]%elem_of_cons; done.
Qed.

Lemma nonempty_length (l : list string) :
  (0 <? Z.of_nat (length l)) = true <-> l <> [].
Proof. destruct l; cbn; split; done. Qed.

(** X17. [allowedLogin] lets a login through exactly when the team's domain
    is in the restriction list, or that list is empty, and the user's name is
    not in the deny list; the connection is disconnected exactly when an
    error is returned, and a domain that is not allowed is reported before
    the deny list is looked at. *)
Theorem allowedLogin_spec restrict denyUsers domain userName :
  ((allowedLogin restrict denyUsers domain userName).1 = None
   <-> (restrict = [] \/ domain ∈ restrict) /\ userName ∉ denyUsers)
  /\ ((allowedLogin restrict denyUsers domain userName).2 = true
      <-> (allowedLogin restrict denyUsers domain userName).1 <> None)
  /\ (restrict <> [] /\ domain ∉ restrict
      <-> (allowedLogin restrict denyUsers domain userName).1
          = Some ("Not allowed to connect to " +:+ domain +:+ " slack")).
Proof.
  unfold allowedLogin.
  pose proof (found_elem_of domain restrict) as Hr.
  pose proof (found_elem_of userName denyUsers) as Hd.
  pose proof (nonempty_length restrict) as Hlr.
  pose proof (nonempty_length denyUsers) as Hld.
  assert (Hnil : userName ∈ denyUsers -> denyUsers <> []).
  { intros Hin ->. by apply elem_of_nil in Hin. }
  destruct (0 <? Z.of_nat (length restrict)), (found domain restrict),
    (0 <? Z.of_nat (length denyUsers)), (found userName denyUsers);
    cbn [andb negb fst snd]; destruct (decide (restrict = []));
    intuition (first [discriminate | congruence]).
Qed.

End LoginFacts.

Section CacheFacts.

Import Bridge SlackBridge SlackRest.

Variable GetUserInfo : string -> option SlackUser.
Variable GetBotInfo : string -> option Bot.
Variable GetUsersInConversation : string -> list string.
Variable PreferNickname UseDisplayName : bool.
Variable isValidNick : string -> bool.
Variable cleanupMessage : string -> string.
Variable formatTS : string -> string.
Variable sprintfEmpty : MessageEvent -> string.
Variable meanwhile : gmap string string -> gmap string string.

Local Abbreviation getSlackUser := (getSlackUser GetUserInfo).
Local Abbreviation GetUser :=
  (GetUser GetUserInfo PreferNickname UseDisplayName isValidNick).
Local Abbreviation handleSlackEvent :=
  (handleSlackEvent GetUserInfo GetBotInfo GetUsersInConversation
     PreferNickname UseDisplayName isValidNick cleanupMessage formatTS
     sprintfEmpty meanwhile).
Local Abbreviation handleSlack :=
  (handleSlack GetUserInfo GetBotInfo GetUsersInConversation
     PreferNickname UseDisplayName isValidNick cleanupMessage formatTS
     sprintfEmpty meanwhile).

Lemma cacheUsers_fold own users :
  forall m : gmap string SlackUser,
    let m' := fold_left
                (fun m mmuser =>
                   if (SID mmuser =? own)%string then m
                   else <[SID mmuser := mmuser]> m) users m in
    (m !! own = None -> m' !! own = None)
    /\ (forall mmuser, mmuser ∈ users -> SID mmuser <> own ->
          exists v, m' !! SID mmuser = Some v /\ SID v = SID mmuser)
    /\ ((forall k v, m !! k = Some v -> SID v = k) ->
        forall k v, m' !! k = Some v -> SID v = k)
    /\ (forall k v, m' !! k = Some v -> m !! k = Some v \/ v ∈ users).
Proof.
  induction users as [|mm users IH]; intros m; cbn [fold_left].
  - split_and!; try done; [|by left].
    intros mmuser Hin. by apply elem_of_nil in Hin.
  - set (m1 := if (SID mm =? own)%string then m else <[SID mm := mm]> m).
    destruct (IH m1) as (Hown & Hall & Hkeyed & Hfrom). cbv zeta in *.
    set (m' := fold_left _ users m1) in *.
    assert (Hm1 : forall k v, m1 !! k = Some v -> m !! k = Some v \/ v = mm).
    { intros k v. subst m1. destruct (SID mm =? own)%string; [by left|].
      rewrite lookup_insert. case_decide; [|by left].
      intros [= <-]. by right. }
    split_and!.
    + intros Hm. apply Hown. subst m1.
      destruct (String.eqb_spec (SID mm) own); [done|].
      by rewrite lookup_insert_ne.
    + intros mmuser [->|Hin]%elem_of_cons Hne; [|by apply Hall].
      assert (Hst : m1 !! SID mm = Some mm).
      { subst m1. apply String.eqb_neq in Hne. rewrite Hne.
        apply lookup_insert_eq. }
      assert (Hkeep : forall (users : list SlackUser) (m0 : gmap string SlackUser),
                (exists v, m0 !! SID mm = Some v /\ SID v = SID mm) ->
                exists v, fold_left
                            (fun m mmuser =>
                               if (SID mmuser =? own)%string then m
                               else <[SID mmuser := mmuser]> m) users m0
                          !! SID mm = Some v /\ SID v = SID mm).
      { clear. induction users as [|x users IH]; intros m0 Hm0; [done|].
        cbn [fold_left]. apply IH.
        destruct (SID x =? own)%string; [done|].
        destruct (decide (SID x = SID mm)) as [Heq|Hneq].
        - rewrite Heq, lookup_insert_eq. eauto.
        - by rewrite lookup_insert_ne. }
      apply Hkeep. eauto.
    + intros Hm. apply Hkeyed. intros k v Hk.
      destruct (Hm1 _ _ Hk) as [Hold| ->]; [by apply Hm|].
      subst m1. destruct (SID mm =? own)%string; [by apply Hm|].
      rewrite lookup_insert in Hk. case_decide; [done|by apply Hm].
    + intros k v Hk. destruct (Hfrom _ _ Hk) as [H1|Hin].
      * destruct (Hm1 _ _ H1) as [Hold| ->]; [by left|].
        right. apply elem_of_cons. by left.
      * right. apply elem_of_cons. by right.
Qed.

(** Under an id other than the account's, the cache holds the last user of
    the list with that id, or what it held before. *)
Lemma cacheUsers_last own users :
  forall (m : gmap string SlackUser) k,
    k <> own ->
    fold_left
      (fun m mmuser =>
         if (SID mmuser =? own)%string then m
         else <[SID mmuser := mmuser]> m) users m !! k
    = match last (List.filter (fun mmuser => bool_decide (SID mmuser = k)) users) with
      | Some v => Some v
      | None => m !! k
      end.
Proof.
  induction users as [|x users IH]; intros m k Hk; [done|].
  cbn [fold_left List.filter]. rewrite IH by done.
  case_bool_decide as Hx.
  - rewrite last_cons.
    destruct (last (List.filter _ users)); [done|].
    subst k. apply String.eqb_neq in Hk. rewrite Hk. apply lookup_insert_eq.
  - destruct (last (List.filter _ users)); [done|].
    destruct (SID x =? own)%string; [done|]. by rewrite lookup_insert_ne.
Qed.

(** X18. The user cache built by [New]: starting from an empty cache, the
    account's own id is never cached; under every other id the cache holds
    the last user of the list with that id, and nothing when the list has
    none; so every other user of the list is found under its id, and every
    entry is a user of the list stored under its own id. *)
Theorem cacheUsers_from_empty s users :
  susers s = ∅ ->
  susers (cacheUsers s users) !! sinfo_UserID s = None
  /\ (forall k, k <> sinfo_UserID s ->
        susers (cacheUsers s users) !! k
        = last (List.filter (fun mmuser => bool_decide (SID mmuser = k)) users))
  /\ (forall mmuser, mmuser ∈ users -> SID mmuser <> sinfo_UserID s ->
        exists v, susers (cacheUsers s users) !! SID mmuser = Some v
                  /\ SID v = SID mmuser)
  /\ cache_keyed (cacheUsers s users)
  /\ (forall k v, susers (cacheUsers s users) !! k = Some v -> v ∈ users)
  /\ msgLast (cacheUsers s users) = msgLast s.
Proof.
  intros Hempty. unfold cacheUsers, cache_keyed. cbn [susers set_susers msgLast].
  destruct (cacheUsers_fold (sinfo_UserID s) users (susers s))
    as (Hown & Hall & Hkeyed & Hfrom).
  split_and!; [| |done| | |done].
  - apply Hown. by rewrite Hempty.
  - intros k Hk. rewrite (cacheUsers_last _ _ _ _ Hk), Hempty, lookup_empty.
    by destruct (last _).
  - apply Hkeyed. intros k v. by rewrite Hempty, lookup_empty.
  - intros k v Hk. destruct (Hfrom _ _ Hk) as [Hold|Hin]; [|done].
    by rewrite Hempty, lookup_empty in Hold.
Qed.

Lemma getSlackUser_keyed s userID :
  cache_keyed s -> cache_keyed (getSlackUser s userID).2.
Proof.
  intros Hk. unfold SlackBridge.getSlackUser.
  destruct (susers s !! userID); [done|].
  destruct (GetUserInfo userID) as [user|]; [|done].
  intros k v. cbn. rewrite lookup_insert. case_decide.
  - intros [= <-]. done.
  - apply Hk.
Qed.

Lemma GetUser_keyed s userID :
  cache_keyed s -> cache_keyed (GetUser s userID).2.
Proof.
  intros Hk. unfold SlackBridge.GetUser.
  pose proof (getSlackUser_keyed s userID Hk) as H.
  by destruct (getSlackUser s userID).
Qed.

Lemma handleSlackEvent_keyed s ev s' acts :
  cache_keyed s ->
  handleSlackEvent s ev = Some (s', acts) ->
  cache_keyed s'.
Proof.
  intros Hk. destruct ev as [rmsg|user channel|user channel inviter| | | |
                             ? ? [m|]|? ? [m|]|? ? [m|]|? ? [m|]|];
    cbn [SlackBridge.handleSlackEvent]; try by intros [= <- <-].
  - case_bool_decide; [by intros [= <- <-]|].
    unfold SlackBridge.handleSlackActionPost, SlackBridge.echoCheck.
    destruct (EvUser rmsg =? sinfo_UserID s)%string.
    + destruct (lastSent s (EvChannel rmsg) <? EvTimestamp rmsg)%string;
        destruct (_ =? _)%string; try (by intros [= <- <-]);
        destruct (translatePost _ _ _ _ _ _ _ _ _ _ _); try discriminate;
        by intros [= <- <-].
    + destruct (translatePost _ _ _ _ _ _ _ _ _ _ _); try discriminate;
        by intros [= <- <-].
  - unfold SlackBridge.handleMemberLeftChannel.
    pose proof (GetUser_keyed s user Hk) as H.
    destruct (GetUser s user). by intros [= <- <-].
  - unfold SlackBridge.handleMemberJoinedChannel.
    destruct (negb (inviter =? "")%string).
    + pose proof (GetUser_keyed s inviter Hk) as H1.
      destruct (GetUser s inviter) as [inv s1].
      pose proof (GetUser_keyed s1 user H1) as H2.
      destruct (GetUser s1 user). by intros [= <- <-].
    + pose proof (GetUser_keyed s user Hk) as H.
      destruct (GetUser s user). by intros [= <- <-].
Qed.

(** X19. The translator keeps the user cache keyed by id: if every cached
    user is stored under its own id before a run of events, the same holds
    after it, whatever the events and whatever the client answers. *)
Theorem handleSlack_keeps_cache_keyed evs :
  forall s s' acts,
    cache_keyed s ->
    handleSlack s evs = Some (s', acts) ->
    cache_keyed s'.
Proof.
  induction evs as [|ev evs IH]; intros s s' acts Hk; cbn [SlackBridge.handleSlack].
  - by intros [= <- <-].
  - destruct (handleSlackEvent s ev) as [[s1 out1]|] eqn:Hev; [|discriminate].
    destruct (handleSlack s1 evs) as [[s2 out2]|] eqn:Hrest; [|discriminate].
    intros [= <- <-]. eapply IH; [|exact Hrest].
    by eapply handleSlackEvent_keyed.
Qed.

(** X20. [getSlackUser] caches what it finds and only that: after a lookup
    that found a user under the id asked for, the same lookup is answered
    from the cache, with the same user and no change of state; a lookup that
    failed leaves the cache as it was, so the client is asked again. *)
Theorem getSlackUser_caches s userID :
  match getSlackUser s userID with
  | (Some user, s1) =>
      SID user = userID ->
      getSlackUser s1 userID = (Some user, s1)
      /\ susers s1 !! userID = Some user
  | (None, s1) =>
      s1 = s /\ susers s !! userID = None /\ GetUserInfo userID = None
  end.
Proof.
  unfold SlackBridge.getSlackUser.
  destruct (susers s !! userID) as [user|] eqn:Hc.
  - intros _. by rewrite Hc.
  - destruct (GetUserInfo userID) as [user|] eqn:Hg; [|done].
    intros Hid. cbn [susers set_susers]. rewrite Hid, lookup_insert_eq. done.
Qed.

End CacheFacts.

Section ConversationFacts.

Import Bridge SlackBridge SlackRest.

Variable GetConversations : string -> list Conversation * string * bool.

Local Abbreviation pages_from := (pages_from GetConversations).
Local Abbreviation List_page := (List_page).
Local Abbreviation List_loop := (List_loop GetConversations).
Local Abbreviation Slack_List := (Slack_List GetConversations).
Local Abbreviation GetChannels_loop := (GetChannels_loop GetConversations).
Local Abbreviation GetChannels := (GetChannels GetConversations).
Local Abbreviation GetChannel := (GetChannel GetConversations).

Lemma all_conversations_cons page err pages :
  all_conversations ((page, err) :: pages) = page ++ all_conversations pages.
Proof. done. Qed.

Lemma errors_in_cons (page : list Conversation) (err : bool) pages :
  errors_in ((page, err) :: pages)
  = ((if err then 1 else 0) + errors_in pages)%nat.
Proof. unfold errors_in. by destruct err. Qed.

Lemma GetChannels_loop_pages s pages :
  forall fuel cursor channels logged,
    pages_from cursor pages ->
    (length pages <= fuel)%nat ->
    GetChannels_loop fuel s cursor channels logged
    = Some (channels
            ++ (channelInfoOf s <$> List.filter IsMember (all_conversations pages)),
            (logged + errors_in pages)%nat).
Proof.
  induction pages as [|[page err] rest IH]; intros fuel cursor channels logged
    Hpages Hfuel; [done|].
  destruct fuel as [|fuel]; [cbn in Hfuel; lia|].
  cbn [SlackRest.GetChannels_loop].
  rewrite all_conversations_cons, errors_in_cons.
  destruct rest as [|page2 rest].
  - cbn in Hpages. rewrite Hpages. rewrite String.eqb_refl.
    unfold all_conversations, errors_in. cbn [fmap list_fmap concat List.filter length].
    rewrite app_nil_r.
    assert ((if err then S logged else logged)
            = (logged + ((if err then 1 else 0) + 0))%nat) as ->
      by (destruct err; simpl; lia).
    done.
  - destruct Hpages as (next & Hnext & Hget & Hrest).
    cbn [fst snd] in Hget. rewrite Hget.
    apply String.eqb_neq in Hnext. rewrite Hnext.
    rewrite (IH fuel next) by (done || (cbn in *; lia)).
    rewrite List.filter_app, fmap_app, <- app_assoc.
    assert (((if err then S logged else logged) + errors_in (page2 :: rest))%nat
            = (logged + ((if err then 1 else 0) + errors_in (page2 :: rest)))%nat)
      as -> by (destruct err; simpl; lia).
    done.
Qed.

(** X21. [GetChannels] follows the cursors to the last page and returns, in
    order, exactly the conversations of all pages that the account is a
    member of, each with its id, name, the team's id, the direct-message flag
    (IM or multi-party IM) and the privacy flag (not open); an error of the
    client is logged once per page and does not end the listing. *)
Theorem GetChannels_all_pages s pages fuel :
  pages_from "" pages ->
  (length pages <= fuel)%nat ->
  GetChannels fuel s
  = Some (channelInfoOf s <$> List.filter IsMember (all_conversations pages),
          errors_in pages).
Proof.
  intros Hpages Hfuel. unfold SlackRest.GetChannels.
  by rewrite (GetChannels_loop_pages s pages fuel "" [] 0%nat).
Qed.

Lemma pages_from_cons cursor page page2 rest :
  pages_from cursor (page :: page2 :: rest) ->
  exists next,
    next <> "" /\ GetConversations cursor = (page.1, next, page.2)
    /\ pages_from next (page2 :: rest).
Proof. done. Qed.

(** With a next cursor the inner loop of [List] records the whole page. *)
Lemma List_page_more page next :
  next <> "" ->
  forall channelinfo,
    List_page page next channelinfo = (fold_left listed page channelinfo, false).
Proof.
  intros Hnext. apply String.eqb_neq in Hnext.
  induction page as [|c page IH]; intros channelinfo; [done|].
  cbn [SlackRest.List_page fold_left]. rewrite Hnext. apply IH.
Qed.

(** Without one it records the first channel of the page and ends the
    listing, or, on an empty page, goes on. *)
Lemma List_page_last page channelinfo :
  List_page page "" channelinfo
  = match page with
    | [] => (channelinfo, false)
    | c :: _ => (listed channelinfo c, true)
    end.
Proof. by destruct page. Qed.

Lemma List_loop_pages pages :
  forall fuel cursor channelinfo c more err,
    pages_from cursor (pages ++ [(c :: more, err)]) ->
    (length pages < fuel)%nat ->
    List_loop fuel cursor channelinfo
    = Some (listed (fold_left listed (all_conversations pages) channelinfo) c).
Proof.
  induction pages as [|[page e] rest IH]; intros fuel cursor channelinfo c more
    err Hpages Hfuel.
  - destruct fuel as [|fuel]; [cbn in Hfuel; lia|].
    cbn in Hpages. cbn [SlackRest.List_loop]. rewrite Hpages.
    by rewrite List_page_last.
  - destruct fuel as [|fuel]; [cbn in Hfuel; lia|].
    cbn [SlackRest.List_loop].
    rewrite <- app_comm_cons in Hpages.
    destruct (rest ++ [(c :: more, err)]) as [|p2 tl] eqn:Htl.
    { by destruct rest. }
    apply pages_from_cons in Hpages.
    destruct Hpages as (next & Hnext & Hget & Hrest). rewrite Hget.
    cbn [fst snd]. rewrite (List_page_more _ _ Hnext).
    rewrite <- Htl in Hrest.
    rewrite (IH fuel next _ c more err Hrest) by (cbn in Hfuel; lia).
    unfold all_conversations. cbn [fmap list_fmap concat fst].
    by rewrite fold_left_app.
Qed.

(** X22. [List] records every channel of the pages before the last one but
    only the first channel of the last page: the test for the empty cursor
    sits inside the loop over the page, after its first channel. *)
Theorem List_stops_after_first_of_last_page pages c more err fuel :
  pages_from "" (pages ++ [(c :: more, err)]) ->
  (length pages < fuel)%nat ->
  Slack_List fuel
  = Some (listed (fold_left listed (all_conversations pages) ∅) c).
Proof.
  intros Hpages Hfuel. unfold SlackRest.Slack_List.
  by apply List_loop_pages with more err.
Qed.

Lemma List_loop_never all err_last :
  pages_from "" (all ++ [([], err_last)]) ->
  forall fuel pages cursor channelinfo e,
    pages_from cursor (pages ++ [([], e)]) ->
    List_loop fuel cursor channelinfo = None.
Proof.
  intros Hall. induction fuel as [|fuel IH]; intros pages cursor channelinfo e
    Hpages; [done|].
  cbn [SlackRest.List_loop].
  destruct pages as [|[page e1] rest].
  - cbn in Hpages. rewrite Hpages. cbn. by eapply IH.
  - rewrite <- app_comm_cons in Hpages.
    destruct (rest ++ [([], e)]) as [|p2 tl] eqn:Htl.
    { by destruct rest. }
    apply pages_from_cons in Hpages.
    destruct Hpages as (next & Hnext & Hget & Hrest). rewrite Hget.
    cbn [fst snd]. rewrite (List_page_more _ _ Hnext).
    rewrite <- Htl in Hrest. by eapply IH.
Qed.

(** X23. When the last page is empty, as it is when the client returns an
    error or the team has no conversation, [List] never returns: the empty
    cursor sends it back to the first page, however many pages it is
    allowed to fetch. *)
Theorem List_never_returns_on_empty_last_page pages err fuel :
  pages_from "" (pages ++ [([], err)]) ->
  Slack_List fuel = None.
Proof.
  intros Hpages. unfold SlackRest.Slack_List.
  by eapply (List_loop_never pages err Hpages fuel pages "" ∅ err).
Qed.

End ConversationFacts.

Section SlackChannelFacts.

Import Bridge Irckit SlackBridge SlackRest.

Variable GetConversations : string -> list Conversation * string * bool.
Variable GetConversationInfo : string -> option Conversation.

Local Abbreviation pages_from := (pages_from GetConversations).
Local Abbreviation GetChannel := (GetChannel GetConversations).
Local Abbreviation GetChannel_result := (GetChannel_result GetConversations).
Local Abbreviation GetChannelName := (GetChannelName GetConversationInfo).

Lemma find_member_info sl channelID convs :
  List.find (fun channel => (CID channel =? channelID)%string)
    (channelInfoOf sl <$> List.filter IsMember convs)
  = channelInfoOf sl <$> List.find (member_with_id channelID) convs.
Proof.
  induction convs as [|c convs IH]; [done|].
  cbn [List.filter List.find]. unfold member_with_id at 1.
  destruct (IsMember c); cbn [andb]; [|exact IH].
  cbn [fmap list_fmap List.find]. cbn [channelInfoOf CID].
  destruct (CvID c =? channelID)%string; [done|exact IH].
Qed.

(** What [GetChannel] answers, in terms of the pages of the client. *)
Lemma GetChannel_pages sl pages fuel channelID :
  pages_from "" pages ->
  (length pages <= fuel)%nat ->
  GetChannel_result fuel sl channelID
  = channelInfoOf sl
      <$> List.find (member_with_id channelID) (all_conversations pages).
Proof.
  intros Hpages Hfuel. unfold SlackRest.GetChannel_result, SlackRest.GetChannel.
  unfold SlackRest.GetChannels.
  rewrite (GetChannels_loop_pages _ sl pages fuel "" [] 0%nat Hpages Hfuel). cbn.
  apply find_member_info.
Qed.

(** X24. The registry on top of the Slack bridge: a channel that is not yet
    registered is created under the name the client gives it (the id itself
    when the client does not know it) with the service slack, and it is
    private exactly when the first conversation with that id that the
    account is a member of is not open; a channel the account is not a
    member of is created as a public one, and that is logged as an error
    unless the id starts with an ampersand. *)
Theorem Channel_over_slack s sl pages fuel channelID u0 :
  pages_from "" pages ->
  (length pages <= fuel)%nat ->
  su s = Some u0 ->
  channels s !! channelID = None ->
  exists ch s1 done,
    server_Channel Protocol GetChannelName (GetChannel_result fuel sl) s channelID
    = Some (ch, s1, done)
    /\ ch_id ch = channelID
    /\ ch_service ch = "slack"
    /\ ch_name ch = match GetConversationInfo channelID with
                    | None => channelID
                    | Some info => "#" +:+ CvName info
                    end
    /\ match List.find (member_with_id channelID) (all_conversations pages) with
       | Some mmchannel =>
           ch_private ch = negb (IsOpen mmchannel) /\ done = [Lock; Unlock]
       | None =>
           ch_private ch = false
           /\ done = [Lock] ++ (if HasPrefix channelID "&" then []
                                else [LogError channelID]) ++ [Unlock]
       end
    /\ HasChannel s1 channelID = Some ch
    /\ HasChannel s1 (ch_name ch) = Some ch.
Proof.
  intros Hpages Hfuel Hsu Hid.
  unfold Irckit.server_Channel. rewrite Hid, Hsu. cbn [mbind option_bind].
  rewrite (GetChannel_pages sl pages fuel channelID Hpages Hfuel).
  destruct (List.find _ _) as [mmchannel|]; cbn [fmap option_fmap option_map];
    eexists _, _, _; (split; [reflexivity|]);
    (split_and!; try done; unfold HasChannel; cbn;
     [rewrite lookup_insert; case_decide; [done|apply lookup_insert_eq]
     |apply lookup_insert_eq]).
Qed.

End SlackChannelFacts.

Section MemberFacts.

Import Bridge SlackBridge SlackRest.

Variable GetConversationInfo : string -> option Conversation.
Variable GetUsersPage : string -> string -> list string * string.
Variable GetUserInfo : string -> option SlackUser.
Variable GetUsersInConversation : string -> list string.
Variable PreferNickname UseDisplayName : bool.
Variable isValidNick : string -> bool.

Local Abbreviation createUser :=
  (createUser PreferNickname UseDisplayName isValidNick).
Local Abbreviation getSlackUser := (getSlackUser GetUserInfo).
Local Abbreviation GetMe :=
  (GetMe GetUserInfo PreferNickname UseDisplayName isValidNick).
Local Abbreviation memberStep :=
  (memberStep GetUserInfo PreferNickname UseDisplayName isValidNick).
Local Abbreviation GetChannelUsers :=
  (GetChannelUsers GetConversationInfo GetUsersPage GetUserInfo PreferNickname
     UseDisplayName isValidNick).
Local Abbreviation directReceiver :=
  (directReceiver GetUserInfo GetUsersInConversation PreferNickname
     UseDisplayName isValidNick).

Local Abbreviation faithful_client := (faithful_client GetUserInfo).

Lemma getSlackUser_frame s userID :
  sinfo_UserID (getSlackUser s userID).2 = sinfo_UserID s
  /\ sinfo_TeamID (getSlackUser s userID).2 = sinfo_TeamID s
  /\ msgLast (getSlackUser s userID).2 = msgLast s.
Proof.
  unfold SlackBridge.getSlackUser.
  destruct (susers s !! userID); [done|].
  by destruct (GetUserInfo userID).
Qed.

Lemma getSlackUser_id s userID :
  cache_keyed s -> faithful_client ->
  forall user, (getSlackUser s userID).1 = Some user -> SID user = userID.
Proof.
  intros Hk Hf user. unfold SlackBridge.getSlackUser.
  destruct (susers s !! userID) as [c|] eqn:Hc.
  - intros [= <-]. by apply Hk.
  - destruct (GetUserInfo userID) as [v|] eqn:Hg; [|done].
    intros [= <-]. by apply Hf.
Qed.

Lemma memberStep_eq s users user :
  memberStep (s, users) user
  = if (sinfo_UserID s =? user)%string then (s, users)
    else ((getSlackUser s user).2,
          users ++ [createUser (getSlackUser s user).2 (getSlackUser s user).1]).
Proof.
  unfold SlackRest.memberStep. cbn [fst snd].
  destruct (sinfo_UserID s =? user)%string; [done|].
  by destruct (getSlackUser s user).
Qed.

Lemma fold_memberStep members :
  forall s users,
    cache_keyed s -> faithful_client ->
    Forall (fun g => UMe g = false) users ->
    let r := fold_left memberStep members (s, users) in
    sinfo_UserID r.1 = sinfo_UserID s
    /\ cache_keyed r.1
    /\ length r.2
       = (length users
          + length (List.filter
                      (fun user => negb (sinfo_UserID s =? user)%string) members))%nat
    /\ Forall (fun g => UMe g = false) r.2.
Proof.
  induction members as [|user members IH]; intros s users Hk Hf Hall r.
  - subst r. cbn. split_and!; try done; lia.
  - subst r. cbn [fold_left List.filter]. rewrite memberStep_eq.
    destruct (String.eqb_spec (sinfo_UserID s) user) as [Heq|Hne]; cbn [negb].
    + by apply IH.
    + pose proof (getSlackUser_frame s user) as (Hown & _).
      pose proof (getSlackUser_keyed GetUserInfo s user Hk) as Hk1.
      pose proof (getSlackUser_id s user Hk Hf) as Hid.
      destruct (getSlackUser s user) as [suser s1]. cbn [fst snd] in *.
      destruct (IH s1 (users ++ [createUser s1 suser]) Hk1 Hf)
        as (H1 & H2 & H3 & H4).
      { apply Forall_app. split; [done|]. constructor; [|done].
        destruct suser as [v|]; [|done]. cbn.
        apply String.eqb_neq. rewrite (Hid v eq_refl), Hown. congruence. }
      rewrite Hown in *. split_and!; [congruence|done| |done].
      rewrite H3, length_app. cbn [length]. lia.
Qed.

(** The ghost of a user depends on the account's id and the team's id
    only. *)
Lemma createUser_frame s s' suser :
  sinfo_UserID s' = sinfo_UserID s ->
  sinfo_TeamID s' = sinfo_TeamID s ->
  createUser s' suser = createUser s suser.
Proof.
  intros Hu Ht. destruct suser as [v|]; [|done]. cbn. by rewrite Hu, Ht.
Qed.

(** With a client that answers with the user asked for, a lookup does not
    change what any later lookup finds. *)
Lemma getSlackUser_same_answers s userID :
  faithful_client ->
  forall k, (getSlackUser (getSlackUser s userID).2 k).1 = (getSlackUser s k).1.
Proof.
  intros Hf k. unfold SlackBridge.getSlackUser at 2 3.
  destruct (susers s !! userID) as [c|] eqn:Hc; [done|].
  destruct (GetUserInfo userID) as [v|] eqn:Hg; [|done].
  cbn [snd]. unfold SlackBridge.getSlackUser. cbn [susers set_susers].
  rewrite (Hf _ _ Hg).
  destruct (decide (k = userID)) as [->|Hne].
  - by rewrite lookup_insert_eq, Hc, Hg.
  - rewrite lookup_insert_ne by done.
    destruct (susers s !! k); [done|]. by destruct (GetUserInfo k).
Qed.

(** The ghosts the loop over the members adds, in terms of the state the
    loop started in. *)
Lemma fold_memberStep_ghosts s0 members :
  faithful_client ->
  forall s users,
    sinfo_UserID s = sinfo_UserID s0 ->
    sinfo_TeamID s = sinfo_TeamID s0 ->
    (forall k, (getSlackUser s k).1 = (getSlackUser s0 k).1) ->
    let r := fold_left memberStep members (s, users) in
    r.2 = users
          ++ ((fun user => createUser s0 (getSlackUser s0 user).1)
                <$> List.filter
                      (fun user => negb (sinfo_UserID s0 =? user)%string) members)
    /\ sinfo_UserID r.1 = sinfo_UserID s0
    /\ sinfo_TeamID r.1 = sinfo_TeamID s0
    /\ (forall k, (getSlackUser r.1 k).1 = (getSlackUser s0 k).1).
Proof.
  intros Hf. induction members as [|user members IH]; intros s users Hu Ht Hsame r.
  - subst r. cbn. by rewrite app_nil_r.
  - subst r. cbn [fold_left List.filter]. rewrite memberStep_eq, Hu.
    destruct (sinfo_UserID s0 =? user)%string; cbn [negb].
    + by apply IH.
    + pose proof (getSlackUser_frame s user) as (Hown & Hteam & _).
      pose proof (getSlackUser_same_answers s user Hf) as Hnext.
      pose proof (Hsame user) as Huser.
      destruct (getSlackUser s user) as [suser s1]. cbn [fst snd] in *.
      destruct (IH s1 (users ++ [createUser s1 suser])) as (H1 & H2 & H3 & H4).
      * congruence.
      * congruence.
      * intros k. by rewrite Hnext.
      * split_and!; try done.
        rewrite H1, <- app_assoc, fmap_cons. cbn [app]. subst suser.
        rewrite (createUser_frame s0 s1) by congruence. reflexivity.
Qed.

(** X25. [GetChannelUsers] for a channel the client knows, its members
    coming on one page, with a cache keyed by id and a client that answers
    with the user asked for: the result lists, in the order of the page, the
    ghost of every member other than the account itself, as [GetUser] gives
    it in the state before the call (the empty identity for a member that
    cannot be looked up), then the ghost of slackbot, and last the account
    itself. None of the members' ghosts is marked as the account, the cache
    stays keyed by id, and every lookup finds afterwards what it would have
    found before. *)
Theorem GetChannelUsers_one_page s channelID info members fuel :
  GetConversationInfo channelID = Some info ->
  GetUsersPage channelID "" = (members, "") ->
  cache_keyed s ->
  faithful_client ->
  let ghosts :=
    (fun user => createUser s (getSlackUser s user).1)
      <$> List.filter (fun user => negb (sinfo_UserID s =? user)%string) members in
  let bot := createUser s (getSlackUser s "USLACKBOT").1 in
  exists s',
    GetChannelUsers (S fuel) s channelID = Some (s', Some (ghosts ++ [bot; GetMe s]))
    /\ GetMe s' = GetMe s
    /\ length ghosts
       = length (List.filter
                   (fun user => negb (sinfo_UserID s =? user)%string) members)
    /\ Forall (fun g => UMe g = false) ghosts
    /\ (UUser bot = "USLACKBOT" \/ bot = emptyUserInfo)
    /\ cache_keyed s'
    /\ (forall k, (getSlackUser s' k).1 = (getSlackUser s k).1).
Proof.
  intros Hinfo Hpage Hk Hf ghosts bot. unfold SlackRest.GetChannelUsers.
  rewrite Hinfo. cbn [SlackRest.GetChannelUsers_loop]. rewrite Hpage.
  destruct (fold_memberStep members s [] Hk Hf (Forall_nil_2 _))
    as (_ & Hk1 & _ & Hall).
  destruct (fold_memberStep_ghosts s members Hf s [] eq_refl eq_refl
              (fun k => eq_refl)) as (Hghosts & Hown & Hteam & Hsame).
  destruct (fold_left memberStep members (s, [])) as [s1 found].
  cbn [fst snd app] in *. rewrite String.eqb_refl.
  pose proof (getSlackUser_keyed GetUserInfo s1 "USLACKBOT" Hk1) as Hk2.
  pose proof (getSlackUser_id s "USLACKBOT" Hk Hf) as Hid.
  pose proof (getSlackUser_frame s1 "USLACKBOT") as (Hown2 & Hteam2 & _).
  pose proof (getSlackUser_same_answers s1 "USLACKBOT" Hf) as Hsame2.
  pose proof (Hsame "USLACKBOT") as Hbot.
  destruct (getSlackUser s1 "USLACKBOT") as [slackuser s2].
  cbn [fst snd] in *.
  assert (Hme : GetMe s2 = GetMe s).
  { unfold SlackBridge.GetMe. rewrite Hown2, Hown.
    apply createUser_frame; congruence. }
  exists s2. split_and!.
  - rewrite Hme, Hghosts. subst bot ghosts. rewrite <- Hbot.
    rewrite (createUser_frame s s2) by congruence. reflexivity.
  - done.
  - subst ghosts. by rewrite length_fmap.
  - subst ghosts. by rewrite <- Hghosts.
  - subst bot. destruct (getSlackUser s "USLACKBOT").1 as [b|] eqn:Hb; [left|by right].
    cbn. by apply Hid.
  - done.
  - intros k. by rewrite Hsame2.
Qed.

(** An unknown channel: the error of the lookup is returned and nobody is
    looked up. *)
Lemma GetChannelUsers_unknown s channelID fuel :
  GetConversationInfo channelID = None ->
  GetChannelUsers fuel s channelID = Some (s, None).
Proof. intros H. unfold SlackRest.GetChannelUsers. by rewrite H. Qed.

Lemma directReceiver_fold s me members :
  forall ghost,
    fold_left
      (fun receiver member =>
         if (member =? me)%string then receiver
         else createUser s (GetUserInfo member))
      members ghost
    = match last (List.filter (fun member => negb (member =? me)%string) members) with
      | Some member => createUser s (GetUserInfo member)
      | None => ghost
      end.
Proof.
  induction members as [|member members IH]; intros ghost; [done|].
  cbn [fold_left List.filter]. rewrite IH.
  destruct (member =? me)%string; cbn [negb]; [done|].
  rewrite (last_cons member). by destruct (last (List.filter _ members)).
Qed.

(** X26. The receiver of a direct message from the account itself is the
    ghost of the last member of the conversation whose id is not the
    account's, whether or not that member can be looked up; it is the sender
    itself when the conversation has no such member, and always when the
    sender is not the account. *)
Theorem directReceiver_last_other_member s ghost channelID :
  directReceiver s ghost channelID
  = if UMe ghost then
      match last (List.filter
                    (fun member => negb (member =? UUser (GetMe s))%string)
                    (GetUsersInConversation channelID)) with
      | Some member => createUser s (GetUserInfo member)
      | None => ghost
      end
    else ghost.
Proof.
  unfold SlackBridge.directReceiver. destruct (UMe ghost); [|done].
  apply directReceiver_fold.
Qed.

End MemberFacts.

Section TranslatorMoreFacts.

Import Bridge SlackBridge SlackRest.

Variable ToUpper : string -> string.
Variable GetUserInfo : string -> option SlackUser.
Variable GetBotInfo : string -> option Bot.
Variable GetUsersInConversation : string -> list string.
Variable PostMessage : string -> string -> option string.
Variable PreferNickname UseDisplayName : bool.
Variable isValidNick : string -> bool.
Variable cleanupMessage : string -> string.
Variable formatTS : string -> string.
Variable sprintfEmpty : MessageEvent -> string.
Variable meanwhile : gmap string string -> gmap string string.

Local Abbreviation MsgChannel := (MsgChannel ToUpper PostMessage).
Local Abbreviation createUser :=
  (createUser PreferNickname UseDisplayName isValidNick).
Local Abbreviation getSlackUserFromMessage :=
  (getSlackUserFromMessage GetUserInfo GetBotInfo).
Local Abbreviation renderLines := (renderLines formatTS).
Local Abbreviation deliver :=
  (deliver GetUserInfo GetUsersInConversation PreferNickname UseDisplayName
     isValidNick cleanupMessage sprintfEmpty).
Local Abbreviation translatePost :=
  (translatePost GetUserInfo GetBotInfo GetUsersInConversation PreferNickname
     UseDisplayName isValidNick cleanupMessage formatTS sprintfEmpty).
Local Abbreviation handleSlackActionPost :=
  (handleSlackActionPost GetUserInfo GetBotInfo GetUsersInConversation
     PreferNickname UseDisplayName isValidNick cleanupMessage formatTS
     sprintfEmpty meanwhile).

(** An own event whose id is not the recorded one, before or after the
    wait, is forwarded. *)
Lemma own_event_not_recorded s rmsg suser :
  EvUser rmsg = sinfo_UserID s ->
  lastSent s (EvChannel rmsg) <> EvTimestamp rmsg ->
  lastSent (set_msgLast s (meanwhile (msgLast s))) (EvChannel rmsg)
  <> EvTimestamp rmsg ->
  getSlackUserFromMessage s rmsg = Found suser ->
  EvText rmsg <> "" ->
  exists s' acts,
    handleSlackActionPost s rmsg = Some (s', acts) /\ emitted acts <> [].
Proof.
  intros Hown Hrec Hrec' Hsender Htext.
  unfold SlackBridge.handleSlackActionPost, SlackBridge.echoCheck.
  rewrite Hown, String.eqb_refl.
  apply String.eqb_neq in Hrec, Hrec'.
  destruct (lastSent s (EvChannel rmsg) <? EvTimestamp rmsg)%string.
  - rewrite Hrec'.
    destruct (translatePost_forwards GetUserInfo GetBotInfo
                GetUsersInConversation PreferNickname UseDisplayName isValidNick
                cleanupMessage formatTS sprintfEmpty
                (set_msgLast s (meanwhile (msgLast s))) rmsg suser Hsender Htext)
      as (out & -> & Hout & _).
    eexists _, _. split; [reflexivity|]. by rewrite emitted_app.
  - rewrite Hrec.
    destruct (translatePost_forwards GetUserInfo GetBotInfo
                GetUsersInConversation PreferNickname UseDisplayName isValidNick
                cleanupMessage formatTS sprintfEmpty s rmsg suser Hsender Htext)
      as (out & -> & Hout & _).
    eexists _, _. split; [reflexivity|]. by rewrite emitted_app.
Qed.

(** X27. Only the last id sent on a channel is remembered: after two posts
    on the same channel with different ids, the event that echoes the first
    post is not recognised any more and is forwarded like a message from
    another session, while the echo of the second post is suppressed. *)
Theorem echo_of_earlier_post_forwarded s0 channelID t1 t2 M1 M2 s1 s2 rmsg suser :
  MsgChannel s0 channelID t1 = (Some M1, s1) ->
  MsgChannel s1 channelID t2 = (Some M2, s2) ->
  M1 <> M2 ->
  EvUser rmsg = sinfo_UserID s2 ->
  EvChannel rmsg = ToUpper channelID ->
  EvTimestamp rmsg = M1 ->
  meanwhile (msgLast s2) !! ToUpper channelID = msgLast s2 !! ToUpper channelID ->
  getSlackUserFromMessage s2 rmsg = Found suser ->
  EvText rmsg <> "" ->
  lastSent s2 (ToUpper channelID) = M2
  /\ (exists s' acts,
        handleSlackActionPost s2 rmsg = Some (s', acts) /\ emitted acts <> [])
  /\ handleSlackActionPost s2
       (mkMessageEvent (EvUser rmsg) (EvChannel rmsg) M2 (SubType rmsg)
          (SubMessage rmsg) (DeletedTimestamp rmsg) (EvText rmsg) (BotID rmsg)
          (EvUsername rmsg) (Attachments rmsg) (Files rmsg) (ThreadTimestamp rmsg))
     = Some (s2, [ReadLast (EvChannel rmsg)]).
Proof.
  intros H1 H2 Hne Hown Hchan Hts Hquiet Hsender Htext.
  destruct (MsgChannel_records _ _ _ _ _ _ _ H2) as [Hrec _].
  split; [done|]. split.
  - apply own_event_not_recorded with suser; try done.
    + rewrite Hchan, Hrec, Hts. congruence.
    + unfold lastSent in *. cbn [msgLast set_msgLast].
      rewrite Hchan, Hquiet, Hrec, Hts. congruence.
  - etransitivity; [apply echo_suppressed|reflexivity]; cbn; [done|].
    by rewrite Hchan.
Qed.

Lemma attachLines_unhandled acc attach :
  (acc.2 = false -> acc.1 = []) ->
  (attachLines acc attach).2 = false -> (attachLines acc attach).1 = [].
Proof.
  destruct acc as [msgs handled]. unfold attachLines. cbn [fst snd].
  destruct (negb (Pretext attach =? "")%string);
    destruct (AText attach =? "")%string; cbn [fst snd]; try done.
Qed.

Lemma fold_attachLines_unhandled atts :
  forall acc,
    (acc.2 = false -> acc.1 = []) ->
    (fold_left attachLines atts acc).2 = false ->
    (fold_left attachLines atts acc).1 = [].
Proof.
  induction atts as [|a atts IH]; intros acc Hacc; [done|].
  cbn [fold_left]. apply IH. by apply attachLines_unhandled.
Qed.

Lemma fold_fileLine_unhandled files :
  forall acc,
    (acc.2 = false -> acc.1 = []) ->
    (fold_left fileLine files acc).2 = false ->
    (fold_left fileLine files acc).1 = [].
Proof.
  induction files as [|f files IH]; intros acc Hacc; [done|].
  cbn [fold_left]. apply IH. unfold fileLine. cbn [snd]. done.
Qed.

(** Lines are only found together with something handled. *)
Lemma renderLines_unhandled rmsg msgs :
  renderLines rmsg = Some (msgs, false) -> msgs = [].
Proof.
  unfold SlackBridge.renderLines.
  pose proof (fold_fileLine_unhandled (Files rmsg)
                (fold_left attachLines (Attachments rmsg)
                   (if negb (EvText rmsg =? "")%string
                    then (split_lines (EvText rmsg), true) else ([], false)))) as H.
  destruct (fold_left fileLine _ _) as [lines handled]. cbn [fst snd] in H.
  cbv zeta.
  destruct (SubType rmsg =? "message_changed")%string.
  - destruct (SubMessage rmsg); cbn; [|done]. by intros [= _ ?].
  - destruct handled; [by intros [= _ ?]|]. cbn [andb].
    intros [= <-]. apply H; [|done].
    apply fold_attachLines_unhandled.
    by destruct (negb _).
Qed.

Lemma deliver_text s rmsg ghost msg :
  exists e, deliver s rmsg ghost (UNick ghost) true msg = Emit e
    /\ message_text e = Some (cleanupMessage msg).
Proof.
  unfold SlackBridge.deliver. destruct (HasPrefix _ _); eexists; by split.
Qed.

Lemma deliver_texts s rmsg ghost msgs :
  message_text <$> emitted (deliver s rmsg ghost (UNick ghost) true <$> msgs)
  = (fun msg => Some (cleanupMessage msg)) <$> msgs.
Proof.
  induction msgs as [|m msgs IH]; [done|].
  rewrite !fmap_cons.
  destruct (deliver_text s rmsg ghost m) as (e & -> & He).
  by rewrite emitted_cons, fmap_cons, He, IH.
Qed.

(** X28. An event is turned into exactly one message event per rendered
    line, in order, and the text of each is the cleaned-up line: the
    placeholder for an event without text is never sent, because lines are
    only collected together with the flag that something was handled. *)
Theorem translatePost_one_event_per_line s rmsg suser msgs handled :
  getSlackUserFromMessage s (markDeleted formatTS rmsg) = Found suser ->
  renderLines (markDeleted formatTS rmsg) = Some (msgs, handled) ->
  exists out,
    translatePost s rmsg = Some out
    /\ message_text <$> emitted out
       = (fun msg => Some (cleanupMessage msg)) <$> msgs
    /\ length (emitted out) = length msgs
    /\ (handled = false -> out = []).
Proof.
  intros Hsender Hlines.
  rewrite (translatePost_found GetUserInfo GetBotInfo GetUsersInConversation
             PreferNickname UseDisplayName isValidNick cleanupMessage formatTS
             sprintfEmpty s rmsg suser Hsender), Hlines.
  eexists. split; [reflexivity|].
  destruct handled.
  - pose proof (deliver_texts s (markDeleted formatTS rmsg)
                  (createUser s (Some suser)) msgs) as Htexts.
    split_and!; [done| |done].
    by rewrite <- (length_fmap message_text), Htexts, length_fmap.
  - apply renderLines_unhandled in Hlines as ->. done.
Qed.

(** X29. A deletion is announced in the name of slackbot and without the
    text of the deleted message: the translation of a message_deleted event
    does not depend on the text the event carries; when slackbot cannot be
    looked up the event is logged and dropped, and otherwise at least one
    message event is sent and each has slackbot's ghost as its sender. *)
Theorem deletion_notice_from_slackbot s rmsg :
  SubType rmsg = "message_deleted" ->
  (forall text, translatePost s (set_EvText rmsg text) = translatePost s rmsg)
  /\ match GetUserInfo "USLACKBOT" with
     | None => translatePost s rmsg = Some [LogErr]
     | Some bot =>
         exists out,
           translatePost s rmsg = Some out
           /\ emitted out <> []
           /\ Forall (fun e => is_message e
                               /\ message_channel e = Some (EvChannel rmsg)
                               /\ message_sender e = Some (createUser s (Some bot)))
                (emitted out)
     end.
Proof.
  intros Hsub.
  assert (Hindep : forall text,
            translatePost s (set_EvText rmsg text) = translatePost s rmsg).
  { intros text. unfold SlackBridge.translatePost, markDeleted.
    cbn [SubType set_EvText DeletedTimestamp]. by rewrite Hsub. }
  split; [done|].
  assert (Hlookup : getSlackUserFromMessage s rmsg
                    = match GetUserInfo "USLACKBOT" with
                      | None => LookupErr
                      | Some bot => Found bot
                      end).
  { unfold SlackBridge.getSlackUserFromMessage. rewrite Hsub. cbn.
    by destruct (GetUserInfo "USLACKBOT"). }
  destruct (GetUserInfo "USLACKBOT") as [bot|].
  - rewrite <- (Hindep "x").
    destruct (translatePost_forwards GetUserInfo GetBotInfo
                GetUsersInConversation PreferNickname UseDisplayName isValidNick
                cleanupMessage formatTS sprintfEmpty s (set_EvText rmsg "x") bot)
      as (out & Hout & Hne & Hall); [exact Hlookup|done|].
    exists out. done.
  - unfold SlackBridge.translatePost. cbv zeta.
    rewrite (getSlackUserFromMessage_markDeleted GetUserInfo GetBotInfo formatTS).
    by rewrite Hlookup.
Qed.

(** X30. Every attachment body is rendered as at least one and at most seven
    lines, however long the text: at most six quoted rows and the marker. *)
Theorem attachBody_bounded text :
  (1 <= length (attachBody text) <= attachLineCap + 1)%nat.
Proof.
  unfold attachBody, attachLineCap.
  pose proof (split_lines_nonempty text) as Hne.
  destruct (le_lt_dec 6 (length (split_lines text))) as [Hlong|Hshort].
  - rewrite (attachRows_long _ 0);
      [|lia|change (Z.to_nat (6 - 0)) with 6%nat; lia].
    change (Z.to_nat (6 - 0)) with 6%nat.
    rewrite length_app, length_fmap, length_take. cbn [length]. lia.
  - rewrite (attachRows_short _ 0);
      [|lia|change (Z.to_nat (6 - 0)) with 6%nat; lia].
    rewrite length_fmap. destruct (split_lines text); [done|cbn [length] in *; lia].
Qed.

End TranslatorMoreFacts.

(** * Instances of the further properties *)

Section RegistryWitnesses.

Import GoString Irc Bridge Irckit Samples IrckitRest RegistrySamples.

(** X1, witness: [Bob] joins the registry of [srv0]; [BOB] is refused. *)
Lemma add_then_same_key_refused_witness :
  exists s1,
    add ascii_ToLower srv0 2 bobUser = (true, s1, [Lock; PutUser "bob" 2; Unlock])
    /\ HasUserID ascii_ToLower s1 "Bob" = Some 2%positive
    /\ HasUserID ascii_ToLower s1 "BOB" = Some 2%positive
    /\ add ascii_ToLower s1 3 bobShout = (false, s1, [Lock; Unlock]).
Proof.
  apply (add_then_same_key_refused ascii_ToLower srv0 2 bobUser 3 bobShout).
  - vm_compute. reflexivity.
  - vm_compute. reflexivity.
Defined.

(** [Bob] and [BOB] in one list: the first of the two gets the key. *)
Example BatchAdd_first_wins :
  users (BatchAdd ascii_ToLower srv0 [(2%positive, bobUser); (3%positive, bobShout)]).1
  = <["bob" := 2%positive]> (users srv0)
  /\ (BatchAdd ascii_ToLower srv0 [(2%positive, bobUser); (3%positive, bobShout)]).2
     = [Lock; PutUser "bob" 2; Unlock].
Proof. split; vm_compute; reflexivity. Qed.

(** X3, witness: [alice] becomes [Bob] and [Alice] again. *)
Lemma RenameUser_and_back_witness :
  exists s1 usr1 done1 s2 usr2 done2,
    RenameUser ascii_ToLower prefixOf srv0 1 alice "Bob"
    = Some (true, s1, usr1, done1)
    /\ Len s1 = Len srv0
    /\ (forall k, k <> "alice" -> k <> "bob" -> users s1 !! k = users srv0 !! k)
    /\ users s1 !! "alice" = None
    /\ RenameUser ascii_ToLower prefixOf s1 1 usr1 "Alice"
       = Some (true, s2, usr2, done2)
    /\ users s2 = users srv0
    /\ usr2 = alice.
Proof.
  apply (RenameUser_and_back ascii_ToLower prefixOf srv0 1 alice "Bob").
  - vm_compute; discriminate.
  - vm_compute. reflexivity.
  - vm_compute. reflexivity.
  - vm_compute. reflexivity.
Defined.

(** X4, witness: [alice] quits [srv0]. *)
Lemma Quit_deletes_one_key_witness :
  HasUserID ascii_ToLower (Quit ascii_ToLower srv0 1 alice "").1 "Alice" = None
  /\ (forall k, k <> "alice" ->
        users (Quit ascii_ToLower srv0 1 alice "").1 !! k = users srv0 !! k)
  /\ Len (Quit ascii_ToLower srv0 1 alice "").1 = Len srv0 - 1
  /\ (forall s0, users s0 !! "alice" = None ->
        users (Quit ascii_ToLower (add ascii_ToLower s0 1 alice).1.2 1 alice "").1
        = users s0).
Proof.
  apply (Quit_deletes_one_key ascii_ToLower srv0 1 alice 1%positive).
  vm_compute. reflexivity.
Defined.

(** X5, witness: [Channel("C1")] on [srv0] and again. *)
Lemma server_Channel_again_witness :
  HasChannel srvC1 "C1" = Some chanC1
  /\ server_Channel "slack" nameById noInfo srvC1 "C1"
     = Some (chanC1, srvC1, [Lock; Unlock])
  /\ (forall k, is_Some (channels srv0 !! k) -> is_Some (channels srvC1 !! k))
  /\ users srvC1 = users srv0.
Proof.
  apply (server_Channel_again "slack" nameById noInfo srv0 "C1" chanC1 srvC1
           [Lock; LogError "C1"; Unlock]).
  vm_compute. reflexivity.
Defined.

(** X6, witness: [Channel("C1")] on [srv0] adds the keys [C1] and [#C1]. *)
Lemma ChannelCount_after_create_witness :
  ChannelCount srvC1
  = ChannelCount srv0
    + (if decide (nameById "C1" = "C1") then 1
       else match channels srv0 !! nameById "C1" with
            | None => 2
            | Some _ => 1
            end).
Proof.
  apply (ChannelCount_after_create "slack" nameById noInfo srv0 "C1" chanC1 srvC1
           [Lock; LogError "C1"; Unlock]).
  - vm_compute. reflexivity.
  - vm_compute. reflexivity.
Defined.

(** X7, witness: [Channel("C1")], [UnlinkChannel] and [Channel("C1")] again
    on [srv0]. *)
Lemma Channel_Unlink_Channel_witness :
  channels (UnlinkChannel srvC1 chanC1).1 = channels srv0
  /\ exists ch2 s3 done3,
       server_Channel "slack" nameById noInfo (UnlinkChannel srvC1 chanC1).1 "C1"
       = Some (ch2, s3, done3)
       /\ ch_ptr ch2 <> ch_ptr chanC1
       /\ ch_id ch2 = ch_id chanC1 /\ ch_name ch2 = ch_name chanC1
       /\ HasChannel s3 "C1" = Some ch2.
Proof.
  apply (Channel_Unlink_Channel "slack" nameById noInfo srv0 "C1" chanC1 srvC1
           [Lock; LogError "C1"; Unlock]).
  - vm_compute. reflexivity.
  - vm_compute. reflexivity.
  - vm_compute. reflexivity.
Defined.

(** X9, witness: NICK Bob and USER bob on [srv0]. *)
Lemma Connect_NICK_USER_witness :
  exists s1,
    Connect ascii_ToLower hostOf noWelcomeError srv0 2 newcomer
      [Recv (Some (nickMsg "Bob")); Recv (Some (userMsg "bob" "Bob B"))]
    = (Registered None, s1,
       mkUser "Bob" "bob" "Bob B" "irc.example" None ∅,
       [GoDecode 2; Lock; PutUser "bob" 2; Unlock; Welcome 2; GoHandle 2])
    /\ users s1 = <["bob" := 2%positive]> (users srv0)
    /\ HasUserID ascii_ToLower s1 "Bob" = Some 2%positive
    /\ su s1 = Some 2%positive
    /\ channels s1 = channels srv0.
Proof.
  apply (Connect_NICK_USER ascii_ToLower hostOf noWelcomeError srv0 2 newcomer
           (nickMsg "Bob") (userMsg "bob" "Bob B") "Bob" "bob").
  - vm_compute; discriminate.
  - reflexivity.
  - left. reflexivity.
  - discriminate.
  - reflexivity.
  - reflexivity.
  - discriminate.
  - reflexivity.
  - reflexivity.
  - vm_compute. reflexivity.
  - intros s' usr'. reflexivity.
Defined.

(** X10, witness: the same handshake with a welcome that fails. *)
Lemma Connect_welcome_fails_witness :
  exists s1 usr1,
    Connect ascii_ToLower hostOf welcomeFails srv0 2 newcomer
      [Recv (Some (nickMsg "Bob")); Recv (Some (userMsg "bob" "Bob B"))]
    = (Registered (Some (ErrOther "write failed")), s1, usr1,
       [GoDecode 2; Lock; PutUser "bob" 2; Unlock; Welcome 2; CloseConn 2])
    /\ hs_error (Registered (Some (ErrOther "write failed")))
       = Some (ErrOther "write failed")
    /\ HasUserID ascii_ToLower s1 "Bob" = Some 2%positive
    /\ (forall u2 usr2, ID ascii_ToLower (Nick usr2) = ID ascii_ToLower "Bob" ->
          add ascii_ToLower s1 u2 usr2 = (false, s1, [Lock; Unlock])).
Proof.
  apply (Connect_welcome_fails ascii_ToLower hostOf welcomeFails srv0 2 newcomer
           (nickMsg "Bob") (userMsg "bob" "Bob B") "Bob" "bob"
           (ErrOther "write failed")).
  - vm_compute; discriminate.
  - reflexivity.
  - left. reflexivity.
  - discriminate.
  - reflexivity.
  - reflexivity.
  - discriminate.
  - reflexivity.
  - vm_compute. reflexivity.
  - intros s' usr'. reflexivity.
Defined.

(** X11, witness: NICK Alice, taken on [srv0], USER bob, NICK Bob. *)
Lemma Connect_retries_after_collision_witness :
  exists s1,
    Connect ascii_ToLower hostOf noWelcomeError srv0 2 newcomer
      [Recv (Some (nickMsg "Alice")); Recv (Some (userMsg "bob" "Bob B"));
       Recv (Some (nickMsg "Bob"))]
    = (Registered None, s1,
       mkUser "Bob" "bob" "Bob B" "irc.example" None ∅,
       [GoDecode 2; Lock; Unlock;
        EncodeMessage srv0 2 ERR_NICKNAMEINUSE ["Alice"] "Nickname is already in use";
        Lock; PutUser "bob" 2; Unlock; Welcome 2; GoHandle 2])
    /\ users s1 = <["bob" := 2%positive]> (users srv0)
    /\ users s1 !! "alice" = Some 1%positive.
Proof.
  apply (Connect_retries_after_collision ascii_ToLower hostOf noWelcomeError srv0 2
           newcomer (nickMsg "Alice") (userMsg "bob" "Bob B") (nickMsg "Bob")
           "Alice" "bob" "Bob" 1%positive).
  - vm_compute; discriminate.
  - reflexivity.
  - reflexivity.
  - discriminate.
  - reflexivity.
  - reflexivity.
  - discriminate.
  - reflexivity.
  - reflexivity.
  - discriminate.
  - reflexivity.
  - reflexivity.
  - vm_compute. reflexivity.
  - vm_compute. reflexivity.
  - intros s' usr'. reflexivity.
Defined.

(** X12, witness: PASS with one token, then NICK and USER. *)
Lemma Connect_PASS_selects_service_witness :
  exists s1 usr1,
    Connect ascii_ToLower hostOf noWelcomeError srv0 2 newcomer
      [Recv (Some (passMsg "xoxp-1")); Recv (Some (nickMsg "Bob"));
       Recv (Some (userMsg "bob" "Bob B"))]
    = (Registered None, s1, usr1,
       [GoDecode 2; Lock; PutUser "bob" 2; Unlock; Welcome 2;
        LoginCall 2 "slack" ["xoxp-1"]; GoHandle 2])
    /\ Pass usr1 = Some ["xoxp-1"]
    /\ users s1 !! "bob" = Some 2%positive.
Proof.
  apply (Connect_PASS_selects_service ascii_ToLower hostOf noWelcomeError srv0 2
           newcomer (passMsg "xoxp-1") (nickMsg "Bob") (userMsg "bob" "Bob B")
           "Bob" "bob" ["xoxp-1"]).
  - vm_compute; discriminate.
  - reflexivity.
  - reflexivity.
  - discriminate.
  - reflexivity.
  - reflexivity.
  - discriminate.
  - reflexivity.
  - reflexivity.
  - discriminate.
  - reflexivity.
  - reflexivity.
  - vm_compute. reflexivity.
  - intros s' usr'. reflexivity.
Defined.

(** X13, witness: two JOIN messages, then NICK Bob and USER bob. *)
Lemma JOINs_use_up_handshake_budget_witness :
  ((length [joinMsg; joinMsg] <= 17)%nat ->
   exists s1,
     Connect ascii_ToLower hostOf noWelcomeError srv0 2 newcomer
       (((fun msg => Recv (Some msg)) <$> [joinMsg; joinMsg])
        ++ [Recv (Some (nickMsg "Bob")); Recv (Some (userMsg "bob" "Bob B"))])
     = (Registered None, s1,
        mkUser "Bob" "bob" "Bob B" "irc.example" None ∅,
        [GoDecode 2] ++ not_registered_replies srv0 2 [joinMsg; joinMsg]
        ++ [Lock; PutUser "bob" 2; Unlock; Welcome 2; GoHandle 2])
     /\ users s1 = <["bob" := 2%positive]> (users srv0))
  /\ (length [joinMsg; joinMsg] = 18%nat ->
      exists usr1,
        Connect ascii_ToLower hostOf noWelcomeError srv0 2 newcomer
          (((fun msg => Recv (Some msg)) <$> [joinMsg; joinMsg])
           ++ [Recv (Some (nickMsg "Bob")); Recv (Some (userMsg "bob" "Bob B"))])
        = (Failed ErrHandshakeFailed, srv0, usr1,
           [GoDecode 2] ++ not_registered_replies srv0 2 [joinMsg; joinMsg]
           ++ [CloseConn 2])).
Proof.
  apply (JOINs_use_up_handshake_budget ascii_ToLower hostOf noWelcomeError srv0 2
           newcomer [joinMsg; joinMsg] (nickMsg "Bob") (userMsg "bob" "Bob B")
           "Bob" "bob").
  - vm_compute; discriminate.
  - repeat constructor.
  - reflexivity.
  - reflexivity.
  - discriminate.
  - reflexivity.
  - reflexivity.
  - discriminate.
  - reflexivity.
  - reflexivity.
  - vm_compute. reflexivity.
  - intros s' usr'. reflexivity.
Defined.

(** After eighteen JOIN messages USER is the twentieth message. *)
Example eighteen_JOINs_fail :
  (Connect ascii_ToLower hostOf noWelcomeError srv0 2 newcomer
     (((fun msg => Recv (Some msg)) <$> replicate 18 joinMsg)
      ++ [Recv (Some (nickMsg "Bob")); Recv (Some (userMsg "bob" "Bob B"))])).1.1.1
  = Failed ErrHandshakeFailed.
Proof. vm_compute. reflexivity. Qed.

(** X15, witness: a server configured with [MaxNickLen] -1. *)
Lemma Server_negative_MaxNickLen_panics_witness :
  MaxNickLen (config (Server cfgNegative)) = MaxNickLen cfgNegative
  /\ RenameUser ascii_ToLower prefixOf (Server cfgNegative) 1 alice "Bob" = None
  /\ (Connect ascii_ToLower hostOf noWelcomeError (Server cfgNegative) 2 newcomer
        [Recv (Some (nickMsg "Bob")); Recv (Some (userMsg "bob" "Bob B"))]).1.1.1
     = Panicked.
Proof.
  apply (Server_negative_MaxNickLen_panics ascii_ToLower prefixOf hostOf
           noWelcomeError cfgNegative 2 newcomer "Bob"
           (nickMsg "Bob") (userMsg "bob" "Bob B") "Bob" "bob").
  - vm_compute. reflexivity.
  - reflexivity.
  - reflexivity.
  - discriminate.
  - reflexivity.
  - reflexivity.
  - discriminate.
  - reflexivity.
Defined.

(** X16, witness: [Alice] and [alice] on [srv0]. *)
Lemma HasUser_exact_nick_witness :
  match HasUser heap0 [("alice", 1%positive)] "Alice" with
  | Some u =>
      (exists usr, heap0 !! u = Some usr /\ Nick usr = "Alice")
      /\ HasUserID ascii_ToLower srv0 "Alice" = Some u
  | None =>
      forall k u usr,
        users srv0 !! k = Some u -> heap0 !! u = Some usr -> Nick usr <> "Alice"
  end.
Proof.
  apply (HasUser_exact_nick ascii_ToLower srv0 heap0 [("alice", 1%positive)] "Alice").
  - unfold srv0. cbn [users]. by rewrite map_to_list_singleton.
  - intros k u Hk. unfold srv0 in Hk. cbn [users] in Hk.
    apply lookup_singleton_Some in Hk as [<- <-].
    exists alice. split; vm_compute; reflexivity.
Defined.

End RegistryWitnesses.

Section ClientWitnesses.

Import GoString Irc Bridge Irckit Samples SlackBridge SlackSamples SlackRest
  ClientSamples.

(** X18, witness: a team list in which the id U2 comes twice; the later
    user is the one cached. *)
Lemma cacheUsers_from_empty_witness :
  susers (cacheUsers slack0 [me; bob; bobLater]) !! "U1" = None
  /\ (forall k, k <> "U1" ->
        susers (cacheUsers slack0 [me; bob; bobLater]) !! k
        = last (List.filter (fun mmuser => bool_decide (SID mmuser = k))
                  [me; bob; bobLater]))
  /\ (forall mmuser, mmuser ∈ [me; bob; bobLater] -> SID mmuser <> "U1" ->
        exists v, susers (cacheUsers slack0 [me; bob; bobLater]) !! SID mmuser
                  = Some v
                  /\ SID v = SID mmuser)
  /\ cache_keyed (cacheUsers slack0 [me; bob; bobLater])
  /\ (forall k v, susers (cacheUsers slack0 [me; bob; bobLater]) !! k = Some v ->
        v ∈ [me; bob; bobLater])
  /\ msgLast (cacheUsers slack0 [me; bob; bobLater]) = msgLast slack0.
Proof.
  apply (cacheUsers_from_empty slack0 [me; bob; bobLater]). reflexivity.
Defined.

(** The later of the two users with the id U2 is the one in the cache. *)
Example cacheUsers_last_wins :
  susers (cacheUsers slack0 [me; bob; bobLater]) !! "U2" = Some bobLater.
Proof. vm_compute. reflexivity. Qed.

(** X19, witness: a message of [bob], who then leaves the channel, on a
    bridge that starts with an empty cache. *)
Lemma handleSlack_keeps_cache_keyed_witness :
  cache_keyed (mkSlack "U1" "me" "T1" {["U2" := bob]} ∅).
Proof.
  apply (handleSlack_keeps_cache_keyed userInfo noBot noMembers false false anyNick
           asIs asIs emptyDump nothingSent
           [EvMessage (post "U2" "C1" "100" "hello");
            EvMemberLeftChannel "U2" "C1"]
           slack0 (mkSlack "U1" "me" "T1" {["U2" := bob]} ∅)
           (snd (default (slack0, [])
                   (handleSlack userInfo noBot noMembers false false anyNick
                      asIs asIs emptyDump nothingSent slack0
                      [EvMessage (post "U2" "C1" "100" "hello");
                       EvMemberLeftChannel "U2" "C1"])))).
  - intros k v Hk. vm_compute in Hk. discriminate.
  - vm_compute. reflexivity.
Defined.

(** X20, witness: the lookup of U2 on an empty cache. *)
Lemma getSlackUser_caches_witness :
  getSlackUser userInfo (mkSlack "U1" "me" "T1" {["U2" := bob]} ∅) "U2"
  = (Some bob, mkSlack "U1" "me" "T1" {["U2" := bob]} ∅)
  /\ susers (mkSlack "U1" "me" "T1" {["U2" := bob]} ∅) !! "U2" = Some bob.
Proof.
  exact (getSlackUser_caches userInfo slack0 "U2" eq_refl).
Defined.

(** X21, witness: the four conversations on two pages; [random] is left out
    because the account is not a member. *)
Lemma GetChannels_all_pages_witness :
  GetChannels twoPages 2 slack0
  = Some (channelInfoOf slack0
            <$> List.filter IsMember
                  (all_conversations
                     [([general; random], false); ([secret; archive], false)]),
          errors_in [([general; random], false); ([secret; archive], false)]).
Proof.
  apply (GetChannels_all_pages twoPages slack0
           [([general; random], false); ([secret; archive], false)] 2).
  - exists "p2". split; [discriminate|]. split; reflexivity.
  - simpl. lia.
Defined.

(** X22, witness: of the last page only [secret] is listed, [archive] is
    not. *)
Lemma List_stops_after_first_of_last_page_witness :
  Slack_List twoPages 2
  = Some (listed (fold_left listed
                    (all_conversations [([general; random], false)]) ∅) secret).
Proof.
  apply (List_stops_after_first_of_last_page twoPages
           [([general; random], false)] secret [archive] false 2).
  - exists "p2". split; [discriminate|]. split; reflexivity.
  - simpl. lia.
Defined.

(** X23, witness: a client that fails, allowed a thousand pages. *)
Lemma List_never_returns_on_empty_last_page_witness :
  Slack_List failingPages 1000 = None.
Proof.
  apply (List_never_returns_on_empty_last_page failingPages [] true 1000).
  reflexivity.
Defined.

(** X24, witness: [Channel("C1")] on [srv0] over the client with two
    pages. *)
Lemma Channel_over_slack_witness :
  exists ch s1 done,
    server_Channel Protocol (GetChannelName conversationInfo)
      (GetChannel_result twoPages 2 slack0) srv0 "C1"
    = Some (ch, s1, done)
    /\ ch_id ch = "C1"
    /\ ch_service ch = "slack"
    /\ ch_name ch = match conversationInfo "C1" with
                    | None => "C1"
                    | Some info => "#" +:+ CvName info
                    end
    /\ match List.find (member_with_id "C1")
               (all_conversations
                  [([general; random], false); ([secret; archive], false)]) with
       | Some mmchannel =>
           ch_private ch = negb (IsOpen mmchannel) /\ done = [Lock; Unlock]
       | None =>
           ch_private ch = false
           /\ done = [Lock] ++ (if HasPrefix "C1" "&" then []
                                else [LogError "C1"]) ++ [Unlock]
       end
    /\ HasChannel s1 "C1" = Some ch
    /\ HasChannel s1 (ch_name ch) = Some ch.
Proof.
  apply (Channel_over_slack twoPages conversationInfo srv0 slack0
           [([general; random], false); ([secret; archive], false)] 2 "C1"
           1%positive).
  - exists "p2". split; [discriminate|]. split; reflexivity.
  - simpl. lia.
  - reflexivity.
  - vm_compute. reflexivity.
Defined.

(** X25, witness: the members U1, U2 and the unknown U9 of C1: the ghost of
    [bob], the empty identity for U9, slackbot and the account. *)
Lemma GetChannelUsers_one_page_witness :
  exists s',
    GetChannelUsers conversationInfo membersOnePage userInfoBot false false anyNick
      1 slack0 "C1"
    = Some (s', Some ([ghostOf bob false; emptyUserInfo]
                      ++ [ghostOf slackbot false; ghostOf me true]))
    /\ GetMe userInfoBot false false anyNick s' = ghostOf me true
    /\ length [ghostOf bob false; emptyUserInfo]
       = length (List.filter
                   (fun user => negb (sinfo_UserID slack0 =? user)%string)
                   ["U1"; "U2"; "U9"])
    /\ Forall (fun g => UMe g = false) [ghostOf bob false; emptyUserInfo]
    /\ (UUser (ghostOf slackbot false) = "USLACKBOT"
        \/ ghostOf slackbot false = emptyUserInfo)
    /\ cache_keyed s'
    /\ (forall k, (getSlackUser userInfoBot s' k).1
                  = (getSlackUser userInfoBot slack0 k).1).
Proof.
  apply (GetChannelUsers_one_page conversationInfo membersOnePage userInfoBot
           false false anyNick slack0 "C1" general ["U1"; "U2"; "U9"] 0).
  - reflexivity.
  - reflexivity.
  - intros k v Hk. vm_compute in Hk. discriminate.
  - intros userID user. unfold userInfoBot, userInfo.
    destruct (userID =? "USLACKBOT")%string eqn:E1;
      [apply String.eqb_eq in E1; by intros [= <-]|].
    destruct (userID =? "U1")%string eqn:E2;
      [apply String.eqb_eq in E2; by intros [= <-]|].
    destruct (userID =? "U2")%string eqn:E3;
      [apply String.eqb_eq in E3; by intros [= <-]|].
    discriminate.
Defined.

(** X27, witness: two posts on c1 get the ids 100 and 200; the event with
    the id 100 comes back afterwards. *)
Lemma echo_of_earlier_post_forwarded_witness :
  lastSent (mkSlack "U1" "me" "T1" ∅ {["C1" := "200"]}) (ascii_ToUpper "c1") = "200"
  /\ (exists s' acts,
        handleSlackActionPost userInfo noBot noMembers false false anyNick asIs asIs
          emptyDump nothingSent (mkSlack "U1" "me" "T1" ∅ {["C1" := "200"]})
          (post "U1" "C1" "100" "one")
        = Some (s', acts) /\ emitted acts <> [])
  /\ handleSlackActionPost userInfo noBot noMembers false false anyNick asIs asIs
       emptyDump nothingSent (mkSlack "U1" "me" "T1" ∅ {["C1" := "200"]})
       (post "U1" "C1" "200" "one")
     = Some (mkSlack "U1" "me" "T1" ∅ {["C1" := "200"]}, [ReadLast "C1"]).
Proof.
  apply (echo_of_earlier_post_forwarded ascii_ToUpper userInfo noBot noMembers
           postByText false false anyNick asIs asIs emptyDump nothingSent
           slack0 "c1" "one" "two" "100" "200"
           (mkSlack "U1" "me" "T1" ∅ {["C1" := "100"]})
           (mkSlack "U1" "me" "T1" ∅ {["C1" := "200"]})
           (post "U1" "C1" "100" "one") me).
  - vm_compute. reflexivity.
  - vm_compute. reflexivity.
  - discriminate.
  - reflexivity.
  - vm_compute. reflexivity.
  - reflexivity.
  - reflexivity.
  - vm_compute. reflexivity.
  - discriminate.
Defined.

(** X28, witness: a message of two lines from [bob]. *)
Lemma translatePost_one_event_per_line_witness :
  exists out,
    translatePost userInfo noBot noMembers false false anyNick asIs asIs emptyDump
      slack0 (post "U2" "C1" "100" ("one" +:+ nl +:+ "two"))
    = Some out
    /\ message_text <$> emitted out
       = (fun msg => Some (asIs msg)) <$> ["one"; "two"]
    /\ length (emitted out) = length ["one"; "two"]
    /\ (true = false -> out = []).
Proof.
  apply (translatePost_one_event_per_line userInfo noBot noMembers false false
           anyNick asIs asIs emptyDump slack0
           (post "U2" "C1" "100" ("one" +:+ nl +:+ "two")) bob ["one"; "two"] true).
  - vm_compute. reflexivity.
  - vm_compute. reflexivity.
Defined.

(** X29, witness: the notice [deleted] on a client that knows slackbot. *)
Lemma deletion_notice_from_slackbot_witness :
  (forall text,
     translatePost userInfoBot noBot noMembers false false anyNick asIs asIs
       emptyDump slack0 (set_EvText deleted text)
     = translatePost userInfoBot noBot noMembers false false anyNick asIs asIs
         emptyDump slack0 deleted)
  /\ match userInfoBot "USLACKBOT" with
     | None =>
         translatePost userInfoBot noBot noMembers false false anyNick asIs asIs
           emptyDump slack0 deleted
         = Some [LogErr]
     | Some bot =>
         exists out,
           translatePost userInfoBot noBot noMembers false false anyNick asIs asIs
             emptyDump slack0 deleted
           = Some out
           /\ emitted out <> []
           /\ Forall (fun e => is_message e
                               /\ message_channel e = Some (EvChannel deleted)
                               /\ message_sender e
                                  = Some (createUser false false anyNick slack0
                                            (Some bot)))
                (emitted out)
     end.
Proof.
  apply (deletion_notice_from_slackbot userInfoBot noBot noMembers false false
           anyNick asIs asIs emptyDump slack0 deleted).
  reflexivity.
Defined.

End ClientWitnesses.
